(** * Research pipeline: retrieval, relevance filter, critic and coordinator

    A shallow embedding of the pipeline of [src/]:
    - [rag/web_search.py], [rag/retriever.py]   (modules [WebSearch], [HybridRetriever])
    - [agents/research_agent.py]                (module [ResearchAgent])
    - [agents/summarizer_agent.py]              (module [SummarizerAgent])
    - [agents/critic_agent.py]                  (module [CriticAgent])
    - [agents/writer_agent.py]                  (module [WriterAgent])
    - [graph/coordinator.py]                    (module [ResearchCoordinator])

    Python code that may raise is a computation in a state-and-exception
    monad: the state carries the outside world (vector index, web, language
    model, clock, file system) and the four agents' private error logs
    ([BaseAgent.state.errors]). *)

From Stdlib Require Import List String Ascii Bool Arith ZArith QArith Lia.
From Stdlib Require Import Permutation Sorted Lqa.
Import ListNotations.

Set Warnings "-register-all".

Local Open Scope string_scope.
Local Open Scope list_scope.

Infix "^^" := String.append (at level 60, right associativity).

(** ** Exceptions and state *)

(** The outcome of a Python call: a value, or a raised [Exception] whose
    [str(e)] is [msg]. *)
Inductive result (A : Type) : Type :=
| Ok (a : A)
| Raise (msg : string).
Arguments Ok {A} a.
Arguments Raise {A} msg.

(** [BaseAgent.state.errors], one log per agent, next to the outside world. *)
Record St (W : Type) : Type := mkSt {
  world : W;
  research_errors : list string;
  summarizer_errors : list string;
  critic_errors : list string;
  writer_errors : list string
}.
Arguments mkSt {W}.
Arguments world {W}.
Arguments research_errors {W}.
Arguments summarizer_errors {W}.
Arguments critic_errors {W}.
Arguments writer_errors {W}.

Definition M (W A : Type) : Type := St W -> result A * St W.

Definition ret {W A} (a : A) : M W A := fun st => (Ok a, st).

Definition raise {W A} (msg : string) : M W A := fun st => (Raise msg, st).

Definition bind {W A B} (c : M W A) (k : A -> M W B) : M W B :=
  fun st =>
    match c st with
    | (Ok a, st') => k a st'
    | (Raise msg, st') => (Raise msg, st')
    end.

(** [try: c  except Exception as e: h (str e)]; what [c] did to the state
    before raising stays done. *)
Definition try_except {W A} (c : M W A) (h : string -> M W A) : M W A :=
  fun st =>
    match c st with
    | (Ok a, st') => (Ok a, st')
    | (Raise msg, st') => h msg st'
    end.

(** A call to an outside collaborator, which sees the world only. *)
Definition call {W A} (f : W -> result A * W) : M W A :=
  fun st =>
    let (r, w) := f (world st) in
    (r, mkSt w (research_errors st) (summarizer_errors st)
               (critic_errors st) (writer_errors st)).

(** A pure Python expression that may raise. *)
Definition lift {W A} (r : result A) : M W A := fun st => (r, st).

Declare Scope py_scope.
Delimit Scope py_scope with py.
Notation "x <- c ;; k" := (bind c (fun x => k))
  (at level 61, c at next level, right associativity) : py_scope.
Notation "c ;;; k" := (bind c (fun _ => k))
  (at level 61, right associativity) : py_scope.
Local Open Scope py_scope.

Inductive Agent : Type := Research | Summarizer | Critic | Writer.

(** [BaseAgent.add_error]: [self.state.errors.append(error)]. *)
Definition add_error {W} (a : Agent) (error : string) : M W unit :=
  fun st =>
    (Ok tt,
     match a with
     | Research => mkSt (world st) (research_errors st ++ [error]) (summarizer_errors st)
                        (critic_errors st) (writer_errors st)
     | Summarizer => mkSt (world st) (research_errors st) (summarizer_errors st ++ [error])
                          (critic_errors st) (writer_errors st)
     | Critic => mkSt (world st) (research_errors st) (summarizer_errors st)
                      (critic_errors st ++ [error]) (writer_errors st)
     | Writer => mkSt (world st) (research_errors st) (summarizer_errors st)
                      (critic_errors st) (writer_errors st ++ [error])
     end).

(** ** Python values *)

(** A Python [float] (or an [int] used as one): a finite number, an infinity
    or NaN.  Finite values are kept as exact rationals; only comparisons,
    [min]/[max], sums and division by a positive count are used, and rounding
    to nearest is monotone, so bounds shown here hold for the rounded values
    as well. *)
Inductive pyfloat : Type :=
| PFin (q : Q)
| PInf
| NInf
| PNaN.

Definition Qltb (a b : Q) : bool := negb (Qle_bool b a).

(** [a < b] on floats: every comparison with NaN is [False]. *)
Definition py_lt (a b : pyfloat) : bool :=
  match a, b with
  | PNaN, _ => false
  | _, PNaN => false
  | PFin x, PFin y => Qltb x y
  | PFin _, PInf => true
  | PFin _, NInf => false
  | PInf, _ => false
  | NInf, NInf => false
  | NInf, _ => true
  end.

Definition py_gt (a b : pyfloat) : bool := py_lt b a.

(** The builtin [max(a, b)]: [b] replaces [a] only if [b > a]. *)
Definition py_max (a b : pyfloat) : pyfloat := if py_gt b a then b else a.

(** The builtin [min(a, b)]: [b] replaces [a] only if [b < a]. *)
Definition py_min (a b : pyfloat) : pyfloat := if py_lt b a then b else a.

Definition py_add (a b : pyfloat) : pyfloat :=
  match a, b with
  | PNaN, _ => PNaN
  | _, PNaN => PNaN
  | PFin x, PFin y => PFin (x + y)
  | PInf, NInf => PNaN
  | NInf, PInf => PNaN
  | PInf, _ => PInf
  | _, PInf => PInf
  | NInf, _ => NInf
  | _, NInf => NInf
  end.

(** [a / n] for a positive integer [n]. *)
Definition py_div_pos (a : pyfloat) (n : positive) : pyfloat :=
  match a with
  | PFin x => PFin (x / inject_Z (Zpos n))
  | other => other
  end.

(** [sum(xs)], which starts from [0]. *)
Definition py_sum (xs : list pyfloat) : pyfloat :=
  fold_left py_add xs (PFin 0).

(** The closed interval [0, 1]. *)
Definition in_unit_interval (a : pyfloat) : Prop :=
  exists q, a = PFin q /\ 0 <= q /\ q <= 1.

(** [str.strip()]: leading and trailing whitespace removed.  The whitespace
    of [str.isspace] among the ASCII characters: tab to carriage return
    (9-13), the four separators (28-31) and the space (32). *)
Definition is_space (c : ascii) : bool :=
  let n := nat_of_ascii c in
  ((9 <=? n)%nat && (n <=? 13)%nat) || ((28 <=? n)%nat && (n <=? 32)%nat).

Fixpoint lstrip (s : string) : string :=
  match s with
  | EmptyString => EmptyString
  | String c rest => if is_space c then lstrip rest else s
  end.

Fixpoint rstrip (s : string) : string :=
  match s with
  | EmptyString => EmptyString
  | String c rest =>
      match rstrip rest with
      | EmptyString => if is_space c then EmptyString else String c EmptyString
      | kept => String c kept
      end
  end.

Definition strip (s : string) : string := rstrip (lstrip s).

(** What [eval] of a model response, or a metadata entry, can be. *)
Inductive pyval : Type :=
| VNone
| VInt (z : Z)
| VFloat (f : pyfloat)
| VStr (s : string)
| VList (l : list pyval)
| VDict (kv : list (string * pyval)).

(** ** Documents *)

(** [Document.metadata], a dict, with the keys the code reads or writes.
    [None] is an absent key.  [relevance_score] is the index's similarity
    score, a finite number. *)
Record Metadata : Type := mkMetadata {
  title : option string;
  authors : option (list string);
  year : option pyval;
  source : option string;
  url : option string;
  snippet : option string;
  relevance_score : option Q
}.

Record Document : Type := mkDocument {
  page_content : string;
  metadata : Metadata
}.

(** [d.get(key, default)]. *)
Definition get {A} (entry : option A) (default : A) : A :=
  match entry with
  | Some v => v
  | None => default
  end.

(** [doc.metadata.get("relevance_score", 0)]. *)
Definition score_of (doc : Document) : Q :=
  get (relevance_score (metadata doc)) 0.

(** [dict.update]: the entries of [m2] are written over those of [m1]. *)
Definition update_entry {A} (e1 e2 : option A) : option A :=
  match e2 with
  | Some v => Some v
  | None => e1
  end.

Definition metadata_update (m1 m2 : Metadata) : Metadata :=
  mkMetadata (update_entry (title m1) (title m2))
             (update_entry (authors m1) (authors m2))
             (update_entry (year m1) (year m2))
             (update_entry (source m1) (source m2))
             (update_entry (url m1) (url m2))
             (update_entry (snippet m1) (snippet m2))
             (update_entry (relevance_score m1) (relevance_score m2)).

(** ** The values the stages produce (name spaces keep the dict keys) *)

(** An entry of [summaries]. *)
Module Summary.
Record t : Type := mk {
  title : string;
  summary : string;
  key_findings : pyval;
  metadata : Metadata
}.
End Summary.

(** An entry of [evaluations["evaluations"]]. *)
Module Evaluation.
Record t : Type := mk {
  title : string;
  quality_score : pyfloat;
  relevance_score : pyfloat;
  methodology_score : pyfloat;
  overall_score : pyfloat;
  critique : pyval
}.
End Evaluation.

(** A non-empty [average_scores] dict. *)
Module AverageScores.
Record t : Type := mk {
  average_quality : pyfloat;
  average_relevance : pyfloat;
  average_methodology : pyfloat;
  average_overall : pyfloat
}.
End AverageScores.

(** What [CriticAgent.process] returns; [average_scores = None] is the
  empty dict. *)
Module Evaluations.
Record t : Type := mk {
  evaluations : list Evaluation.t;
  average_scores : option AverageScores.t
}.
End Evaluations.

Module Reference.
Record t : Type := mk {
  title : string;
  authors : list string;
  year : pyval;
  source : string;
  url : string
}.
End Reference.

Module Report.
Record t : Type := mk {
  title : string;
  date : string;
  query : string;
  executive_summary : string;
  methodology : pyval;
  findings : pyval;
  analysis : pyval;
  recommendations : pyval;
  references : list Reference.t
}.
End Report.

(** A hit of the vector index: [result.payload["text"]],
    [result.payload["metadata"]] and [result.score].  This is a hit whose
    payload has both entries, as [initialize] writes every point; a payload
    that lacks one is a [RawHit], which [HybridRetrieverRaw] covers. *)
Record Hit : Type := mkHit {
  payload_text : string;
  payload_metadata : Metadata;
  score : Q
}.

(** One [.result] element of the search page, with the texts of its
    [.result__title], [.result__snippet] and [.result__url] children
    ([None] where [select_one] finds nothing). *)
Record ResultElem : Type := mkResultElem {
  title_elem : option string;
  snippet_elem : option string;
  link_elem : option string
}.

(** An entry of the list [WebSearch.search] returns. *)
Record WebResult : Type := mkWebResult {
  result_title : string;
  result_snippet : string;
  result_link : string
}.

(** ** Outside collaborators

    Everything the code reaches through a network, a model or the file
    system.  Each one sees and changes the world and may raise. *)
Record Collaborators (W : Type) : Type := mkCollaborators {
  (** [self.model.encode(text).tolist()] *)
  model_encode : string -> W -> result (list Q) * W;
  (** [self.qdrant_client.search(collection_name, query_vector, limit)] *)
  qdrant_search : list Q -> nat -> W -> result (list Hit) * W;
  (** [requests.get(search_url)], [raise_for_status] and
      [soup.select('.result')] with the three [select_one] texts *)
  fetch_results : string -> W -> result (list ResultElem) * W;
  (** [requests.get(url)], [raise_for_status] and the cleaned page text *)
  fetch_page : string -> W -> result string * W;
  (** [self.llm.agenerate([prompt])] and [.generations[0][0].text] *)
  llm_generate : string -> W -> result string * W;
  (** [float(text)], which raises [ValueError] on a text that is no number *)
  py_float : string -> result pyfloat;
  (** [eval(text)] *)
  py_eval : string -> W -> result pyval * W;
  (** [text_splitter.split_documents([doc])] and [summarize_chain.arun] *)
  summarize_chain : Document -> W -> result string * W;
  (** [datetime.now().strftime(format)] *)
  now_strftime : string -> W -> string * W;
  (** [open(filepath, 'w')] and [json.dump(report, f, indent=2)] *)
  dump_report : string -> Report.t -> W -> result unit * W;
  (** [self.output_dir] *)
  output_dir : string
}.
Arguments model_encode {W}.
Arguments qdrant_search {W}.
Arguments fetch_results {W}.
Arguments fetch_page {W}.
Arguments llm_generate {W}.
Arguments py_float {W}.
Arguments py_eval {W}.
Arguments summarize_chain {W}.
Arguments now_strftime {W}.
Arguments dump_report {W}.
Arguments output_dir {W}.

(** The prompts, f-strings over the values shown; their text plays no part
    below.  Those of the writer raise when a lookup or a call inside the
    f-string does: [evaluations['average_scores']] on a dict without that
    key, [json.dumps] on a value it cannot serialise. *)
Record Prompts : Type := mkPrompts {
  quality_prompt : Document -> Summary.t -> string;
  relevance_prompt : Document -> Summary.t -> string;
  methodology_prompt : Document -> string;
  critique_prompt : Document -> Summary.t -> string;
  key_information_prompt : string -> string;
  synthesis_prompt : string -> string;
  executive_summary_prompt :
    string -> pyval -> option Evaluations.t -> result string;
  methodology_section_prompt : nat -> option Evaluations.t -> result string;
  findings_prompt : list Summary.t -> pyval -> result string;
  analysis_prompt : option Evaluations.t -> pyval -> result string;
  recommendations_prompt : pyval -> option Evaluations.t -> result string
}.

(** A [for] loop that builds a list, one element at a time. *)
Fixpoint for_each {W A B} (f : A -> M W B) (xs : list A) : M W (list B) :=
  match xs with
  | [] => ret []
  | x :: rest =>
      y <- f x ;;
      ys <- for_each f rest ;;
      ret (y :: ys)
  end.

(** ** rag/embeddings.py *)
Module EmbeddingsManager.
Section Defs.
Context {W : Type} (C : Collaborators W).

Definition get_embedding (text : string) : M W (list Q) :=
  try_except
    (call (model_encode C text))
    (fun e => raise ("Error generating embedding: " ^^ e)).

End Defs.
End EmbeddingsManager.

(** ** rag/web_search.py *)
Module WebSearch.
Section Defs.
Context {W : Type} (C : Collaborators W).

(** The [if title_elem and snippet_elem and link_elem] of the loop. *)
Definition complete_result (e : ResultElem) : list WebResult :=
  match title_elem e, snippet_elem e, link_elem e with
  | Some t, Some s, Some l => [mkWebResult t s l]
  | _, _, _ => []
  end.

Definition search (query : string) (max_results : nat) : M W (list WebResult) :=
  try_except
    (let search_url := "https://html.duckduckgo.com/html/?q=" ^^ query in
     elems <- call (fetch_results C search_url) ;;
     ret (flat_map complete_result (firstn max_results elems)))
    (fun e => raise ("Error searching web: " ^^ e)).

Definition extract_content (url : string) : M W string :=
  try_except
    (let url := if String.prefix "http://" url || String.prefix "https://" url
                then url else "https://" ^^ url in
     call (fetch_page C url))
    (fun e => raise ("Error extracting content: " ^^ e)).

(** The document built from one search result and its page. *)
Definition web_document (content : string) (r : WebResult) : Document :=
  mkDocument content
    (mkMetadata (Some (result_title r)) None None (Some "web")
                (Some (result_link r)) (Some (result_snippet r)) None).

(** The body of the loop over the results: the inner [try] appends one
    document, the inner [except] prints and continues.  ([time.sleep] and
    [print] are not modelled.) *)
Definition extract_one (r : WebResult) : M W (list Document) :=
  try_except
    (content <- extract_content (result_link r) ;;
     ret [web_document content r])
    (fun _ => ret []).

Fixpoint extract_loop (results : list WebResult) : M W (list Document) :=
  match results with
  | [] => ret []
  | r :: rest =>
      doc <- extract_one r ;;
      documents <- extract_loop rest ;;
      ret (doc ++ documents)
  end.

Definition search_and_extract (query : string) (max_results : nat)
  : M W (list Document) :=
  try_except
    (results <- search query max_results ;;
     extract_loop results)
    (fun e => raise ("Error in search and extract: " ^^ e)).

End Defs.
End WebSearch.

(** ** rag/retriever.py *)
Module HybridRetriever.

(** [documents.sort(key=relevance_score or 0, reverse=True)].  Python's sort
    is stable, also with [reverse=True]; the stable result is unique, and
    it is the one this insertion sort builds: an element goes in before
    the first one whose key is not greater than its own. *)
Fixpoint insert_desc (x : Document) (l : list Document) : list Document :=
  match l with
  | [] => [x]
  | y :: ys =>
      if Qltb (score_of x) (score_of y) then y :: insert_desc x ys
      else x :: y :: ys
  end.

Definition sort_desc (l : list Document) : list Document :=
  fold_right insert_desc [] l.

(** The [Document] built from a hit, with its two metadata writes.  On a
    hit that has its text and its metadata the conversion cannot fail; see
    [HybridRetrieverRaw.document_of] for the others. *)
Definition hit_document (h : Hit) : Document :=
  let m := payload_metadata h in
  mkDocument (payload_text h)
    (mkMetadata (title m) (authors m) (year m) (Some "database")
                (url m) (snippet m) (Some (score h))).

Section Defs.
Context {W : Type} (C : Collaborators W).

(** [limit], the "maximum number of documents to retrieve", is a count. *)
Definition retrieve (query : string) (limit : nat) (include_web : bool)
  : M W (list Document) :=
  try_except
    (query_embedding <- EmbeddingsManager.get_embedding C query ;;
     search_result <- call (qdrant_search C query_embedding limit) ;;
     let documents := map hit_document search_result in
     documents <-
       (if include_web
        then web_docs <- WebSearch.search_and_extract C query limit ;;
             ret (documents ++ web_docs)
        else ret documents) ;;
     ret (firstn limit (sort_desc documents)))
    (fun e => raise ("Error retrieving documents: " ^^ e)).

End Defs.
End HybridRetriever.

(** ** agents/research_agent.py *)
Module ResearchAgent.
Section Defs.
Context {W : Type} (C : Collaborators W).

(** The comprehension's test, [relevance_score > 0.5]. *)
Definition relevant (doc : Document) : bool := Qltb (1 # 2) (score_of doc).

(** A score is a number, so the comparison cannot raise and the [except]
    branch is never taken. *)
Definition filter_by_relevance (documents : list Document) : M W (list Document) :=
  try_except
    (ret (filter relevant documents))
    (fun e => add_error Research ("Error filtering documents: " ^^ e) ;;;
              ret documents).

(** The defaults, then [metadata.update(doc.metadata)]. *)
Definition extract_metadata (doc : Document) : M W Metadata :=
  let m := metadata doc in
  try_except
    (let defaults :=
       mkMetadata (Some (get (title m) "")) (Some (get (authors m) []))
                  (Some (get (year m) (VStr ""))) (Some (get (source m) ""))
                  (Some (get (url m) "")) None
                  (Some (get (relevance_score m) 0)) in
     ret (metadata_update defaults m))
    (fun e => add_error Research ("Error extracting metadata: " ^^ e) ;;;
              ret (mkMetadata None None None None None None None)).

(** [retrieve] is called with its defaults, [limit=10] and
    [include_web=True].  ([update_state(context=...)] writes a field no
    code reads; it is not modelled.) *)
Definition process (query : string) : M W (list Document) :=
  try_except
    (documents <- HybridRetriever.retrieve C query 10 true ;;
     filtered_docs <- filter_by_relevance documents ;;
     for_each (fun doc =>
                 extracted <- extract_metadata doc ;;
                 ret (mkDocument (page_content doc)
                                 (metadata_update (metadata doc) extracted)))
              filtered_docs)
    (fun e => add_error Research ("Error processing query: " ^^ e) ;;;
              ret []).

End Defs.
End ResearchAgent.

(** ** agents/summarizer_agent.py *)
Module SummarizerAgent.

Definition newline : string := String (ascii_of_nat 10) EmptyString.

Definition default_key_information : pyval :=
  VDict [("main_question", VStr ""); ("methodologies", VList []);
         ("findings", VList []); ("limitations", VList []);
         ("future_work", VList [])].

Definition default_synthesis : pyval :=
  VDict [("common_themes", VList []); ("conflicting_findings", VList []);
         ("complementary_insights", VList []); ("research_gaps", VList []);
         ("future_directions", VList [])].

Section Defs.
Context {W : Type} (C : Collaborators W) (P : Prompts).

Definition _extract_key_information (doc : Document) (summary : string)
  : M W pyval :=
  try_except
    (response <- call (llm_generate C (key_information_prompt P summary)) ;;
     call (py_eval C response))
    (fun e => add_error Summarizer ("Error extracting key information: " ^^ e) ;;;
              ret default_key_information).

Definition process (documents : list Document) : M W (list Summary.t) :=
  try_except
    (for_each (fun doc =>
                 summary <- call (summarize_chain C doc) ;;
                 key_info <- _extract_key_information doc summary ;;
                 ret (Summary.mk (get (title (metadata doc)) "") summary
                                 key_info (metadata doc)))
              documents)
    (fun e => add_error Summarizer ("Error summarizing documents: " ^^ e) ;;;
              ret []).

Definition cross_document_synthesis (summaries : list Summary.t) : M W pyval :=
  try_except
    (let combined_text :=
       String.concat (newline ^^ newline)
         (map (fun s => "Title: " ^^ Summary.title s ^^ newline ^^
                        "Summary: " ^^ Summary.summary s) summaries) in
     response <- call (llm_generate C (synthesis_prompt P combined_text)) ;;
     call (py_eval C response))
    (fun e => add_error Summarizer ("Error synthesizing documents: " ^^ e) ;;;
              ret default_synthesis).

End Defs.
End SummarizerAgent.

(** ** agents/critic_agent.py *)
Module CriticAgent.

Definition default_critique : pyval :=
  VDict [("strengths", VList []); ("weaknesses", VList []);
         ("methodological_concerns", VList []); ("contribution", VStr "");
         ("recommendations", VList [])].

Section Defs.
Context {W : Type} (C : Collaborators W) (P : Prompts).

Definition _evaluate_quality (doc : Document) (summary : Summary.t)
  : M W pyfloat :=
  try_except
    (response <- call (llm_generate C (quality_prompt P doc summary)) ;;
     score <- lift (py_float C (strip response)) ;;
     ret (py_min (py_max score (PFin 0)) (PFin 1)))
    (fun e => add_error Critic ("Error evaluating quality: " ^^ e) ;;;
              ret (PFin 0)).

Definition _evaluate_relevance (doc : Document) (summary : Summary.t)
  : M W pyfloat :=
  try_except
    (response <- call (llm_generate C (relevance_prompt P doc summary)) ;;
     score <- lift (py_float C (strip response)) ;;
     ret (py_min (py_max score (PFin 0)) (PFin 1)))
    (fun e => add_error Critic ("Error evaluating relevance: " ^^ e) ;;;
              ret (PFin 0)).

Definition _evaluate_methodology (doc : Document) : M W pyfloat :=
  try_except
    (response <- call (llm_generate C (methodology_prompt P doc)) ;;
     score <- lift (py_float C (strip response)) ;;
     ret (py_min (py_max score (PFin 0)) (PFin 1)))
    (fun e => add_error Critic ("Error evaluating methodology: " ^^ e) ;;;
              ret (PFin 0)).

Definition _generate_critique (doc : Document) (summary : Summary.t)
  : M W pyval :=
  try_except
    (response <- call (llm_generate C (critique_prompt P doc summary)) ;;
     call (py_eval C response))
    (fun e => add_error Critic ("Error generating critique: " ^^ e) ;;;
              ret default_critique).

(** [if not evaluations: return {}], then the four sums over [n], the
    length of a list that is not empty there. *)
Definition _calculate_average_scores (evaluations : list Evaluation.t)
  : M W (option AverageScores.t) :=
  try_except
    (match evaluations with
     | [] => ret None
     | _ :: _ =>
         let total_quality := py_sum (map Evaluation.quality_score evaluations) in
         let total_relevance := py_sum (map Evaluation.relevance_score evaluations) in
         let total_methodology :=
           py_sum (map Evaluation.methodology_score evaluations) in
         let total_overall := py_sum (map Evaluation.overall_score evaluations) in
         let n := Pos.of_nat (List.length evaluations) in
         ret (Some (AverageScores.mk (py_div_pos total_quality n)
                                     (py_div_pos total_relevance n)
                                     (py_div_pos total_methodology n)
                                     (py_div_pos total_overall n)))
     end)
    (fun e => add_error Critic ("Error calculating average scores: " ^^ e) ;;;
              ret None).

(** The body of the loop over [zip(documents, summaries)]. *)
Definition evaluate_pair (pair : Document * Summary.t) : M W Evaluation.t :=
  let (doc, summary) := pair in
  quality_score <- _evaluate_quality doc summary ;;
  relevance_score <- _evaluate_relevance doc summary ;;
  methodology_score <- _evaluate_methodology doc ;;
  critique <- _generate_critique doc summary ;;
  ret (Evaluation.mk (get (title (metadata doc)) "")
         quality_score relevance_score methodology_score
         (py_div_pos (py_add (py_add quality_score relevance_score)
                             methodology_score) 3)
         critique).

Definition process (documents : list Document) (summaries : list Summary.t)
  : M W Evaluations.t :=
  try_except
    (evaluations <- for_each evaluate_pair (combine documents summaries) ;;
     average_scores <- _calculate_average_scores evaluations ;;
     ret (Evaluations.mk evaluations average_scores))
    (fun e => add_error Critic ("Error evaluating documents: " ^^ e) ;;;
              ret (Evaluations.mk [] None)).

End Defs.
End CriticAgent.

(** ** agents/writer_agent.py *)
Module WriterAgent.

(** [s.endswith("/")]. *)
Fixpoint ends_with_slash (s : string) : bool :=
  match s with
  | EmptyString => false
  | String c EmptyString => Ascii.eqb c "/"
  | String _ rest => ends_with_slash rest
  end.

(** [os.path.join(a, b)] of [posixpath]. *)
Definition path_join (a b : string) : string :=
  if String.prefix "/" b then b
  else match a with
       | EmptyString => b
       | _ => if ends_with_slash a then a ^^ b else a ^^ "/" ^^ b
       end.

Section Defs.
Context {W : Type} (C : Collaborators W) (P : Prompts).

Definition _generate_executive_summary (query : string)
    (summaries : list Summary.t) (evaluations : option Evaluations.t)
    (synthesis : pyval) : M W string :=
  try_except
    (prompt <- lift (executive_summary_prompt P query synthesis evaluations) ;;
     response <- call (llm_generate C prompt) ;;
     ret (strip response))
    (fun e => add_error Writer ("Error generating executive summary: " ^^ e) ;;;
              ret "").

Definition _generate_methodology_section (documents : list Document)
    (evaluations : option Evaluations.t) : M W pyval :=
  try_except
    (prompt <- lift (methodology_section_prompt P (List.length documents)
                       evaluations) ;;
     response <- call (llm_generate C prompt) ;;
     call (py_eval C response))
    (fun e => add_error Writer ("Error generating methodology section: " ^^ e) ;;;
              ret (VDict [])).

Definition _generate_findings_section (summaries : list Summary.t)
    (synthesis : pyval) : M W pyval :=
  try_except
    (prompt <- lift (findings_prompt P summaries synthesis) ;;
     response <- call (llm_generate C prompt) ;;
     call (py_eval C response))
    (fun e => add_error Writer ("Error generating findings section: " ^^ e) ;;;
              ret (VDict [])).

Definition _generate_analysis_section (evaluations : option Evaluations.t)
    (synthesis : pyval) : M W pyval :=
  try_except
    (prompt <- lift (analysis_prompt P evaluations synthesis) ;;
     response <- call (llm_generate C prompt) ;;
     call (py_eval C response))
    (fun e => add_error Writer ("Error generating analysis section: " ^^ e) ;;;
              ret (VDict [])).

Definition _generate_recommendations (synthesis : pyval)
    (evaluations : option Evaluations.t) : M W pyval :=
  try_except
    (prompt <- lift (recommendations_prompt P synthesis evaluations) ;;
     response <- call (llm_generate C prompt) ;;
     call (py_eval C response))
    (fun e => add_error Writer ("Error generating recommendations: " ^^ e) ;;;
              ret (VList [])).

Definition _generate_references (documents : list Document)
  : M W (list Reference.t) :=
  try_except
    (ret (map (fun doc =>
                 let m := metadata doc in
                 Reference.mk (get (title m) "") (get (authors m) [])
                              (get (year m) (VStr "")) (get (source m) "")
                              (get (url m) ""))
              documents))
    (fun e => add_error Writer ("Error generating references: " ^^ e) ;;;
              ret []).

Definition _save_report (report : Report.t) : M W string :=
  try_except
    (timestamp <- call (fun w => let (t, w') := now_strftime C "%Y%m%d_%H%M%S" w in
                                 (Ok t, w')) ;;
     let filename := "report_" ^^ timestamp ^^ ".json" in
     let filepath := path_join (output_dir C) filename in
     call (dump_report C filepath report) ;;;
     ret filepath)
    (fun e => add_error Writer ("Error saving report: " ^^ e) ;;;
              ret "").

(** Returns [Some report], or [None] for the empty dict of the [except]
    branch. *)
Definition process (query : string) (documents : list Document)
    (summaries : list Summary.t) (evaluations : option Evaluations.t)
    (synthesis : pyval) : M W (option Report.t) :=
  try_except
    (executive_summary <-
       _generate_executive_summary query summaries evaluations synthesis ;;
     methodology <- _generate_methodology_section documents evaluations ;;
     findings <- _generate_findings_section summaries synthesis ;;
     analysis <- _generate_analysis_section evaluations synthesis ;;
     recommendations <- _generate_recommendations synthesis evaluations ;;
     date <- call (fun w => let (t, w') := now_strftime C "%Y-%m-%d" w in
                            (Ok t, w')) ;;
     references <- _generate_references documents ;;
     let report :=
       Report.mk ("Research Report: " ^^ query) date query executive_summary
                 methodology findings analysis recommendations references in
     _save_report report ;;;
     ret (Some report))
    (fun e => add_error Writer ("Error generating report: " ^^ e) ;;;
              ret None).

End Defs.
End WriterAgent.

(** ** graph/coordinator.py *)

(** [ResearchState]; [evaluations] and [report] are [None] while they are
    the empty dict. *)
Module ResearchState.
Record t : Type := mk {
  query : string;
  documents : list Document;
  summaries : list Summary.t;
  evaluations : option Evaluations.t;
  synthesis : pyval;
  report : option Report.t;
  errors : list string
}.
End ResearchState.

Module ResearchCoordinator.

(** The five nodes of the graph. *)
Inductive Node : Type :=
| research
| summarize
| evaluate
| synthesize
| write.

(** The agents given to [__init__], through their methods the nodes call. *)
Record Agents (W : Type) : Type := mkAgents {
  research_agent_process : string -> M W (list Document);
  summarizer_agent_process : list Document -> M W (list Summary.t);
  critic_agent_process :
    list Document -> list Summary.t -> M W Evaluations.t;
  summarizer_agent_cross_document_synthesis : list Summary.t -> M W pyval;
  writer_agent_process :
    string -> list Document -> list Summary.t -> option Evaluations.t ->
    pyval -> M W (option Report.t)
}.
Arguments research_agent_process {W}.
Arguments summarizer_agent_process {W}.
Arguments critic_agent_process {W}.
Arguments summarizer_agent_cross_document_synthesis {W}.
Arguments writer_agent_process {W}.

(** The agents of [main.py]. *)
Definition agents {W} (C : Collaborators W) (P : Prompts) : Agents W :=
  mkAgents W
    (ResearchAgent.process C)
    (SummarizerAgent.process C P)
    (CriticAgent.process C P)
    (SummarizerAgent.cross_document_synthesis C P)
    (WriterAgent.process C P).

(** [{**state, "errors": state.get("errors", []) + [str(e)]}] *)
Definition with_error (state : ResearchState.t) (e : string) : ResearchState.t :=
  ResearchState.mk (ResearchState.query state) (ResearchState.documents state)
    (ResearchState.summaries state) (ResearchState.evaluations state)
    (ResearchState.synthesis state) (ResearchState.report state)
    (ResearchState.errors state ++ [e]).

Section Defs.
Context {W : Type} (A : Agents W).

Definition _research_node (state : ResearchState.t) : M W ResearchState.t :=
  try_except
    (documents <- research_agent_process A (ResearchState.query state) ;;
     ret (ResearchState.mk (ResearchState.query state) documents
            (ResearchState.summaries state) (ResearchState.evaluations state)
            (ResearchState.synthesis state) (ResearchState.report state)
            (ResearchState.errors state)))
    (fun e => ret (with_error state e)).

Definition _summarize_node (state : ResearchState.t) : M W ResearchState.t :=
  try_except
    (summaries <- summarizer_agent_process A (ResearchState.documents state) ;;
     ret (ResearchState.mk (ResearchState.query state)
            (ResearchState.documents state) summaries
            (ResearchState.evaluations state) (ResearchState.synthesis state)
            (ResearchState.report state) (ResearchState.errors state)))
    (fun e => ret (with_error state e)).

Definition _evaluate_node (state : ResearchState.t) : M W ResearchState.t :=
  try_except
    (evaluations <- critic_agent_process A (ResearchState.documents state)
                      (ResearchState.summaries state) ;;
     ret (ResearchState.mk (ResearchState.query state)
            (ResearchState.documents state) (ResearchState.summaries state)
            (Some evaluations) (ResearchState.synthesis state)
            (ResearchState.report state) (ResearchState.errors state)))
    (fun e => ret (with_error state e)).

Definition _synthesize_node (state : ResearchState.t) : M W ResearchState.t :=
  try_except
    (synthesis <- summarizer_agent_cross_document_synthesis A
                    (ResearchState.summaries state) ;;
     ret (ResearchState.mk (ResearchState.query state)
            (ResearchState.documents state) (ResearchState.summaries state)
            (ResearchState.evaluations state) synthesis
            (ResearchState.report state) (ResearchState.errors state)))
    (fun e => ret (with_error state e)).

Definition _write_node (state : ResearchState.t) : M W ResearchState.t :=
  try_except
    (report <- writer_agent_process A (ResearchState.query state)
                 (ResearchState.documents state) (ResearchState.summaries state)
                 (ResearchState.evaluations state)
                 (ResearchState.synthesis state) ;;
     ret (ResearchState.mk (ResearchState.query state)
            (ResearchState.documents state) (ResearchState.summaries state)
            (ResearchState.evaluations state) (ResearchState.synthesis state)
            report (ResearchState.errors state)))
    (fun e => ret (with_error state e)).

(** [add_node]: the function behind each node name. *)
Definition node (n : Node) : ResearchState.t -> M W ResearchState.t :=
  match n with
  | research => _research_node
  | summarize => _summarize_node
  | evaluate => _evaluate_node
  | synthesize => _synthesize_node
  | write => _write_node
  end.

(** [add_edge]: the successor of each node; [None] is [END]. *)
Definition edge (n : Node) : option Node :=
  match n with
  | research => Some summarize
  | summarize => Some evaluate
  | evaluate => Some synthesize
  | synthesize => Some write
  | write => None
  end.

Definition entry_point : Node := research.

(** The compiled graph's [ainvoke]: run the node, follow its edge, until
    [END]; [steps] bounds the number of nodes run. *)
Fixpoint ainvoke (steps : nat) (n : Node) (state : ResearchState.t)
  : M W ResearchState.t :=
  match steps with
  | O => ret state
  | S steps' =>
      state' <- node n state ;;
      match edge n with
      | Some next => ainvoke steps' next state'
      | None => ret state'
      end
  end.

Definition initial_state (query : string) : ResearchState.t :=
  ResearchState.mk query [] [] None (VDict []) None [].

(** The graph has five nodes, so five steps reach [END]. *)
Definition process_query (query : string) : M W ResearchState.t :=
  ainvoke 5 entry_point (initial_state query).

End Defs.
End ResearchCoordinator.

(** ** Building the index: [get_embeddings] of rag/embeddings.py,
    [initialize] and [delete_collection] of rag/retriever.py *)

(** A point of the index, as [initialize] builds it. *)
Record Point : Type := mkPoint {
  point_id : nat;
  point_vector : list Q;
  point_text : string;
  point_metadata : Metadata
}.

(** The calls that build and drop the collection, and the clock of the
    service. *)
Record Services (W : Type) : Type := mkServices {
  (** [self.model.encode(texts).tolist()] *)
  model_encode_batch : list string -> W -> result (list (list Q)) * W;
  (** the names in [self.qdrant_client.get_collections().collections] *)
  get_collections : W -> result (list string) * W;
  (** [create_collection(collection_name, {"size": size, "distance": "Cosine"})] *)
  create_collection : string -> nat -> W -> result unit * W;
  (** [upsert(collection_name, points)] *)
  upsert : string -> list Point -> W -> result unit * W;
  (** [delete_collection(collection_name)] *)
  drop_collection : string -> W -> result unit * W;
  (** [datetime.now().isoformat()] *)
  now_isoformat : W -> string * W
}.
Arguments model_encode_batch {W}.
Arguments get_collections {W}.
Arguments create_collection {W}.
Arguments upsert {W}.
Arguments drop_collection {W}.
Arguments now_isoformat {W}.

Module Indexing.

Definition collection_name : string := "academic_papers".

(** The loop over [enumerate(zip(documents, embeddings))], counting from
    [i]. *)
Fixpoint points_from (i : nat) (documents : list Document)
    (embeddings : list (list Q)) : list Point :=
  match documents, embeddings with
  | doc :: documents', embedding :: embeddings' =>
      mkPoint i embedding (page_content doc) (metadata doc)
      :: points_from (S i) documents' embeddings'
  | _, _ => []
  end.

Section Defs.
Context {W : Type} (V : Services W).

Definition get_embeddings (texts : list string) : M W (list (list Q)) :=
  try_except
    (call (model_encode_batch V texts))
    (fun e => raise ("Error generating embeddings: " ^^ e)).

(** [len(embeddings[0])] is evaluated before [create_collection] is called
    and raises [IndexError] on an empty list. *)
Definition initialize (documents : list Document) : M W unit :=
  try_except
    (let texts := map page_content documents in
     embeddings <- get_embeddings texts ;;
     let points := points_from 0 documents embeddings in
     collections <- call (get_collections V) ;;
     (if negb (existsb (String.eqb collection_name) collections)
      then match embeddings with
           | [] => raise "list index out of range"
           | first :: _ =>
               call (create_collection V collection_name (List.length first))
           end
      else ret tt) ;;;
     call (upsert V collection_name points))
    (fun e => raise ("Error initializing retriever: " ^^ e)).

Definition delete_collection : M W unit :=
  try_except
    (call (drop_collection V collection_name))
    (fun e => raise ("Error deleting collection: " ^^ e)).

End Defs.
End Indexing.

(** ** api/main.py *)
Module Api.

(** An entry of [research_results]: the final state with its timestamp, or
    the error dict of the [except] branch. *)
Inductive Stored : Type :=
| Results (state : ResearchState.t) (timestamp : string)
| Error (error : string) (timestamp : string).

(** [research_results], a dict from query ids. *)
Definition Store : Type := string -> option Stored.

Definition empty_store : Store := fun _ => None.


(** What a handler answers: a body, or an [HTTPException]. *)
Inductive Response (A : Type) : Type :=
| Body (body : A)
| HTTPException (status_code : nat) (detail : string).
Arguments Body {A} body.
Arguments HTTPException {A} status_code detail.




Definition get_research_results (store : Store) (query_id : string)
  : Response Stored :=
  match store query_id with
  | None => HTTPException 404 "Research task not found"
  | Some entry => Body entry
  end.


Section Defs.
Context {W : Type} (V : Services W) (A : ResearchCoordinator.Agents W).


End Defs.
End Api.

(** ** utils/pdf_parser.py *)
Module PDFParser.

(** The dict [_extract_metadata_from_filename] returns. *)
Record FileMetadata : Type := mk {
  title : string;
  authors : list string;
  year : string;
  file_type : string;
  filename : string
}.

(** [c in s]. *)
Fixpoint has (c : ascii) (s : string) : bool :=
  match s with
  | EmptyString => false
  | String a rest => Ascii.eqb a c || has c rest
  end.

(** [s.rfind(c)]: the last index of [c]; [None] stands for -1. *)
Fixpoint rfind (c : ascii) (s : string) : option nat :=
  match s with
  | EmptyString => None
  | String a rest =>
      match rfind c rest with
      | Some i => Some (S i)
      | None => if Ascii.eqb a c then Some 0%nat else None
      end
  end.

(** Some character of [s] is not a dot. *)
Fixpoint has_other_than_dot (s : string) : bool :=
  match s with
  | EmptyString => false
  | String a rest => negb (Ascii.eqb a ".") || has_other_than_dot rest
  end.

(** [os.path.splitext(p)[0]] of [posixpath]: the extension starts at the
    last dot, provided that dot comes after the last slash and after some
    character of the file name that is not a dot. *)
Definition splitext_root (p : string) : string :=
  let sep_index := rfind "/" p in
  match rfind "." p with
  | None => p
  | Some dot_index =>
      let after_sep :=
        match sep_index with
        | Some i => (i <? dot_index)%nat
        | None => true
        end in
      let filename_index :=
        match sep_index with
        | Some i => S i
        | None => 0%nat
        end in
      if after_sep &&
         has_other_than_dot
           (substring filename_index (dot_index - filename_index) p)
      then substring 0 dot_index p
      else p
  end.

(** [s.split(sep)] for a separator of one character; the list is never
    empty. *)
Fixpoint split (sep : ascii) (s : string) : list string :=
  match s with
  | EmptyString => [EmptyString]
  | String a rest =>
      if Ascii.eqb a sep then EmptyString :: split sep rest
      else match split sep rest with
           | first :: others => String a first :: others
           | [] => [String a EmptyString]
           end
  end.

(** On strings nothing in the [try] block raises, so the [except] branch,
    which would return the file name as the title, is never taken. *)
Definition _extract_metadata_from_filename (filename : string) : FileMetadata :=
  let name := splitext_root filename in
  let components := split "_" name in
  mk (match components with
      | first :: _ => first
      | [] => ""
      end)
     (match components with
      | _ :: second :: _ => split "-" second
      | _ => []
      end)
     (match components with
      | _ :: _ :: third :: _ => third
      | _ => ""
      end)
     "pdf"
     filename.

End PDFParser.

(** ** rag/retriever.py, over hits as the index client returns them *)

(** A hit as the client returns it: its payload is a dict that may lack the
    "text" or the "metadata" entry ([None]). *)
Record RawHit : Type := mkRawHit {
  raw_text : option string;
  raw_metadata : option Metadata;
  raw_score : Q
}.

Module HybridRetrieverRaw.

(** [Document(page_content=result.payload["text"],
    metadata=result.payload["metadata"])] and the two metadata writes.  A
    missing entry raises [KeyError], whose [str] is the quoted key; the text
    is looked up first. *)
Definition document_of (hit : RawHit) : result Document :=
  match raw_text hit with
  | None => Raise "'text'"
  | Some text =>
      match raw_metadata hit with
      | None => Raise "'metadata'"
      | Some m =>
          Ok (mkDocument text
                (mkMetadata (title m) (authors m) (year m) (Some "database")
                            (url m) (snippet m) (Some (raw_score hit))))
      end
  end.

(** The loop over [search_result]: it stops at the first hit that cannot be
    converted. *)
Fixpoint documents_of (search_result : list RawHit) : result (list Document) :=
  match search_result with
  | [] => Ok []
  | hit :: rest =>
      match document_of hit with
      | Raise e => Raise e
      | Ok doc =>
          match documents_of rest with
          | Raise e => Raise e
          | Ok documents => Ok (doc :: documents)
          end
      end
  end.

Section Defs.
Context {W : Type} (C : Collaborators W).
Context (client_search : list Q -> nat -> W -> result (list RawHit) * W).

Definition retrieve (query : string) (limit : nat) (include_web : bool)
  : M W (list Document) :=
  try_except
    (query_embedding <- EmbeddingsManager.get_embedding C query ;;
     search_result <- call (client_search query_embedding limit) ;;
     documents <- lift (documents_of search_result) ;;
     documents <-
       (if include_web
        then web_docs <- WebSearch.search_and_extract C query limit ;;
             ret (documents ++ web_docs)
        else ret documents) ;;
     ret (firstn limit (HybridRetriever.sort_desc documents)))
    (fun e => raise ("Error retrieving documents: " ^^ e)).

End Defs.
End HybridRetrieverRaw.

(** ** The normalized title of the spec *)

(** Modelled from the spec: the normalized title of the Hybrid Retriever's
    deduplication rule ("case-insensitive, whitespace-normalized"), which no
    function of the source computes.  Letters are lowercased, each run of
    whitespace becomes one space, and whitespace at both ends is dropped. *)
Definition lower (c : ascii) : ascii :=
  let n := nat_of_ascii c in
  if ((65 <=? n)%nat && (n <=? 90)%nat)%bool then ascii_of_nat (n + 32) else c.

Fixpoint words (s : string) (word : string) : list string :=
  match s with
  | EmptyString =>
      match word with
      | EmptyString => []
      | _ => [word]
      end
  | String c rest =>
      if is_space c
      then match word with
           | EmptyString => words rest EmptyString
           | _ => word :: words rest EmptyString
           end
      else words rest (word ^^ String (lower c) EmptyString)
  end.

Definition normalized_title (doc : Document) : string :=
  String.concat " " (words (get (title (metadata doc)) "") EmptyString).

(** ** A scripted world, for running the code on concrete inputs *)

(** The collaborators answer from fixed tables and the world has no state of
    its own. *)
Definition scripted_collaborators
    (hits : result (list Hit))
    (results : result (list ResultElem))
    (pages : string -> result string)
    (model : string -> result string)
    (parse : string -> result pyfloat)
  : Collaborators unit :=
  mkCollaborators unit
    (fun _ w => (Ok [1 # 2], w))
    (fun _ _ w => (hits, w))
    (fun _ w => (results, w))
    (fun link w => (pages link, w))
    (fun prompt w => (model prompt, w))
    parse
    (fun _ w => (Raise "invalid syntax", w))
    (fun _ w => (Ok "summary", w))
    (fun _ w => ("2024-01-01", w))
    (fun _ _ w => (Ok tt, w))
    "data".

Definition plain_prompts : Prompts :=
  mkPrompts
    (fun _ _ => "quality") (fun _ _ => "relevance") (fun _ => "methodology")
    (fun _ _ => "critique") (fun _ => "key information") (fun _ => "synthesis")
    (fun _ _ _ => Ok "executive summary") (fun _ _ => Ok "methodology section")
    (fun _ _ => Ok "findings") (fun _ _ => Ok "analysis")
    (fun _ _ => Ok "recommendations").

Definition empty_st : St unit := mkSt tt [] [] [] [].

Definition titled (t : string) : Metadata :=
  mkMetadata (Some t) None None None None None None.

Definition scored (t : string) (q : Q) : Document :=
  mkDocument t (mkMetadata (Some t) None None (Some "database") None None (Some q)).

(** ** Notions the claims are stated with *)

(** [kept] is [l] without the elements that fail [P], in the order of [l]. *)
Inductive keeps_exactly {A} (P : A -> Prop) : list A -> list A -> Prop :=
| keeps_nil : keeps_exactly P [] []
| keeps_keep x l kept :
    P x -> keeps_exactly P l kept -> keeps_exactly P (x :: l) (x :: kept)
| keeps_drop x l kept :
    ~ P x -> keeps_exactly P l kept -> keeps_exactly P (x :: l) kept.

(** [a] may stand before [b] in a list sorted by descending score. *)
Definition desc (a b : Document) : Prop := score_of b <= score_of a.

(** The documents whose score is [k]. *)
Definition tied (k : Q) (doc : Document) : bool := Qeq_bool (score_of doc) k.

(** What [search_and_extract] puts on a web document: the source tag, and no
    relevance score. *)
Definition web_sourced (doc : Document) : Prop :=
  source (metadata doc) = Some "web" /\ relevance_score (metadata doc) = None.

(** The web part of a retrieval: [search_and_extract] if asked for, nothing
    otherwise. *)
Definition web_part {W} (C : Collaborators W) (query : string) (limit : nat)
    (include_web : bool) : M W (list Document) :=
  if include_web then WebSearch.search_and_extract C query limit else ret [].

(** The claim C2 makes of [retrieve]. *)
Definition no_colliding_titles (docs : list Document) : Prop :=
  NoDup (map normalized_title docs).

(** [c] returns a value from every state. *)
Definition total {W A} (c : M W A) : Prop :=
  forall st, exists a st', c st = (Ok a, st').

(** [c] writes nothing to the research agent's error log. *)
Definition keeps_research_log {W A} (c : M W A) : Prop :=
  forall st r st', c st = (r, st') -> research_errors st' = research_errors st.

(** The agent call inside the node [n] raises [msg], taking [st] to [st']. *)
Definition agent_call_raises {W} (A : ResearchCoordinator.Agents W)
    (n : ResearchCoordinator.Node) (state : ResearchState.t)
    (st : St W) (msg : string) (st' : St W) : Prop :=
  match n with
  | ResearchCoordinator.research =>
      ResearchCoordinator.research_agent_process A (ResearchState.query state) st
      = (Raise msg, st')
  | ResearchCoordinator.summarize =>
      ResearchCoordinator.summarizer_agent_process A
        (ResearchState.documents state) st
      = (Raise msg, st')
  | ResearchCoordinator.evaluate =>
      ResearchCoordinator.critic_agent_process A
        (ResearchState.documents state) (ResearchState.summaries state) st
      = (Raise msg, st')
  | ResearchCoordinator.synthesize =>
      ResearchCoordinator.summarizer_agent_cross_document_synthesis A
        (ResearchState.summaries state) st
      = (Raise msg, st')
  | ResearchCoordinator.write =>
      ResearchCoordinator.writer_agent_process A (ResearchState.query state)
        (ResearchState.documents state) (ResearchState.summaries state)
        (ResearchState.evaluations state) (ResearchState.synthesis state) st
      = (Raise msg, st')
  end.

(** What the loop of [ResearchAgent.process] makes of a document:
    [doc.metadata.update(extract_metadata(doc))]. *)
Definition enriched (doc : Document) : Document :=
  let m := metadata doc in
  mkDocument (page_content doc)
    (mkMetadata (Some (get (title m) "")) (Some (get (authors m) []))
                (Some (get (year m) (VStr ""))) (Some (get (source m) ""))
                (Some (get (url m) "")) (snippet m)
                (Some (get (relevance_score m) 0))).


(** A part of a file name that [_extract_metadata_from_filename] reads
    back: it holds no underscore, no dot and no slash. *)
Definition plain_part (s : string) : Prop :=
  PDFParser.has "_" s = false /\ PDFParser.has "." s = false /\
  PDFParser.has "/" s = false.

(** [title_author1-author2_year.pdf]. *)
Definition pdf_filename (title : string) (authors : list string) (year : string)
  : string :=
  title ^^ "_" ^^ String.concat "-" authors ^^ "_" ^^ year ^^ ".pdf".

(** The document carries a relevance score, and it is strictly greater than
    0.5. *)
Definition scores_above_half (doc : Document) : Prop :=
  exists q, relevance_score (metadata doc) = Some q /\ 1 # 2 < q.

(** The relevance score a document is ranked by: the one it carries, a
    missing one counting as 0. *)
Definition stored_score (doc : Document) : Q :=
  match relevance_score (metadata doc) with
  | Some q => q
  | None => 0
  end.

(** [a] may stand before [b] in a list sorted by non-increasing stored
    score. *)
Definition not_below (a b : Document) : Prop := stored_score b <= stored_score a.

(** The documents whose stored score equals [k]. *)
Definition scored_as (k : Q) (doc : Document) : bool :=
  Qeq_bool (stored_score doc) k.


(** No answer of the model is a text that [float] reads as NaN. *)
Definition answers_never_nan {W} (C : Collaborators W) : Prop :=
  forall prompt w text w',
    llm_generate C prompt w = (Ok text, w') ->
    py_float C (strip text) <> Ok PNaN.

(** The loop of [SummarizerAgent.process], without the [try] around it. *)
Definition summarize_loop {W} (C : Collaborators W) (P : Prompts)
    (documents : list Document) : M W (list Summary.t) :=
  for_each (fun doc =>
              summary <- call (summarize_chain C doc) ;;
              key_info <- SummarizerAgent._extract_key_information C P doc summary ;;
              ret (Summary.mk (get (title (metadata doc)) "") summary
                              key_info (metadata doc)))
           documents.

(** A hit with its text and its metadata, as the client returns it. *)
Definition raw_of (h : Hit) : RawHit :=
  mkRawHit (Some (payload_text h)) (Some (payload_metadata h)) (score h).

(** The client of an index all of whose hits have their text and their
    metadata. *)
Definition client_of {W} (C : Collaborators W)
  : list Q -> nat -> W -> result (list RawHit) * W :=
  fun v limit w =>
    let (r, w') := qdrant_search C v limit w in
    (match r with
     | Ok hits => Ok (map raw_of hits)
     | Raise e => Raise e
     end, w').


(** ** Concrete worlds *)

(** Index hits that score 0.4, 0.9 and 0.9, and one web page. *)
Definition sample_world : Collaborators unit :=
  scripted_collaborators
    (Ok [mkHit "a" (titled "A") (4 # 10); mkHit "b" (titled "B") (9 # 10);
         mkHit "c" (titled "C") (9 # 10)])
    (Ok [mkResultElem (Some "Page") (Some "snippet") (Some "example.org")])
    (fun _ => Ok "page text")
    (fun _ => Ok "0.7")
    (fun _ => Ok (PFin (7 # 10))).

(** The two index hits of the spec's scenario. *)
Definition transformers_world : Collaborators unit :=
  scripted_collaborators
    (Ok [mkHit "first" (titled "Transformers") (8 # 10);
         mkHit "second" (titled "transformers ") (55 # 100)])
    (Ok [])
    (fun _ => Raise "unreachable")
    (fun _ => Raise "no model")
    (fun _ => Raise "could not convert string to float").

(** One search result whose page can be read. *)
Definition one_page_world : Collaborators unit :=
  scripted_collaborators
    (Ok [])
    (Ok [mkResultElem (Some "Page") (Some "snippet") (Some "example.org")])
    (fun _ => Ok "page text")
    (fun _ => Raise "no model")
    (fun _ => Raise "could not convert string to float").


(** Agents whose every call raises. *)
Definition failing_agents : ResearchCoordinator.Agents unit :=
  ResearchCoordinator.mkAgents unit
    (fun _ => raise "research failed")
    (fun _ => raise "summarize failed")
    (fun _ _ => raise "evaluate failed")
    (fun _ => raise "synthesize failed")
    (fun _ _ _ _ _ => raise "write failed").

(** The index cannot be reached; the model answers. *)
Definition index_down_world : Collaborators unit :=
  scripted_collaborators
    (Raise "connection refused")
    (Ok [])
    (fun _ => Raise "connection refused")
    (fun _ => Ok "text")
    (fun _ => Raise "could not convert string to float").

(** The model answers every scoring prompt with the text "nan", which
    [float] accepts. *)
Definition nan_world : Collaborators unit :=
  scripted_collaborators
    (Ok [])
    (Ok [])
    (fun _ => Raise "unreachable")
    (fun _ => Ok "nan")
    (fun text => if String.eqb text "nan" then Ok PNaN
                 else Raise "could not convert string to float").

(** An element without a snippet among the first two, a complete one after. *)
Definition gap_world : Collaborators unit :=
  scripted_collaborators
    (Ok [])
    (Ok [mkResultElem (Some "A") (Some "a") (Some "a.org");
         mkResultElem (Some "B") None (Some "b.org");
         mkResultElem (Some "C") (Some "c") (Some "c.org")])
    (fun link => if String.eqb link "a.org" then Raise "timeout" else Ok "text")
    (fun _ => Raise "no model")
    (fun _ => Raise "could not convert string to float").


(** The four scores of an evaluation all lie in the unit interval. *)
Definition bounded_evaluation (ev : Evaluation.t) : Prop :=
  in_unit_interval (Evaluation.quality_score ev) /\
  in_unit_interval (Evaluation.relevance_score ev) /\
  in_unit_interval (Evaluation.methodology_score ev) /\
  in_unit_interval (Evaluation.overall_score ev).

Definition bounded_averages (a : AverageScores.t) : Prop :=
  in_unit_interval (AverageScores.average_quality a) /\
  in_unit_interval (AverageScores.average_relevance a) /\
  in_unit_interval (AverageScores.average_methodology a) /\
  in_unit_interval (AverageScores.average_overall a).

(** The body the three scoring functions share, up to prompt and label. *)
Definition scoring {W} (C : Collaborators W) (prompt label : string)
  : M W pyfloat :=
  try_except
    (response <- call (llm_generate C prompt) ;;
     score <- lift (py_float C (strip response)) ;;
     ret (py_min (py_max score (PFin 0)) (PFin 1)))
    (fun e => add_error Critic (label ^^ e) ;;; ret (PFin 0)).

(** The model is down: every call raises. *)
Definition model_down {W} (C : Collaborators W) : Prop :=
  forall prompt w, exists e w', llm_generate C prompt w = (Raise e, w').

(** Three pairs to evaluate, and a model that cannot be reached. *)
Definition model_down_world : Collaborators unit :=
  scripted_collaborators
    (Ok [])
    (Ok [])
    (fun _ => Raise "unreachable")
    (fun _ => Raise "service unavailable")
    (fun _ => Raise "could not convert string to float").

(** The model answers every scoring prompt with "1.7"; [float] reads "nan"
    as NaN, as it does. *)
Definition generous_world : Collaborators unit :=
  scripted_collaborators
    (Ok [])
    (Ok [])
    (fun _ => Raise "unreachable")
    (fun _ => Ok " 1.7 ")
    (fun text => if String.eqb text "1.7" then Ok (PFin (17 # 10))
                 else if String.eqb text "nan" then Ok PNaN
                 else Raise "could not convert string to float").

(** The error log of an agent. *)
Definition log_of {W} (a : Agent) (st : St W) : list string :=
  match a with
  | Research => research_errors st
  | Summarizer => summarizer_errors st
  | Critic => critic_errors st
  | Writer => writer_errors st
  end.

(** [c] only appends to the log of [a], and writes to no other log. *)
Definition appends_only_to {W A} (a : Agent) (c : M W A) : Prop :=
  forall st r st',
    c st = (r, st') ->
    (exists added, log_of a st' = log_of a st ++ added) /\
    (forall b, b <> a -> log_of b st' = log_of b st).

(** An evaluation made without the model: zero scores, the default
    critique. *)
Definition zero_evaluation (ev : Evaluation.t) : Prop :=
  Evaluation.quality_score ev = PFin 0 /\
  Evaluation.relevance_score ev = PFin 0 /\
  Evaluation.methodology_score ev = PFin 0 /\
  (exists q, Evaluation.overall_score ev = PFin q /\ q == 0) /\
  Evaluation.critique ev = CriticAgent.default_critique.

(** The summarization chain fails on the second of two documents. *)
Definition chain_fails_world : Collaborators unit :=
  mkCollaborators unit
    (fun _ w => (Ok [1 # 2], w))
    (fun _ _ w => (Ok [], w))
    (fun _ w => (Ok [], w))
    (fun _ w => (Raise "unreachable", w))
    (fun _ w => (Ok "{}", w))
    (fun _ => Raise "could not convert string to float")
    (fun _ w => (Ok (VDict []), w))
    (fun doc w => (if String.eqb (page_content doc) "second"
                   then Raise "context too long" else Ok "summary", w))
    (fun _ w => ("2024-01-01", w))
    (fun _ _ w => (Ok tt, w))
    "data".

(** Services that answer from fixed tables. *)
Definition scripted_services (collections : list string)
    (embeddings : list (list Q)) : Services unit :=
  mkServices unit
    (fun _ w => (Ok embeddings, w))
    (fun w => (Ok collections, w))
    (fun _ _ w => (Ok tt, w))
    (fun _ _ w => (Ok tt, w))
    (fun _ w => (Ok tt, w))
    (fun w => ("2024-01-01T00:00:00", w)).

(** * Properties *)

(** ** Rationals and floats *)

Lemma Qltb_lt (a b : Q) : Qltb a b = true <-> a < b.
Proof.
  unfold Qltb. rewrite negb_true_iff.
  split; intro H.
  - apply Qnot_le_lt. intro Hle. apply Qle_bool_iff in Hle. congruence.
  - destruct (Qle_bool b a) eqn:E; [|reflexivity].
    apply Qle_bool_iff in E. exfalso. exact (Qlt_not_le _ _ H E).
Qed.

Lemma Qltb_ge (a b : Q) : Qltb a b = false <-> b <= a.
Proof.
  unfold Qltb. rewrite negb_false_iff. apply Qle_bool_iff.
Qed.

(** ** The relevance filter *)

Lemma filter_keeps_exactly {A} (P : A -> Prop) (p : A -> bool) :
  (forall x, p x = true <-> P x) ->
  forall l, keeps_exactly P l (filter p l).
Proof.
  intros Hp l. induction l as [|x l IH]; simpl.
  - constructor.
  - destruct (p x) eqn:E.
    + apply keeps_keep; [apply Hp; exact E | exact IH].
    + apply keeps_drop; [|exact IH].
      intro HP. apply Hp in HP. congruence.
Qed.

Lemma relevant_iff (doc : Document) :
  ResearchAgent.relevant doc = true <-> 1 # 2 < score_of doc.
Proof. apply Qltb_lt. Qed.

Lemma filter_by_relevance_run {W} (documents : list Document) (st : St W) :
  ResearchAgent.filter_by_relevance documents st
  = (Ok (filter ResearchAgent.relevant documents), st).
Proof. reflexivity. Qed.

Lemma relevant_stored (doc : Document) :
  ResearchAgent.relevant doc = true <-> scores_above_half doc.
Proof.
  rewrite relevant_iff. unfold score_of, scores_above_half.
  destruct (relevance_score (metadata doc)) as [q|]; cbn; split.
  - intro H. exists q. split; [reflexivity | exact H].
  - intros (q' & Hq & H). injection Hq as <-. exact H.
  - intro H. discriminate H.
  - intros (q' & Hq & _). discriminate Hq.
Qed.

(** C6: the Relevance Filter returns (never raises, records no error) exactly
    the documents that carry a relevance score strictly greater than 0.5, in
    their original order: every such document is kept, and no other; a
    document scoring exactly 0.5 is excluded, and so is a document with no
    relevance score, which is read as scoring 0. *)
Theorem filter_by_relevance_exact :
  forall (W : Type) (documents : list Document) (st : St W),
  exists kept,
    ResearchAgent.filter_by_relevance documents st = (Ok kept, st) /\
    keeps_exactly scores_above_half documents kept /\
    (forall doc, In doc kept <-> In doc documents /\ scores_above_half doc) /\
    (forall doc q, In doc documents ->
                   relevance_score (metadata doc) = Some q -> 1 # 2 < q ->
                   In doc kept) /\
    (forall doc q, relevance_score (metadata doc) = Some q -> q <= 1 # 2 ->
                   ~ In doc kept) /\
    (forall doc q, relevance_score (metadata doc) = Some q -> q == 1 # 2 ->
                   ~ In doc kept) /\
    (forall doc, relevance_score (metadata doc) = None ->
                 score_of doc = 0 /\ ~ In doc kept).
Proof.
  intros W documents st.
  exists (filter ResearchAgent.relevant documents).
  split; [apply filter_by_relevance_run|].
  split; [apply filter_keeps_exactly; apply relevant_stored|].
  assert (Hin : forall doc, In doc (filter ResearchAgent.relevant documents)
                            <-> In doc documents /\ scores_above_half doc).
  { intro doc. rewrite filter_In, relevant_stored. reflexivity. }
  assert (Hle : forall doc q, relevance_score (metadata doc) = Some q ->
                              q <= 1 # 2 ->
                              ~ In doc (filter ResearchAgent.relevant documents)).
  { intros doc q Hq Hle Hdoc. apply Hin in Hdoc.
    destruct Hdoc as (_ & q' & Hq' & Hlt).
    rewrite Hq in Hq'. injection Hq' as <-. exact (Qlt_not_le _ _ Hlt Hle). }
  split; [exact Hin|]. split; [|split; [exact Hle|split]].
  - intros doc q Hdoc Hq Hlt. apply Hin. split; [exact Hdoc|].
    exists q. split; assumption.
  - intros doc q Hq Heq. apply (Hle doc q Hq). rewrite Heq. apply Qle_refl.
  - intros doc Hq. unfold score_of. rewrite Hq. simpl.
    split; [reflexivity|].
    intro Hdoc. apply Hin in Hdoc. destruct Hdoc as (_ & q & Hq' & _).
    rewrite Hq in Hq'. discriminate Hq'.
Qed.

(** Index scores 0.9, 0.6, 0.5 and 0.4: the first two survive, in order. *)
Example filter_by_relevance_scenario :
  ResearchAgent.filter_by_relevance
    [scored "a" (9 # 10); scored "b" (6 # 10); scored "c" (5 # 10);
     scored "d" (4 # 10)] empty_st
  = (Ok [scored "a" (9 # 10); scored "b" (6 # 10)], empty_st).
Proof. reflexivity. Qed.

Lemma filter_idempotent {A} (p : A -> bool) (l : list A) :
  filter p (filter p l) = filter p l.
Proof.
  induction l as [|x l IH]; simpl; [reflexivity|].
  destruct (p x) eqn:E; simpl; [rewrite E, IH|]; auto.
Qed.

(** C7: running the Relevance Filter on its own output changes nothing:
    filtering twice gives the result, and the state, of filtering once. *)
Theorem filter_by_relevance_idempotent :
  forall (W : Type) (documents : list Document) (st : St W),
    (filtered <- ResearchAgent.filter_by_relevance documents ;;
     ResearchAgent.filter_by_relevance filtered) st
    = ResearchAgent.filter_by_relevance documents st.
Proof.
  intros W documents st. unfold bind.
  rewrite !filter_by_relevance_run, filter_idempotent. reflexivity.
Qed.

(** ** The descending stable sort *)

Lemma insert_desc_perm (x : Document) (l : list Document) :
  Permutation (x :: l) (HybridRetriever.insert_desc x l).
Proof.
  induction l as [|y ys IH]; simpl; [apply Permutation_refl|].
  destruct (Qltb (score_of x) (score_of y)).
  - eapply Permutation_trans; [apply perm_swap|].
    apply perm_skip. exact IH.
  - apply Permutation_refl.
Qed.

Lemma sort_desc_perm (l : list Document) :
  Permutation l (HybridRetriever.sort_desc l).
Proof.
  induction l as [|x l IH]; simpl; [constructor|].
  eapply Permutation_trans; [apply perm_skip; exact IH|].
  apply insert_desc_perm.
Qed.

Lemma desc_trans (a b c : Document) : desc a b -> desc b c -> desc a c.
Proof. unfold desc. intros Hab Hbc. eapply Qle_trans; eassumption. Qed.

Lemma insert_desc_sorted (x : Document) (l : list Document) :
  StronglySorted desc l -> StronglySorted desc (HybridRetriever.insert_desc x l).
Proof.
  induction 1 as [|y ys Hs IH Hall]; simpl.
  - constructor; constructor.
  - destruct (Qltb (score_of x) (score_of y)) eqn:E.
    + constructor; [exact IH|].
      eapply Permutation_Forall; [apply insert_desc_perm|].
      constructor; [|exact Hall].
      apply Qltb_lt in E. apply Qlt_le_weak. exact E.
    + apply Qltb_ge in E.
      constructor; [constructor; assumption|].
      constructor; [exact E|].
      eapply Forall_impl; [|exact Hall].
      intros z Hz. eapply desc_trans; [exact E | exact Hz].
Qed.

Lemma sort_desc_sorted (l : list Document) :
  StronglySorted desc (HybridRetriever.sort_desc l).
Proof.
  induction l as [|x l IH]; simpl; [constructor|].
  apply insert_desc_sorted. exact IH.
Qed.

(** Stability: among the documents of one score the sort changes nothing. *)
Lemma insert_desc_tied (k : Q) (x : Document) (l : list Document) :
  filter (tied k) (HybridRetriever.insert_desc x l) = filter (tied k) (x :: l).
Proof.
  induction l as [|y ys IH]; [reflexivity|].
  cbn [HybridRetriever.insert_desc].
  destruct (Qltb (score_of x) (score_of y)) eqn:E; [|reflexivity].
  cbn [filter] in *. rewrite IH.
  destruct (tied k y) eqn:Ey; [|reflexivity].
  destruct (tied k x) eqn:Ex; [|reflexivity].
  exfalso. unfold tied in Ex, Ey.
  apply Qeq_bool_iff in Ex. apply Qeq_bool_iff in Ey.
  apply Qltb_lt in E. rewrite Ex, Ey in E. exact (Qlt_irrefl _ E).
Qed.

Lemma sort_desc_stable (k : Q) (l : list Document) :
  filter (tied k) (HybridRetriever.sort_desc l) = filter (tied k) l.
Proof.
  induction l as [|x l IH]; [reflexivity|].
  cbn [HybridRetriever.sort_desc fold_right].
  rewrite insert_desc_tied. cbn [filter].
  unfold HybridRetriever.sort_desc in IH. rewrite IH. reflexivity.
Qed.

Lemma firstn_strongly_sorted {A} (R : A -> A -> Prop) (n : nat) (l : list A) :
  StronglySorted R l -> StronglySorted R (firstn n l).
Proof.
  intro Hs. revert n. induction Hs as [|x l Hs IH Hall]; intro n.
  - rewrite firstn_nil. constructor.
  - destruct n as [|n]; simpl; [constructor|].
    constructor; [apply IH|].
    rewrite Forall_forall in *. intros y Hy. apply Hall.
    rewrite <- (firstn_skipn n l). apply in_or_app. left. exact Hy.
Qed.

Lemma filter_firstn_prefix {A} (p : A -> bool) (n : nat) (l : list A) :
  filter p l = filter p (firstn n l) ++ filter p (skipn n l).
Proof. rewrite <- filter_app, firstn_skipn. reflexivity. Qed.

(** ** Web search *)

Section WebSearchFacts.
Context {W : Type} (C : Collaborators W).

Lemma extract_one_ok (r : WebResult) (st st' : St W) (content : string) :
  WebSearch.extract_content C (result_link r) st = (Ok content, st') ->
  WebSearch.extract_one C r st = (Ok [WebSearch.web_document content r], st').
Proof.
  intro H. unfold WebSearch.extract_one, try_except, bind. rewrite H. reflexivity.
Qed.

Lemma extract_one_fails (r : WebResult) (st st' : St W) (e : string) :
  WebSearch.extract_content C (result_link r) st = (Raise e, st') ->
  WebSearch.extract_one C r st = (Ok [], st').
Proof.
  intro H. unfold WebSearch.extract_one, try_except, bind. rewrite H. reflexivity.
Qed.

Lemma extract_one_total (r : WebResult) (st : St W) :
  exists docs st',
    WebSearch.extract_one C r st = (Ok docs, st') /\ Forall web_sourced docs.
Proof.
  destruct (WebSearch.extract_content C (result_link r) st) as [[content|e] st'] eqn:E.
  - exists [WebSearch.web_document content r], st'.
    split; [apply extract_one_ok; exact E|].
    constructor; [split; reflexivity | constructor].
  - exists [], st'. split; [eapply extract_one_fails; exact E | constructor].
Qed.

Lemma extract_loop_cons (r : WebResult) (rest : list WebResult)
    (st st1 st2 : St W) (doc docs : list Document) :
  WebSearch.extract_one C r st = (Ok doc, st1) ->
  WebSearch.extract_loop C rest st1 = (Ok docs, st2) ->
  WebSearch.extract_loop C (r :: rest) st = (Ok (doc ++ docs), st2).
Proof.
  intros H1 H2. cbn [WebSearch.extract_loop]. unfold bind.
  rewrite H1, H2. reflexivity.
Qed.

(** The loop over the results never raises. *)
Lemma extract_loop_total (results : list WebResult) :
  forall st : St W,
  exists docs st',
    WebSearch.extract_loop C results st = (Ok docs, st') /\
    Forall web_sourced docs.
Proof.
  induction results as [|r rest IH]; intro st.
  - exists [], st. split; [reflexivity | constructor].
  - destruct (extract_one_total r st) as (doc & st1 & H1 & Hd).
    destruct (IH st1) as (docs & st2 & H2 & Hds).
    exists (doc ++ docs), st2.
    split; [eapply extract_loop_cons; eassumption|].
    apply Forall_app. split; assumption.
Qed.


Lemma search_and_extract_ok (query : string) (max_results : nat)
    (st st1 : St W) (results : list WebResult) :
  WebSearch.search C query max_results st = (Ok results, st1) ->
  WebSearch.search_and_extract C query max_results st
  = WebSearch.extract_loop C results st1.
Proof.
  intro H. unfold WebSearch.search_and_extract, try_except, bind. rewrite H.
  destruct (extract_loop_total results st1) as (docs & st2 & -> & _).
  reflexivity.
Qed.

Lemma search_and_extract_raises (query : string) (max_results : nat)
    (st st1 : St W) (e : string) :
  WebSearch.search C query max_results st = (Raise e, st1) ->
  WebSearch.search_and_extract C query max_results st
  = (Raise ("Error in search and extract: " ^^ e), st1).
Proof.
  intro H. unfold WebSearch.search_and_extract, try_except, bind. rewrite H.
  reflexivity.
Qed.

Lemma search_and_extract_web_sourced (query : string) (max_results : nat)
    (st st' : St W) (docs : list Document) :
  WebSearch.search_and_extract C query max_results st = (Ok docs, st') ->
  Forall web_sourced docs.
Proof.
  intro H.
  destruct (WebSearch.search C query max_results st) as [[results|e] st1] eqn:E.
  - rewrite (search_and_extract_ok _ _ _ _ _ E) in H.
    destruct (extract_loop_total results st1) as (docs' & st2 & H2 & Hweb).
    rewrite H2 in H. injection H as <- <-. exact Hweb.
  - rewrite (search_and_extract_raises _ _ _ _ _ E) in H. discriminate.
Qed.

End WebSearchFacts.

(** ** The hybrid retriever *)

Section RetrieverFacts.
Context {W : Type} (C : Collaborators W).

Lemma retrieve_ok (query : string) (limit : nat) (include_web : bool)
    (st st1 st2 st3 : St W) (v : list Q) (hits : list Hit)
    (web : list Document) :
  EmbeddingsManager.get_embedding C query st = (Ok v, st1) ->
  call (qdrant_search C v limit) st1 = (Ok hits, st2) ->
  web_part C query limit include_web st2 = (Ok web, st3) ->
  HybridRetriever.retrieve C query limit include_web st
  = (Ok (firstn limit (HybridRetriever.sort_desc
                         (map HybridRetriever.hit_document hits ++ web))), st3).
Proof.
  intros H1 H2 H3.
  unfold HybridRetriever.retrieve, try_except, bind. rewrite H1, H2.
  unfold web_part in H3. destruct include_web.
  - rewrite H3. reflexivity.
  - unfold ret in *. injection H3 as <- <-. rewrite app_nil_r. reflexivity.
Qed.

Lemma retrieve_ok_inv (query : string) (limit : nat) (include_web : bool)
    (st st' : St W) (docs : list Document) :
  HybridRetriever.retrieve C query limit include_web st = (Ok docs, st') ->
  exists v st1 hits st2 web,
    EmbeddingsManager.get_embedding C query st = (Ok v, st1) /\
    call (qdrant_search C v limit) st1 = (Ok hits, st2) /\
    web_part C query limit include_web st2 = (Ok web, st') /\
    docs = firstn limit (HybridRetriever.sort_desc
                           (map HybridRetriever.hit_document hits ++ web)).
Proof.
  intro H.
  destruct (EmbeddingsManager.get_embedding C query st) as [[v|e] st1] eqn:E1.
  2:{ unfold HybridRetriever.retrieve, try_except, bind in H.
      rewrite E1 in H. discriminate. }
  destruct (call (qdrant_search C v limit) st1) as [[hits|e] st2] eqn:E2.
  2:{ unfold HybridRetriever.retrieve, try_except, bind in H.
      rewrite E1, E2 in H. discriminate. }
  destruct (web_part C query limit include_web st2) as [[web|e] st3] eqn:E3.
  - rewrite (retrieve_ok _ _ _ _ _ _ _ _ _ _ E1 E2 E3) in H.
    injection H as <- <-.
    exists v, st1, hits, st2, web. repeat split; assumption.
  - unfold HybridRetriever.retrieve, try_except, bind in H.
    rewrite E1, E2 in H. unfold web_part in E3. destruct include_web.
    + rewrite E3 in H. discriminate.
    + discriminate.
Qed.

Lemma hit_document_database (h : Hit) :
  source (metadata (HybridRetriever.hit_document h)) = Some "database" /\
  relevance_score (metadata (HybridRetriever.hit_document h)) = Some (score h).
Proof. split; reflexivity. Qed.

Lemma web_part_web_sourced (query : string) (limit : nat) (include_web : bool)
    (st st' : St W) (web : list Document) :
  web_part C query limit include_web st = (Ok web, st') ->
  Forall web_sourced web /\ (include_web = false -> web = []).
Proof.
  unfold web_part. destruct include_web; intro H.
  - split; [eapply search_and_extract_web_sourced; exact H | discriminate].
  - unfold ret in H. injection H as <- <-. split; [constructor | reflexivity].
Qed.

End RetrieverFacts.

(** ** Claims on the hybrid retriever *)

(** C8: a list returned by [retrieve] has at most [limit] entries and is
    sorted by non-increasing relevance score (a missing score counts as 0).
    The sort is stable with respect to discovery order: with [hits] the hits
    the index returned, in its order, and [web] the documents of the web
    search, in its order, the returned entries of any one score are, in
    order, the first of the hit documents of that score followed by the web
    documents of that score. *)
Theorem retrieve_sorted_and_bounded :
  forall (W : Type) (C : Collaborators W) (query : string) (limit : nat)
         (include_web : bool) (st st' : St W) (docs : list Document),
    HybridRetriever.retrieve C query limit include_web st = (Ok docs, st') ->
    (List.length docs <= limit)%nat /\
    StronglySorted not_below docs /\
    exists v st1 hits st2 web dropped,
      EmbeddingsManager.get_embedding C query st = (Ok v, st1) /\
      call (qdrant_search C v limit) st1 = (Ok hits, st2) /\
      web_part C query limit include_web st2 = (Ok web, st') /\
      let db := map HybridRetriever.hit_document hits in
      Forall2 (fun h doc =>
                 page_content doc = payload_text h /\
                 source (metadata doc) = Some "database" /\
                 relevance_score (metadata doc) = Some (score h)) hits db /\
      Forall web_sourced web /\
      Permutation (db ++ web) (docs ++ dropped) /\
      forall k, filter (scored_as k) db ++ filter (scored_as k) web
                = filter (scored_as k) docs ++ filter (scored_as k) dropped.
Proof.
  intros W C query limit include_web st st' docs H.
  apply retrieve_ok_inv in H.
  destruct H as (v & st1 & hits & st2 & web & H1 & H2 & Hweb & ->).
  set (db := map HybridRetriever.hit_document hits).
  split; [apply firstn_le_length|].
  split; [exact (firstn_strongly_sorted desc limit _ (sort_desc_sorted _))|].
  exists v, st1, hits, st2, web,
    (skipn limit (HybridRetriever.sort_desc (db ++ web))).
  split; [exact H1|]. split; [exact H2|]. split; [exact Hweb|].
  cbv zeta. fold db. split.
  { subst db. clear. induction hits as [|h rest IH]; cbn [map]; constructor.
    - repeat split.
    - exact IH. }
  split; [eapply web_part_web_sourced; exact Hweb|].
  split.
  - rewrite firstn_skipn. apply sort_desc_perm.
  - intro k. rewrite <- filter_app.
    rewrite <- (filter_firstn_prefix (scored_as k) limit).
    symmetry. exact (sort_desc_stable k (db ++ web)).
Qed.

Lemma retrieve_sorted_and_bounded_witness :
  HybridRetriever.retrieve sample_world "q" 3 true empty_st
  = (Ok [HybridRetriever.hit_document (mkHit "b" (titled "B") (9 # 10));
         HybridRetriever.hit_document (mkHit "c" (titled "C") (9 # 10));
         HybridRetriever.hit_document (mkHit "a" (titled "A") (4 # 10))],
     empty_st) /\
  StronglySorted not_below
    [HybridRetriever.hit_document (mkHit "b" (titled "B") (9 # 10));
     HybridRetriever.hit_document (mkHit "c" (titled "C") (9 # 10));
     HybridRetriever.hit_document (mkHit "a" (titled "A") (4 # 10))].
Proof.
  split; [reflexivity|].
  apply (retrieve_sorted_and_bounded unit sample_world "q" 3%nat true
           empty_st empty_st).
  reflexivity.
Defined.

(** C2, refuted: [retrieve] returns both "Transformers" (0.8) and
    "transformers " (0.55), whose normalized titles are equal. *)
Lemma retrieve_colliding_titles_counterexample :
  ~ (forall (W : Type) (C : Collaborators W) (query : string) (limit : nat)
            (include_web : bool) (st st' : St W) (docs : list Document),
        HybridRetriever.retrieve C query limit include_web st = (Ok docs, st') ->
        no_colliding_titles docs).
Proof.
  intro claim.
  assert (Hrun :
            HybridRetriever.retrieve transformers_world "transformers" 10 true
              empty_st
            = (Ok [HybridRetriever.hit_document
                     (mkHit "first" (titled "Transformers") (8 # 10));
                   HybridRetriever.hit_document
                     (mkHit "second" (titled "transformers ") (55 # 100))],
               empty_st))
    by (vm_compute; reflexivity).
  apply claim in Hrun. unfold no_colliding_titles in Hrun.
  assert (Htitles :
            map normalized_title
              [HybridRetriever.hit_document
                 (mkHit "first" (titled "Transformers") (8 # 10));
               HybridRetriever.hit_document
                 (mkHit "second" (titled "transformers ") (55 # 100))]
            = ["transformers"; "transformers"])
    by (vm_compute; reflexivity).
  rewrite Htitles in Hrun.
  inversion Hrun as [|x l Hnotin _]. apply Hnotin. left. reflexivity.
Qed.

(** C2, amended: [retrieve] merges no entries.  It returns the first [limit]
    entries of the stable descending sort of the index hits followed by the
    web documents; when these candidates number at most [limit], every one of
    them is returned, whatever its title. *)
Theorem retrieve_keeps_every_candidate :
  forall (W : Type) (C : Collaborators W) (query : string) (limit : nat)
         (include_web : bool) (st st' : St W) (docs : list Document),
    HybridRetriever.retrieve C query limit include_web st = (Ok docs, st') ->
    exists v st1 hits st2 web,
      EmbeddingsManager.get_embedding C query st = (Ok v, st1) /\
      call (qdrant_search C v limit) st1 = (Ok hits, st2) /\
      web_part C query limit include_web st2 = (Ok web, st') /\
      let candidates := map HybridRetriever.hit_document hits ++ web in
      docs = firstn limit (HybridRetriever.sort_desc candidates) /\
      ((List.length candidates <= limit)%nat -> Permutation candidates docs).
Proof.
  intros W C query limit include_web st st' docs H.
  apply retrieve_ok_inv in H.
  destruct H as (v & st1 & hits & st2 & web & H1 & H2 & H3 & ->).
  exists v, st1, hits, st2, web. repeat split; try assumption.
  intro Hlen. rewrite firstn_all2.
  - apply sort_desc_perm.
  - rewrite <- (Permutation_length (sort_desc_perm _)). exact Hlen.
Qed.

Lemma retrieve_keeps_every_candidate_witness :
  exists docs,
    HybridRetriever.retrieve transformers_world "transformers" 10 true empty_st
    = (Ok docs, empty_st) /\
    Permutation
      [HybridRetriever.hit_document (mkHit "first" (titled "Transformers") (8 # 10));
       HybridRetriever.hit_document (mkHit "second" (titled "transformers ") (55 # 100))]
      docs.
Proof.
  eexists. split; [reflexivity|].
  destruct (retrieve_keeps_every_candidate unit transformers_world "transformers"
              10%nat true empty_st empty_st _ eq_refl)
    as (v & st1 & hits & st2 & web & H1 & H2 & H3 & Hdocs & Hperm).
  cbn in H1. injection H1 as <- <-.
  cbn in H2. injection H2 as <- <-.
  cbn in H3. injection H3 as <-.
  apply Hperm. cbn. lia.
Defined.

(** C3, refuted: the web document [search_and_extract] hands to the merge
    has no relevance score. *)
Lemma web_documents_scored_counterexample :
  ~ (forall (W : Type) (C : Collaborators W) (query : string) (limit : nat)
            (st st' : St W) (web_docs : list Document),
        WebSearch.search_and_extract C query limit st = (Ok web_docs, st') ->
        Forall (fun doc => relevance_score (metadata doc) <> None) web_docs).
Proof.
  intro claim.
  specialize (claim unit one_page_world "q" 10%nat empty_st empty_st _ eq_refl).
  inversion claim as [|doc rest Hscore _]. apply Hscore. reflexivity.
Qed.

(** C3, amended: with [include_web] true, every web document reaches the
    merge tagged with source "web" and with no relevance score; the sort
    reads the missing score as 0, and the Relevance Filter keeps none of
    them. *)
Theorem web_documents_carry_no_score :
  forall (W : Type) (C : Collaborators W) (query : string) (limit : nat)
         (st st' : St W) (web_docs : list Document),
    WebSearch.search_and_extract C query limit st = (Ok web_docs, st') ->
    Forall (fun doc => source (metadata doc) = Some "web" /\
                       relevance_score (metadata doc) = None /\
                       score_of doc = 0) web_docs /\
    filter ResearchAgent.relevant web_docs = [].
Proof.
  intros W C query limit st st' web_docs H.
  apply search_and_extract_web_sourced in H.
  split.
  - eapply Forall_impl; [|exact H].
    intros doc [Hsrc Hscore]. repeat split; try assumption.
    unfold score_of. rewrite Hscore. reflexivity.
  - induction H as [|doc rest [_ Hscore] _ IH]; [reflexivity|].
    cbn [filter]. rewrite IH.
    unfold ResearchAgent.relevant, score_of. rewrite Hscore. reflexivity.
Qed.

Lemma web_documents_carry_no_score_witness :
  WebSearch.search_and_extract one_page_world "q" 10 empty_st
  = (Ok [WebSearch.web_document "page text"
           (mkWebResult "Page" "snippet" "example.org")], empty_st) /\
  filter ResearchAgent.relevant
    [WebSearch.web_document "page text"
       (mkWebResult "Page" "snippet" "example.org")] = [].
Proof.
  split; [reflexivity|].
  apply (web_documents_carry_no_score unit one_page_world "q" 10%nat
           empty_st empty_st).
  reflexivity.
Defined.

(** ** The research agent when retrieval raises *)

Lemma process_retrieve_raises {W} (C : Collaborators W) (query : string)
    (st st1 : St W) (e : string) :
  HybridRetriever.retrieve C query 10 true st = (Raise e, st1) ->
  ResearchAgent.process C query st
  = (Ok [], mkSt (world st1)
                 (research_errors st1 ++ ["Error processing query: " ^^ e])
                 (summarizer_errors st1) (critic_errors st1)
                 (writer_errors st1)).
Proof.
  intro H. unfold ResearchAgent.process, try_except, bind. rewrite H.
  reflexivity.
Qed.





(** ** Computations that never raise, and what they leave alone *)

Section Combinators.
Context {W : Type}.

Lemma total_ret {A} (a : A) : total (@ret W A a).
Proof. intro st. exists a, st. reflexivity. Qed.

Lemma total_add_error (a : Agent) (msg : string) : total (@add_error W a msg).
Proof. intro st. eexists _, _. reflexivity. Qed.

Lemma total_bind {A B} (c : M W A) (k : A -> M W B) :
  total c -> (forall a, total (k a)) -> total (bind c k).
Proof.
  intros Hc Hk st. destruct (Hc st) as (a & st1 & E).
  destruct (Hk a st1) as (b & st2 & E2).
  exists b, st2. unfold bind. rewrite E. exact E2.
Qed.

Lemma total_try_except {A} (c : M W A) (h : string -> M W A) :
  (forall e, total (h e)) -> total (try_except c h).
Proof.
  intros Hh st. unfold try_except.
  destruct (c st) as [[a|e] st1].
  - exists a, st1. reflexivity.
  - apply Hh.
Qed.

Lemma total_for_each {A B} (f : A -> M W B) (xs : list A) :
  (forall x, total (f x)) -> total (for_each f xs).
Proof.
  intro Hf. induction xs as [|x rest IH]; cbn [for_each].
  - apply total_ret.
  - apply total_bind; [apply Hf|]. intro y.
    apply total_bind; [exact IH|]. intro ys. apply total_ret.
Qed.

Lemma keeps_ret {A} (a : A) : keeps_research_log (@ret W A a).
Proof. intros st r st' H. injection H as _ <-. reflexivity. Qed.

Lemma keeps_raise {A} (msg : string) : keeps_research_log (@raise W A msg).
Proof. intros st r st' H. injection H as _ <-. reflexivity. Qed.

Lemma keeps_lift {A} (r : result A) : keeps_research_log (@lift W A r).
Proof. intros st r' st' H. injection H as _ <-. reflexivity. Qed.

Lemma keeps_call {A} (f : W -> result A * W) : keeps_research_log (call f).
Proof.
  intros st r st' H. unfold call in H.
  destruct (f (world st)) as [r' w]. injection H as _ <-. reflexivity.
Qed.

Lemma keeps_add_error (a : Agent) (msg : string) :
  a <> Research -> keeps_research_log (@add_error W a msg).
Proof.
  intros Ha st r st' H. unfold add_error in H. injection H as _ <-.
  destruct a; [contradiction | reflexivity ..].
Qed.

Lemma keeps_bind {A B} (c : M W A) (k : A -> M W B) :
  keeps_research_log c -> (forall a, keeps_research_log (k a)) ->
  keeps_research_log (bind c k).
Proof.
  intros Hc Hk st r st' H. unfold bind in H.
  destruct (c st) as [[a|e] st1] eqn:E.
  - rewrite (Hk a _ _ _ H). exact (Hc _ _ _ E).
  - injection H as _ <-. exact (Hc _ _ _ E).
Qed.

Lemma keeps_try_except {A} (c : M W A) (h : string -> M W A) :
  keeps_research_log c -> (forall e, keeps_research_log (h e)) ->
  keeps_research_log (try_except c h).
Proof.
  intros Hc Hh st r st' H. unfold try_except in H.
  destruct (c st) as [[a|e] st1] eqn:E.
  - injection H as _ <-. exact (Hc _ _ _ E).
  - rewrite (Hh e _ _ _ H). exact (Hc _ _ _ E).
Qed.

Lemma keeps_for_each {A B} (f : A -> M W B) (xs : list A) :
  (forall x, keeps_research_log (f x)) -> keeps_research_log (for_each f xs).
Proof.
  intro Hf. induction xs as [|x rest IH]; cbn [for_each].
  - apply keeps_ret.
  - apply keeps_bind; [apply Hf|]. intro y.
    apply keeps_bind; [exact IH|]. intro ys. apply keeps_ret.
Qed.

End Combinators.

(** Closes [total c] and [keeps_research_log c] for code built from the
    monad's operations. *)
Ltac py_structure :=
  repeat first
    [ apply total_try_except; intro
    | apply total_bind; [|intro]
    | apply total_ret
    | apply total_add_error
    | apply keeps_try_except; [|intro]
    | apply keeps_bind; [|intro]
    | apply keeps_ret
    | apply keeps_raise
    | apply keeps_lift
    | apply keeps_call
    | apply keeps_add_error; discriminate
    | apply keeps_for_each; intro
    | match goal with |- keeps_research_log (let (_, _) := ?p in _) => destruct p end
    ].

Section AgentFacts.
Context {W : Type} (C : Collaborators W) (P : Prompts).

Lemma cross_document_synthesis_total (summaries : list Summary.t) :
  total (SummarizerAgent.cross_document_synthesis C P summaries).
Proof. unfold SummarizerAgent.cross_document_synthesis. py_structure. Qed.

Lemma cross_document_synthesis_keeps (summaries : list Summary.t) :
  keeps_research_log (SummarizerAgent.cross_document_synthesis C P summaries).
Proof. unfold SummarizerAgent.cross_document_synthesis. py_structure. Qed.

Lemma writer_process_total (query : string) (documents : list Document)
    (summaries : list Summary.t) (evaluations : option Evaluations.t)
    (synthesis : pyval) :
  total (WriterAgent.process C P query documents summaries evaluations synthesis).
Proof. unfold WriterAgent.process. py_structure. Qed.

Lemma writer_process_keeps (query : string) (documents : list Document)
    (summaries : list Summary.t) (evaluations : option Evaluations.t)
    (synthesis : pyval) :
  keeps_research_log
    (WriterAgent.process C P query documents summaries evaluations synthesis).
Proof.
  unfold WriterAgent.process, WriterAgent._generate_executive_summary,
    WriterAgent._generate_methodology_section,
    WriterAgent._generate_findings_section,
    WriterAgent._generate_analysis_section,
    WriterAgent._generate_recommendations, WriterAgent._generate_references,
    WriterAgent._save_report.
  py_structure.
Qed.

Lemma summarizer_process_total (documents : list Document) :
  total (SummarizerAgent.process C P documents).
Proof. unfold SummarizerAgent.process. py_structure. Qed.

Lemma critic_process_total (documents : list Document)
    (summaries : list Summary.t) :
  total (CriticAgent.process C P documents summaries).
Proof. unfold CriticAgent.process. py_structure. Qed.

Lemma research_process_total (query : string) :
  total (ResearchAgent.process C query).
Proof. unfold ResearchAgent.process. py_structure. Qed.

End AgentFacts.

(** ** Claims on the coordinator *)

(** C1: whichever of the five nodes runs, and whatever the input state, if
    the node's agent call raises then the node itself returns: its state is
    the input state with the exception's message appended to [errors], every
    other field (the node's own among them) as it was, and the graph goes on
    to the next node from that state. *)
Theorem node_error_isolated :
  forall (W : Type) (A : ResearchCoordinator.Agents W)
         (n : ResearchCoordinator.Node) (state : ResearchState.t)
         (st st' : St W) (msg : string),
    agent_call_raises A n state st msg st' ->
    exists state',
      ResearchCoordinator.node A n state st = (Ok state', st') /\
      ResearchState.query state' = ResearchState.query state /\
      ResearchState.documents state' = ResearchState.documents state /\
      ResearchState.summaries state' = ResearchState.summaries state /\
      ResearchState.evaluations state' = ResearchState.evaluations state /\
      ResearchState.synthesis state' = ResearchState.synthesis state /\
      ResearchState.report state' = ResearchState.report state /\
      ResearchState.errors state' = ResearchState.errors state ++ [msg] /\
      forall steps,
        ResearchCoordinator.ainvoke A (S steps) n state st
        = match ResearchCoordinator.edge n with
          | Some next => ResearchCoordinator.ainvoke A steps next state' st'
          | None => (Ok state', st')
          end.
Proof.
  intros W A n state st st' msg H.
  exists (ResearchCoordinator.with_error state msg).
  assert (Hnode : ResearchCoordinator.node A n state st
                  = (Ok (ResearchCoordinator.with_error state msg), st')).
  { destruct n; cbn [agent_call_raises] in H; cbn [ResearchCoordinator.node];
      unfold ResearchCoordinator._research_node,
        ResearchCoordinator._summarize_node, ResearchCoordinator._evaluate_node,
        ResearchCoordinator._synthesize_node, ResearchCoordinator._write_node,
        try_except, bind;
      rewrite H; reflexivity. }
  split; [exact Hnode|].
  repeat (split; [reflexivity|]).
  intro steps. cbn [ResearchCoordinator.ainvoke]. unfold bind at 1.
  rewrite Hnode. destruct (ResearchCoordinator.edge n); reflexivity.
Qed.

Lemma node_error_isolated_witness :
  exists state',
    ResearchCoordinator.node failing_agents ResearchCoordinator.evaluate
      (ResearchCoordinator.initial_state "q") empty_st
    = (Ok state', empty_st) /\
    ResearchState.evaluations state' = None /\
    ResearchState.errors state' = ["evaluate failed"].
Proof.
  destruct (node_error_isolated unit failing_agents ResearchCoordinator.evaluate
              (ResearchCoordinator.initial_state "q") empty_st empty_st
              "evaluate failed" eq_refl)
    as (state' & Hnode & _ & _ & _ & Hev & _ & _ & Herr & _).
  exists state'. split; [exact Hnode|]. split; [exact Hev | exact Herr].
Defined.

(** *** A node whose agent call returns *)

Lemma bind_ok {W A B} (c : M W A) (k : A -> M W B) (st st' : St W) (a : A) :
  c st = (Ok a, st') -> bind c k st = k a st'.
Proof. intro H. unfold bind. rewrite H. reflexivity. Qed.

Section NodeFacts.
Context {W : Type} (A : ResearchCoordinator.Agents W).

Lemma research_node_ok (state : ResearchState.t) (st st' : St W)
    (documents : list Document) :
  ResearchCoordinator.research_agent_process A (ResearchState.query state) st
  = (Ok documents, st') ->
  ResearchCoordinator._research_node A state st
  = (Ok (ResearchState.mk (ResearchState.query state) documents
           (ResearchState.summaries state) (ResearchState.evaluations state)
           (ResearchState.synthesis state) (ResearchState.report state)
           (ResearchState.errors state)), st').
Proof.
  intro H. unfold ResearchCoordinator._research_node, try_except, bind.
  rewrite H. reflexivity.
Qed.

Lemma summarize_node_ok (state : ResearchState.t) (st st' : St W)
    (summaries : list Summary.t) :
  ResearchCoordinator.summarizer_agent_process A
    (ResearchState.documents state) st = (Ok summaries, st') ->
  ResearchCoordinator._summarize_node A state st
  = (Ok (ResearchState.mk (ResearchState.query state)
           (ResearchState.documents state) summaries
           (ResearchState.evaluations state) (ResearchState.synthesis state)
           (ResearchState.report state) (ResearchState.errors state)), st').
Proof.
  intro H. unfold ResearchCoordinator._summarize_node, try_except, bind.
  rewrite H. reflexivity.
Qed.

Lemma evaluate_node_ok (state : ResearchState.t) (st st' : St W)
    (evaluations : Evaluations.t) :
  ResearchCoordinator.critic_agent_process A (ResearchState.documents state)
    (ResearchState.summaries state) st = (Ok evaluations, st') ->
  ResearchCoordinator._evaluate_node A state st
  = (Ok (ResearchState.mk (ResearchState.query state)
           (ResearchState.documents state) (ResearchState.summaries state)
           (Some evaluations) (ResearchState.synthesis state)
           (ResearchState.report state) (ResearchState.errors state)), st').
Proof.
  intro H. unfold ResearchCoordinator._evaluate_node, try_except, bind.
  rewrite H. reflexivity.
Qed.

Lemma synthesize_node_ok (state : ResearchState.t) (st st' : St W)
    (synthesis : pyval) :
  ResearchCoordinator.summarizer_agent_cross_document_synthesis A
    (ResearchState.summaries state) st = (Ok synthesis, st') ->
  ResearchCoordinator._synthesize_node A state st
  = (Ok (ResearchState.mk (ResearchState.query state)
           (ResearchState.documents state) (ResearchState.summaries state)
           (ResearchState.evaluations state) synthesis
           (ResearchState.report state) (ResearchState.errors state)), st').
Proof.
  intro H. unfold ResearchCoordinator._synthesize_node, try_except, bind.
  rewrite H. reflexivity.
Qed.

Lemma write_node_ok (state : ResearchState.t) (st st' : St W)
    (report : option Report.t) :
  ResearchCoordinator.writer_agent_process A (ResearchState.query state)
    (ResearchState.documents state) (ResearchState.summaries state)
    (ResearchState.evaluations state) (ResearchState.synthesis state) st
  = (Ok report, st') ->
  ResearchCoordinator._write_node A state st
  = (Ok (ResearchState.mk (ResearchState.query state)
           (ResearchState.documents state) (ResearchState.summaries state)
           (ResearchState.evaluations state) (ResearchState.synthesis state)
           report (ResearchState.errors state)), st').
Proof.
  intro H. unfold ResearchCoordinator._write_node, try_except, bind.
  rewrite H. reflexivity.
Qed.

End NodeFacts.

(** *** A run whose retrieval fails *)

(** C5, refuted: in a run whose retrieval fails, the final state's [errors]
    is empty. *)
Lemma retrieval_failure_errors_counterexample :
  ~ (forall (W : Type) (C : Collaborators W) (P : Prompts) (query : string)
            (st st1 st' : St W) (e : string) (final : ResearchState.t),
        HybridRetriever.retrieve C query 10 true st = (Raise e, st1) ->
        ResearchCoordinator.process_query (ResearchCoordinator.agents C P)
          query st = (Ok final, st') ->
        exists msg, In msg (ResearchState.errors final)).
Proof.
  intro claim.
  assert (Hretrieve :
            HybridRetriever.retrieve index_down_world "q" 10 true empty_st
            = (Raise "Error retrieving documents: connection refused", empty_st))
    by (vm_compute; reflexivity).
  destruct (ResearchCoordinator.process_query
              (ResearchCoordinator.agents index_down_world plain_prompts)
              "q" empty_st) as [[final|e] st'] eqn:Hrun.
  - destruct (claim unit index_down_world plain_prompts "q" empty_st empty_st
                st' _ final Hretrieve Hrun) as (msg & Hin).
    vm_compute in Hrun. injection Hrun as <- _. exact Hin.
  - vm_compute in Hrun. discriminate Hrun.
Qed.

Lemma summarizer_process_nil {W} (C : Collaborators W) (P : Prompts) (st : St W) :
  SummarizerAgent.process C P [] st = (Ok [], st).
Proof. reflexivity. Qed.

Lemma critic_process_nil_l {W} (C : Collaborators W) (P : Prompts)
    (summaries : list Summary.t) (st : St W) :
  CriticAgent.process C P [] summaries st = (Ok (Evaluations.mk [] None), st).
Proof. reflexivity. Qed.

(** C5, amended: in every run whose retrieval raises, the research agent
    catches the failure, logs it in its own error list and returns no
    documents; the four later stages all run without raising; the final
    state has [documents = []], [summaries = []] and
    [evaluations = {"evaluations": [], "average_scores": {}}], its
    [synthesis] and [report] are what the synthesis and the writer return on
    these empty inputs, and its [errors] list is empty. *)
Theorem retrieval_failure_run :
  forall (W : Type) (C : Collaborators W) (P : Prompts) (query : string)
         (st st1 : St W) (e : string),
    HybridRetriever.retrieve C query 10 true st = (Raise e, st1) ->
    exists st2 synthesis st3 report st',
      ResearchAgent.process C query st = (Ok [], st2) /\
      SummarizerAgent.process C P [] st2 = (Ok [], st2) /\
      CriticAgent.process C P [] [] st2 = (Ok (Evaluations.mk [] None), st2) /\
      SummarizerAgent.cross_document_synthesis C P [] st2 = (Ok synthesis, st3) /\
      WriterAgent.process C P query [] [] (Some (Evaluations.mk [] None))
        synthesis st3 = (Ok report, st') /\
      ResearchCoordinator.process_query (ResearchCoordinator.agents C P) query st
      = (Ok (ResearchState.mk query [] [] (Some (Evaluations.mk [] None))
               synthesis report []), st') /\
      research_errors st'
      = research_errors st1 ++ ["Error processing query: " ^^ e].
Proof.
  intros W C P query st st1 e H.
  pose proof (process_retrieve_raises C query st st1 e H) as Hres.
  set (st2 := mkSt (world st1)
                (research_errors st1 ++ ["Error processing query: " ^^ e])
                (summarizer_errors st1) (critic_errors st1)
                (writer_errors st1)) in *.
  destruct (cross_document_synthesis_total C P [] st2) as (synthesis & st3 & Hsyn).
  destruct (writer_process_total C P query [] []
              (Some (Evaluations.mk [] None)) synthesis st3)
    as (report & st' & Hwr).
  exists st2, synthesis, st3, report, st'.
  split; [exact Hres|].
  split; [apply summarizer_process_nil|].
  split; [apply critic_process_nil_l|].
  split; [exact Hsyn|].
  split; [exact Hwr|].
  split.
  - unfold ResearchCoordinator.process_query, ResearchCoordinator.entry_point.
    cbn [ResearchCoordinator.ainvoke ResearchCoordinator.node
         ResearchCoordinator.edge].
    erewrite bind_ok by (apply research_node_ok; exact Hres).
    erewrite bind_ok
      by (apply summarize_node_ok; apply (summarizer_process_nil C P)).
    erewrite bind_ok
      by (apply evaluate_node_ok; apply (critic_process_nil_l C P)).
    erewrite bind_ok by (apply synthesize_node_ok; exact Hsyn).
    erewrite bind_ok by (apply write_node_ok; exact Hwr).
    reflexivity.
  - rewrite (writer_process_keeps C P _ _ _ _ _ _ _ _ Hwr).
    rewrite (cross_document_synthesis_keeps C P _ _ _ _ Hsyn).
    reflexivity.
Qed.

Lemma retrieval_failure_run_witness :
  exists final st',
    ResearchCoordinator.process_query
      (ResearchCoordinator.agents index_down_world plain_prompts) "q" empty_st
    = (Ok final, st') /\
    ResearchState.documents final = [] /\
    ResearchState.errors final = [] /\
    research_errors st'
    = ["Error processing query: Error retrieving documents: connection refused"].
Proof.
  assert (Hretrieve :
            HybridRetriever.retrieve index_down_world "q" 10 true empty_st
            = (Raise "Error retrieving documents: connection refused", empty_st))
    by (vm_compute; reflexivity).
  destruct (retrieval_failure_run unit index_down_world plain_prompts "q"
              empty_st empty_st "Error retrieving documents: connection refused"
              Hretrieve)
    as (st2 & synthesis & st3 & report & st' & _ & _ & _ & _ & _ & Hrun & Hlog).
  eexists _, st'. split; [exact Hrun|].
  split; [reflexivity|]. split; [reflexivity | exact Hlog].
Defined.

(** ** Claims on the critic *)

(** [min(max(score, 0), 1)]. *)
Lemma clamp_in_unit_interval (score : pyfloat) :
  score <> PNaN ->
  in_unit_interval (py_min (py_max score (PFin 0)) (PFin 1)).
Proof.
  intro Hnan. destruct score as [q| | |]; [| | |contradiction].
  - unfold py_max, py_gt. cbn [py_lt].
    destruct (Qltb q 0) eqn:E0.
    + exists 0. cbn. repeat split; [apply Qle_refl | discriminate].
    + apply Qltb_ge in E0. unfold py_min. cbn [py_lt].
      destruct (Qltb 1 q) eqn:E1.
      * exists 1. repeat split; [discriminate | apply Qle_refl].
      * apply Qltb_ge in E1. exists q. repeat split; assumption.
  - exists 1. cbn. repeat split; [discriminate | apply Qle_refl].
  - exists 0. cbn. repeat split; [apply Qle_refl | discriminate].
Qed.

Lemma clamp_nan : py_min (py_max PNaN (PFin 0)) (PFin 1) = PNaN.
Proof. reflexivity. Qed.

Lemma nan_not_in_unit_interval : ~ in_unit_interval PNaN.
Proof. intros (q & H & _). discriminate H. Qed.

(** The mean of three scores of the unit interval lies in it. *)
Lemma overall_in_unit_interval (a b c : pyfloat) :
  in_unit_interval a -> in_unit_interval b -> in_unit_interval c ->
  in_unit_interval (py_div_pos (py_add (py_add a b) c) 3).
Proof.
  intros (x & -> & Hx0 & Hx1) (y & -> & Hy0 & Hy1) (z & -> & Hz0 & Hz1).
  exists ((x + y + z) / inject_Z 3). split; [reflexivity|].
  assert (H3 : 0 < inject_Z 3) by reflexivity.
  split.
  - apply Qle_shift_div_l; [exact H3|].
    rewrite Qmult_0_l.
    apply (Qle_trans _ (0 + 0 + 0)); [discriminate|].
    repeat apply Qplus_le_compat; assumption.
  - apply Qle_shift_div_r; [exact H3|].
    apply (Qle_trans _ (1 + 1 + 1)); [|discriminate].
    repeat apply Qplus_le_compat; assumption.
Qed.

Section CriticFacts.
Context {W : Type} (C : Collaborators W) (P : Prompts).

(** Each component score is returned, never raised, and lies in the unit
    interval unless the model's text parses as NaN. *)
Lemma evaluate_quality_range (doc : Document) (summary : Summary.t) (st : St W) :
  exists score st',
    CriticAgent._evaluate_quality C P doc summary st = (Ok score, st') /\
    (in_unit_interval score \/ score = PNaN).
Proof.
  unfold CriticAgent._evaluate_quality, try_except, bind, lift, call.
  destruct (llm_generate C _ (world st)) as [[text|e] w].
  - destruct (py_float C (strip text)) as [score|e].
    + eexists _, _. split; [reflexivity|].
      destruct score as [q| | |];
        try (left; apply clamp_in_unit_interval; discriminate).
      right. reflexivity.
    + eexists _, _. split; [reflexivity|]. left.
      exists 0. repeat split; [apply Qle_refl | discriminate].
  - eexists _, _. split; [reflexivity|]. left.
    exists 0. repeat split; [apply Qle_refl | discriminate].
Qed.

Lemma evaluate_relevance_range (doc : Document) (summary : Summary.t) (st : St W) :
  exists score st',
    CriticAgent._evaluate_relevance C P doc summary st = (Ok score, st') /\
    (in_unit_interval score \/ score = PNaN).
Proof.
  unfold CriticAgent._evaluate_relevance, try_except, bind, lift, call.
  destruct (llm_generate C _ (world st)) as [[text|e] w].
  - destruct (py_float C (strip text)) as [score|e].
    + eexists _, _. split; [reflexivity|].
      destruct score as [q| | |];
        try (left; apply clamp_in_unit_interval; discriminate).
      right. reflexivity.
    + eexists _, _. split; [reflexivity|]. left.
      exists 0. repeat split; [apply Qle_refl | discriminate].
  - eexists _, _. split; [reflexivity|]. left.
    exists 0. repeat split; [apply Qle_refl | discriminate].
Qed.

Lemma evaluate_methodology_range (doc : Document) (st : St W) :
  exists score st',
    CriticAgent._evaluate_methodology C P doc st = (Ok score, st') /\
    (in_unit_interval score \/ score = PNaN).
Proof.
  unfold CriticAgent._evaluate_methodology, try_except, bind, lift, call.
  destruct (llm_generate C _ (world st)) as [[text|e] w].
  - destruct (py_float C (strip text)) as [score|e].
    + eexists _, _. split; [reflexivity|].
      destruct score as [q| | |];
        try (left; apply clamp_in_unit_interval; discriminate).
      right. reflexivity.
    + eexists _, _. split; [reflexivity|]. left.
      exists 0. repeat split; [apply Qle_refl | discriminate].
  - eexists _, _. split; [reflexivity|]. left.
    exists 0. repeat split; [apply Qle_refl | discriminate].
Qed.

Lemma generate_critique_total (doc : Document) (summary : Summary.t) :
  total (CriticAgent._generate_critique C P doc summary).
Proof. unfold CriticAgent._generate_critique. py_structure. Qed.

(** The loop body never raises, and the evaluation carries the document's
    title. *)
Lemma evaluate_pair_total (pair : Document * Summary.t) (st : St W) :
  exists ev st',
    CriticAgent.evaluate_pair C P pair st = (Ok ev, st') /\
    Evaluation.title ev = get (title (metadata (fst pair))) "".
Proof.
  destruct pair as [doc summary]. unfold CriticAgent.evaluate_pair.
  destruct (evaluate_quality_range doc summary st) as (q & st1 & Hq & _).
  destruct (evaluate_relevance_range doc summary st1) as (r & st2 & Hr & _).
  destruct (evaluate_methodology_range doc st2) as (m & st3 & Hm & _).
  destruct (generate_critique_total doc summary st3) as (c & st4 & Hc).
  eexists _, st4. split.
  - rewrite (bind_ok _ _ _ _ _ Hq), (bind_ok _ _ _ _ _ Hr),
      (bind_ok _ _ _ _ _ Hm), (bind_ok _ _ _ _ _ Hc).
    reflexivity.
  - reflexivity.
Qed.

Lemma calculate_average_scores_run (evaluations : list Evaluation.t) (st : St W) :
  exists average_scores,
    CriticAgent._calculate_average_scores evaluations st
    = (Ok average_scores, st) /\
    (average_scores = None <-> evaluations = []).
Proof.
  destruct evaluations as [|ev rest].
  - exists None. split; [reflexivity | split; reflexivity].
  - eexists. split; [reflexivity|]. split; discriminate.
Qed.

End CriticFacts.

Lemma for_each_total_rel {W A B} (f : A -> M W B) (R : A -> B -> Prop) :
  (forall x st, exists y st', f x st = (Ok y, st') /\ R x y) ->
  forall xs st,
  exists ys st', for_each f xs st = (Ok ys, st') /\ Forall2 R xs ys.
Proof.
  intros Hf xs. induction xs as [|x rest IH]; intro st.
  - exists [], st. split; [reflexivity | constructor].
  - destruct (Hf x st) as (y & st1 & Hy & HR).
    destruct (IH st1) as (ys & st2 & Hys & HRs).
    exists (y :: ys), st2. split; [|constructor; assumption].
    cbn [for_each]. rewrite (bind_ok _ _ _ _ _ Hy), (bind_ok _ _ _ _ _ Hys).
    reflexivity.
Qed.

(** C10: the critic pairs documents and summaries by position and returns,
    without raising, one evaluation per pair, so as many as the shorter list
    has entries, each with its document's title; when either list is empty
    the result is [{"evaluations": [], "average_scores": {}}], with an empty
    [average_scores] and no error logged. *)
Theorem critic_process_pairs :
  forall (W : Type) (C : Collaborators W) (P : Prompts)
         (documents : list Document) (summaries : list Summary.t) (st : St W),
  exists evaluations average_scores st',
    CriticAgent.process C P documents summaries st
    = (Ok (Evaluations.mk evaluations average_scores), st') /\
    List.length evaluations
    = Nat.min (List.length documents) (List.length summaries) /\
    Forall2 (fun pair ev =>
               Evaluation.title ev = get (title (metadata (fst pair))) "")
            (combine documents summaries) evaluations /\
    (average_scores = None <-> evaluations = []) /\
    (documents = [] \/ summaries = [] ->
     evaluations = [] /\ average_scores = None /\ st' = st).
Proof.
  intros W C P documents summaries st.
  destruct (for_each_total_rel (CriticAgent.evaluate_pair C P)
              (fun pair ev =>
                 Evaluation.title ev = get (title (metadata (fst pair))) "")
              (evaluate_pair_total C P) (combine documents summaries) st)
    as (evaluations & st1 & Hloop & Hrel).
  destruct (calculate_average_scores_run evaluations st1)
    as (average_scores & Havg & Hnone).
  assert (Hlen : List.length evaluations
                 = Nat.min (List.length documents) (List.length summaries)).
  { rewrite <- (Forall2_length Hrel). apply length_combine. }
  exists evaluations, average_scores, st1.
  split.
  { unfold CriticAgent.process, try_except.
    rewrite (bind_ok _ _ _ _ _ Hloop), (bind_ok _ _ _ _ _ Havg).
    reflexivity. }
  split; [exact Hlen|]. split; [exact Hrel|]. split; [exact Hnone|].
  intro Hempty.
  assert (Hcomb : combine documents summaries = []).
  { destruct Hempty as [-> | ->]; [reflexivity | apply combine_nil]. }
  rewrite Hcomb in Hloop. cbn in Hloop. unfold ret in Hloop.
  injection Hloop as <- <-.
  split; [reflexivity|]. split; [apply Hnone; reflexivity | reflexivity].
Qed.

(** C9, at the failing input: when the model's answer is "nan", each of the
    three scoring functions returns NaN -- [min(max(nan, 0), 1)] is NaN, not
    a number of the unit interval -- no error is logged, and the
    evaluation's overall score is NaN as well. *)
Theorem critic_scores_nan :
  let doc := scored "paper" (9 # 10) in
  let summary := Summary.mk "paper" "a summary" (VDict []) (titled "paper") in
  CriticAgent._evaluate_quality nan_world plain_prompts doc summary empty_st
  = (Ok PNaN, empty_st) /\
  CriticAgent._evaluate_relevance nan_world plain_prompts doc summary empty_st
  = (Ok PNaN, empty_st) /\
  CriticAgent._evaluate_methodology nan_world plain_prompts doc empty_st
  = (Ok PNaN, empty_st) /\
  ~ in_unit_interval PNaN /\
  exists evaluations st',
    CriticAgent.process nan_world plain_prompts [doc] [summary] empty_st
    = (Ok evaluations, st') /\
    map Evaluation.overall_score (Evaluations.evaluations evaluations) = [PNaN] /\
    critic_errors st' = ["Error generating critique: invalid syntax"].
Proof.
  cbv zeta.
  split; [vm_compute; reflexivity|].
  split; [vm_compute; reflexivity|].
  split; [vm_compute; reflexivity|].
  split; [exact nan_not_in_unit_interval|].
  eexists _, _. split; [vm_compute; reflexivity|].
  split; reflexivity.
Qed.

(** * Further properties of the code *)

(** ** The writer *)

Section WriterFacts.
Context {W : Type} (C : Collaborators W) (P : Prompts).

Lemma generate_executive_summary_total (query : string)
    (summaries : list Summary.t) (evaluations : option Evaluations.t)
    (synthesis : pyval) :
  total (WriterAgent._generate_executive_summary C P query summaries
           evaluations synthesis).
Proof. unfold WriterAgent._generate_executive_summary. py_structure. Qed.

Lemma generate_methodology_section_total (documents : list Document)
    (evaluations : option Evaluations.t) :
  total (WriterAgent._generate_methodology_section C P documents evaluations).
Proof. unfold WriterAgent._generate_methodology_section. py_structure. Qed.

Lemma generate_findings_section_total (summaries : list Summary.t)
    (synthesis : pyval) :
  total (WriterAgent._generate_findings_section C P summaries synthesis).
Proof. unfold WriterAgent._generate_findings_section. py_structure. Qed.

Lemma generate_analysis_section_total (evaluations : option Evaluations.t)
    (synthesis : pyval) :
  total (WriterAgent._generate_analysis_section C P evaluations synthesis).
Proof. unfold WriterAgent._generate_analysis_section. py_structure. Qed.

Lemma generate_recommendations_total (synthesis : pyval)
    (evaluations : option Evaluations.t) :
  total (WriterAgent._generate_recommendations C P synthesis evaluations).
Proof. unfold WriterAgent._generate_recommendations. py_structure. Qed.

Lemma save_report_total (report : Report.t) :
  total (WriterAgent._save_report C report).
Proof. unfold WriterAgent._save_report. py_structure. Qed.

Lemma now_total (format : string) :
  total (call (fun w => let (t, w') := now_strftime C format w in (Ok t, w'))).
Proof.
  intro st. unfold call. destruct (now_strftime C format (world st)) as [t w'].
  eexists _, _. reflexivity.
Qed.

Lemma writer_process_report :
  forall (query : string) (documents : list Document)
         (summaries : list Summary.t) (evaluations : option Evaluations.t)
         (synthesis : pyval) (st : St W),
  exists report st',
    WriterAgent.process C P query documents summaries evaluations synthesis st
    = (Ok (Some report), st') /\
    Report.title report = "Research Report: " ^^ query /\
    Report.query report = query /\
    Forall2 (fun doc ref =>
               Reference.title ref = get (title (metadata doc)) "" /\
               Reference.authors ref = get (authors (metadata doc)) [] /\
               Reference.year ref = get (year (metadata doc)) (VStr "") /\
               Reference.source ref = get (source (metadata doc)) "" /\
               Reference.url ref = get (url (metadata doc)) "")
            documents (Report.references report).
Proof.
  intros query documents summaries evaluations synthesis st.
  destruct (generate_executive_summary_total query summaries evaluations
              synthesis st) as (es & st1 & H1).
  destruct (generate_methodology_section_total documents evaluations st1)
    as (me & st2 & H2).
  destruct (generate_findings_section_total summaries synthesis st2)
    as (fi & st3 & H3).
  destruct (generate_analysis_section_total evaluations synthesis st3)
    as (an & st4 & H4).
  destruct (generate_recommendations_total synthesis evaluations st4)
    as (re & st5 & H5).
  destruct (now_total "%Y-%m-%d" st5) as (date & st6 & H6).
  set (references :=
         map (fun doc =>
                let m := metadata doc in
                Reference.mk (get (title m) "") (get (authors m) [])
                  (get (year m) (VStr "")) (get (source m) "")
                  (get (url m) "")) documents).
  set (report := Report.mk ("Research Report: " ^^ query) date query es me fi
                   an re references).
  destruct (save_report_total report st6) as (path & st7 & H7).
  exists report, st7. split.
  - unfold WriterAgent.process, try_except.
    rewrite (bind_ok _ _ _ _ _ H1), (bind_ok _ _ _ _ _ H2),
      (bind_ok _ _ _ _ _ H3), (bind_ok _ _ _ _ _ H4), (bind_ok _ _ _ _ _ H5),
      (bind_ok _ _ _ _ _ H6).
    unfold WriterAgent._generate_references at 1.
    unfold try_except at 1. unfold bind at 1. unfold ret at 1.
    fold references. fold report.
    rewrite (bind_ok _ _ _ _ _ H7). reflexivity.
  - split; [reflexivity|]. split; [reflexivity|].
    subst report references. cbn [Report.references].
    generalize documents as docs.
    induction docs as [|doc rest IH]; cbn [map]; constructor.
    + repeat split.
    + exact IH.
Qed.

(** The writer always hands back a report, never the empty dict of its
    [except] branch: every section generator and the save catch their own
    failures.  The report is titled after the query and lists one reference
    per document, in order, read from the document's metadata with the
    defaults for missing keys. *)
Theorem writer_process_always_reports :
  forall (query : string) (documents : list Document)
         (summaries : list Summary.t) (evaluations : option Evaluations.t)
         (synthesis : pyval) (st : St W),
  exists report st',
    WriterAgent.process C P query documents summaries evaluations synthesis st
    = (Ok (Some report), st') /\
    Report.title report = "Research Report: " ^^ query /\
    Report.query report = query /\
    Forall2 (fun doc ref =>
               Reference.title ref = get (title (metadata doc)) "" /\
               Reference.authors ref = get (authors (metadata doc)) [] /\
               Reference.year ref = get (year (metadata doc)) (VStr "") /\
               Reference.source ref = get (source (metadata doc)) "" /\
               Reference.url ref = get (url (metadata doc)) "")
            documents (Report.references report).
Proof. exact writer_process_report. Qed.

End WriterFacts.

(** ** The coordinator, whatever the agents do *)

Section CoordinatorFacts.
Context {W : Type} (A : ResearchCoordinator.Agents W).

(** A node always returns a state: that of its input with one field
    replaced, or with one more error. *)
Lemma node_returns (n : ResearchCoordinator.Node) (state : ResearchState.t)
    (st : St W) :
  exists state' st',
    ResearchCoordinator.node A n state st = (Ok state', st') /\
    ResearchState.query state' = ResearchState.query state /\
    (ResearchState.errors state' = ResearchState.errors state \/
     exists msg, ResearchState.errors state' = ResearchState.errors state ++ [msg]).
Proof.
  destruct n; cbn [ResearchCoordinator.node];
    unfold ResearchCoordinator._research_node,
      ResearchCoordinator._summarize_node, ResearchCoordinator._evaluate_node,
      ResearchCoordinator._synthesize_node, ResearchCoordinator._write_node,
      try_except, bind.
  - destruct (ResearchCoordinator.research_agent_process A _ st) as [[x|e] st'];
      eexists _, _; (split; [reflexivity|]); (split; [reflexivity|]);
      [left; reflexivity | right; eexists; reflexivity].
  - destruct (ResearchCoordinator.summarizer_agent_process A _ st) as [[x|e] st'];
      eexists _, _; (split; [reflexivity|]); (split; [reflexivity|]);
      [left; reflexivity | right; eexists; reflexivity].
  - destruct (ResearchCoordinator.critic_agent_process A _ _ st) as [[x|e] st'];
      eexists _, _; (split; [reflexivity|]); (split; [reflexivity|]);
      [left; reflexivity | right; eexists; reflexivity].
  - destruct (ResearchCoordinator.summarizer_agent_cross_document_synthesis A _ st)
      as [[x|e] st'];
      eexists _, _; (split; [reflexivity|]); (split; [reflexivity|]);
      [left; reflexivity | right; eexists; reflexivity].
  - destruct (ResearchCoordinator.writer_agent_process A _ _ _ _ _ st)
      as [[x|e] st'];
      eexists _, _; (split; [reflexivity|]); (split; [reflexivity|]);
      [left; reflexivity | right; eexists; reflexivity].
Qed.

Lemma ainvoke_returns (steps : nat) :
  forall (n : ResearchCoordinator.Node) (state : ResearchState.t) (st : St W),
  exists final st' added,
    ResearchCoordinator.ainvoke A steps n state st = (Ok final, st') /\
    ResearchState.query final = ResearchState.query state /\
    ResearchState.errors final = ResearchState.errors state ++ added /\
    (List.length added <= steps)%nat.
Proof.
  induction steps as [|steps IH]; intros n state st.
  - exists state, st, []. rewrite app_nil_r. repeat split; auto.
  - destruct (node_returns n state st) as (state1 & st1 & Hnode & Hq & Herr).
    cbn [ResearchCoordinator.ainvoke]. rewrite (bind_ok _ _ _ _ _ Hnode).
    assert (Hadd : exists added1, ResearchState.errors state1
                                  = ResearchState.errors state ++ added1 /\
                                  (List.length added1 <= 1)%nat).
    { destruct Herr as [Herr | [msg Herr]].
      - exists []. rewrite app_nil_r. split; [exact Herr | cbn; lia].
      - exists [msg]. split; [exact Herr | cbn; lia]. }
    destruct Hadd as (added1 & Hadd1 & Hlen1).
    destruct (ResearchCoordinator.edge n) as [next|].
    + destruct (IH next state1 st1) as (final & st' & added & Hrun & Hq' & He & Hlen).
      exists final, st', (added1 ++ added). split; [exact Hrun|].
      split; [congruence|]. split.
      * rewrite He, Hadd1, app_assoc. reflexivity.
      * rewrite length_app. lia.
    + exists state1, st1, added1. repeat split; auto. lia.
Qed.

(** Whatever the agents do -- return, or raise at any stage -- a run never
    raises: it returns a final state for the query it was given, whose
    [errors] holds at most five messages. *)
Theorem process_query_always_returns :
  forall (query : string) (st : St W),
  exists final st',
    ResearchCoordinator.process_query A query st = (Ok final, st') /\
    ResearchState.query final = query /\
    (List.length (ResearchState.errors final) <= 5)%nat.
Proof.
  intros query st. unfold ResearchCoordinator.process_query.
  destruct (ainvoke_returns 5 ResearchCoordinator.entry_point
              (ResearchCoordinator.initial_state query) st)
    as (final & st' & added & Hrun & Hq & He & Hlen).
  exists final, st'. split; [exact Hrun|]. split; [exact Hq|].
  rewrite He. cbn. exact Hlen.
Qed.

End CoordinatorFacts.

(** With the repository's own agents no run ever records an error in the
    state: each agent catches its failures and logs them in its own list.
    The final state has evaluations and a report for the query, with one
    reference per document. *)
Theorem process_query_own_agents_no_errors :
  forall (W : Type) (C : Collaborators W) (P : Prompts) (query : string)
         (st : St W),
  exists documents summaries evaluations synthesis report st',
    ResearchCoordinator.process_query (ResearchCoordinator.agents C P) query st
    = (Ok (ResearchState.mk query documents summaries (Some evaluations)
             synthesis (Some report) []), st') /\
    Report.query report = query /\
    List.length (Report.references report) = List.length documents.
Proof.
  intros W C P query st.
  destruct (research_process_total C query st) as (documents & st1 & H1).
  destruct (summarizer_process_total C P documents st1) as (summaries & st2 & H2).
  destruct (critic_process_total C P documents summaries st2)
    as (evaluations & st3 & H3).
  destruct (cross_document_synthesis_total C P summaries st3)
    as (synthesis & st4 & H4).
  destruct (writer_process_report C P query documents summaries
              (Some evaluations) synthesis st4)
    as (report & st5 & H5 & _ & Hq & Hrefs).
  exists documents, summaries, evaluations, synthesis, report, st5.
  split; [|split; [exact Hq | symmetry; exact (Forall2_length Hrefs)]].
  unfold ResearchCoordinator.process_query, ResearchCoordinator.entry_point.
  cbn [ResearchCoordinator.ainvoke ResearchCoordinator.node
       ResearchCoordinator.edge].
  erewrite bind_ok by (apply research_node_ok; exact H1).
  erewrite bind_ok by (apply summarize_node_ok; exact H2).
  erewrite bind_ok by (apply evaluate_node_ok; exact H3).
  erewrite bind_ok by (apply synthesize_node_ok; exact H4).
  erewrite bind_ok by (apply write_node_ok; exact H5).
  reflexivity.
Qed.

(** ** The research agent *)

Lemma for_each_pure {W A B} (f : A -> M W B) (g : A -> B) :
  (forall x st, f x st = (Ok (g x), st)) ->
  forall xs st, for_each f xs st = (Ok (map g xs), st).
Proof.
  intros Hf xs st. induction xs as [|x rest IH]; [reflexivity|].
  cbn [for_each map]. rewrite (bind_ok _ _ _ _ _ (Hf x st)).
  rewrite (bind_ok _ _ _ _ _ IH). reflexivity.
Qed.

Section ResearchFacts.
Context {W : Type} (C : Collaborators W).

Lemma enrich_step (doc : Document) (st : St W) :
  (extracted <- ResearchAgent.extract_metadata doc ;;
   ret (mkDocument (page_content doc)
          (metadata_update (metadata doc) extracted))) st
  = (Ok (enriched doc), st).
Proof.
  unfold ResearchAgent.extract_metadata, try_except, bind, ret, enriched.
  destruct doc as [content [t a y s u sn r]]. cbn.
  destruct t, a, y, s, u, sn, r; reflexivity.
Qed.

Lemma process_retrieve_ok (query : string) (st st1 : St W)
    (retrieved : list Document) :
  HybridRetriever.retrieve C query 10 true st = (Ok retrieved, st1) ->
  ResearchAgent.process C query st
  = (Ok (map enriched (filter ResearchAgent.relevant retrieved)), st1).
Proof.
  intro H. unfold ResearchAgent.process, try_except.
  rewrite (bind_ok _ _ _ _ _ H).
  rewrite (bind_ok _ _ _ _ _ (filter_by_relevance_run retrieved st1)).
  rewrite (for_each_pure _ enriched enrich_step). reflexivity.
Qed.

(** A retrieved document comes from the index or from the web. *)
Lemma retrieved_origin (query : string) (limit : nat) (include_web : bool)
    (st st' : St W) (docs : list Document) :
  HybridRetriever.retrieve C query limit include_web st = (Ok docs, st') ->
  (List.length docs <= limit)%nat /\
  Forall (fun doc =>
            (source (metadata doc) = Some "database" /\
             exists q, relevance_score (metadata doc) = Some q) \/
            web_sourced doc) docs.
Proof.
  intro H. apply retrieve_ok_inv in H.
  destruct H as (v & st1 & hits & st2 & web & _ & _ & Hweb & ->).
  split; [apply firstn_le_length|].
  apply web_part_web_sourced in Hweb. destruct Hweb as [Hweb _].
  apply Forall_forall. intros doc Hin.
  assert (Hin' : In doc (map HybridRetriever.hit_document hits ++ web)).
  { eapply Permutation_in; [apply Permutation_sym, sort_desc_perm|].
    rewrite <- (firstn_skipn limit). apply in_or_app. left. exact Hin. }
  apply in_app_or in Hin'. destruct Hin' as [Hdb | Hw].
  - left. apply in_map_iff in Hdb. destruct Hdb as (h & <- & _).
    split; [reflexivity | eexists; reflexivity].
  - right. rewrite Forall_forall in Hweb. apply Hweb. exact Hw.
Qed.

Lemma process_documents (query : string) (st : St W) :
  exists documents st',
    ResearchAgent.process C query st = (Ok documents, st') /\
    (List.length documents <= 10)%nat /\
    Forall (fun doc =>
              source (metadata doc) = Some "database" /\
              (exists q, relevance_score (metadata doc) = Some q /\ 1 # 2 < q) /\
              title (metadata doc) <> None /\
              authors (metadata doc) <> None /\
              year (metadata doc) <> None /\
              url (metadata doc) <> None) documents.
Proof.
  destruct (HybridRetriever.retrieve C query 10 true st)
    as [[retrieved|e] st1] eqn:Hr.
  - eexists _, _. split; [apply process_retrieve_ok; exact Hr|].
    apply retrieved_origin in Hr. destruct Hr as [Hlen Horigin].
    split.
    + rewrite length_map.
      eapply Nat.le_trans; [apply filter_length_le | exact Hlen].
    + apply Forall_forall. intros doc Hin.
      apply in_map_iff in Hin. destruct Hin as (r & <- & Hin).
      apply filter_In in Hin. destruct Hin as [Hin Hrel].
      rewrite Forall_forall in Horigin. specialize (Horigin r Hin).
      apply relevant_iff in Hrel. unfold score_of in Hrel.
      destruct Horigin as [[Hsrc [q Hq]] | [_ Hnone]].
      * unfold enriched. cbn. rewrite Hsrc, Hq in *. cbn in *.
        split; [reflexivity|]. split; [exists q; split; [reflexivity | exact Hrel]|].
        repeat split; discriminate.
      * rewrite Hnone in Hrel. discriminate Hrel.
  - eexists _, _. split; [apply process_retrieve_raises; exact Hr|].
    split; [cbn; lia | constructor].
Qed.

End ResearchFacts.

(** The research stage never raises, returns at most ten documents, and
    every one of them comes from the database with a relevance score above
    0.5 -- a web document has no score and cannot pass the filter -- and
    carries a title, authors, a year and a url, defaults where the index
    gave none. *)
Theorem research_process_documents :
  forall (W : Type) (C : Collaborators W) (query : string) (st : St W),
  exists documents st',
    ResearchAgent.process C query st = (Ok documents, st') /\
    (List.length documents <= 10)%nat /\
    Forall (fun doc =>
              source (metadata doc) = Some "database" /\
              (exists q, relevance_score (metadata doc) = Some q /\ 1 # 2 < q) /\
              title (metadata doc) <> None /\
              authors (metadata doc) <> None /\
              year (metadata doc) <> None /\
              url (metadata doc) <> None) documents.
Proof. intros W C. exact (process_documents C). Qed.

(** What the research stage returns is, in order, the relevant ones of the
    retrieved documents, each with its content and every metadata entry it
    had; nothing is overwritten, only missing keys are filled. *)
Theorem research_process_preserves :
  forall (W : Type) (C : Collaborators W) (query : string) (st st1 : St W)
         (retrieved : list Document),
    HybridRetriever.retrieve C query 10 true st = (Ok retrieved, st1) ->
    exists documents,
      ResearchAgent.process C query st = (Ok documents, st1) /\
      Forall2 (fun r doc =>
                 page_content doc = page_content r /\
                 (forall v, title (metadata r) = Some v ->
                            title (metadata doc) = Some v) /\
                 (forall v, authors (metadata r) = Some v ->
                            authors (metadata doc) = Some v) /\
                 (forall v, year (metadata r) = Some v ->
                            year (metadata doc) = Some v) /\
                 (forall v, source (metadata r) = Some v ->
                            source (metadata doc) = Some v) /\
                 (forall v, url (metadata r) = Some v ->
                            url (metadata doc) = Some v) /\
                 snippet (metadata doc) = snippet (metadata r) /\
                 (forall v, relevance_score (metadata r) = Some v ->
                            relevance_score (metadata doc) = Some v))
              (filter ResearchAgent.relevant retrieved) documents.
Proof.
  intros W C query st st1 retrieved H.
  exists (map enriched (filter ResearchAgent.relevant retrieved)).
  split; [apply process_retrieve_ok; exact H|].
  generalize (filter ResearchAgent.relevant retrieved) as kept.
  induction kept as [|r rest IH]; cbn [map]; constructor; [|exact IH].
  unfold enriched. cbn.
  repeat split; try (intros v Hv; rewrite Hv; reflexivity).
Qed.

Lemma research_process_preserves_witness :
  exists documents,
    ResearchAgent.process sample_world "q" empty_st = (Ok documents, empty_st) /\
    List.length documents = 2%nat.
Proof.
  assert (Hretrieve :
            HybridRetriever.retrieve sample_world "q" 10 true empty_st
            = (Ok [HybridRetriever.hit_document (mkHit "b" (titled "B") (9 # 10));
                   HybridRetriever.hit_document (mkHit "c" (titled "C") (9 # 10));
                   HybridRetriever.hit_document (mkHit "a" (titled "A") (4 # 10));
                   WebSearch.web_document "page text"
                     (mkWebResult "Page" "snippet" "example.org")],
               empty_st))
    by (vm_compute; reflexivity).
  destruct (research_process_preserves unit sample_world "q" empty_st empty_st
              _ Hretrieve) as (documents & Hrun & Hrel).
  exists documents. split; [exact Hrun|].
  rewrite <- (Forall2_length Hrel). vm_compute. reflexivity.
Defined.

(** ** Web search, further *)

Lemma prefix_append (s t : string) : String.prefix s (s ^^ t) = true.
Proof.
  induction s as [|a s IH]; [destruct t; reflexivity|].
  cbn. destruct (ascii_dec a a); [exact IH | contradiction].
Qed.

Lemma complete_result_length (e : ResultElem) :
  (List.length (WebSearch.complete_result e) <= 1)%nat.
Proof.
  unfold WebSearch.complete_result.
  destruct (title_elem e), (snippet_elem e), (link_elem e); cbn; lia.
Qed.

Lemma flat_map_complete_length (elems : list ResultElem) :
  (List.length (flat_map WebSearch.complete_result elems)
   <= List.length elems)%nat.
Proof.
  induction elems as [|e rest IH]; cbn [flat_map]; [cbn; lia|].
  rewrite length_app. pose proof (complete_result_length e). cbn. lia.
Qed.

Section WebSearchMore.
Context {W : Type} (C : Collaborators W).

Lemma search_returns (query : string) (max_results : nat) (st st' : St W)
    (results : list WebResult) :
  WebSearch.search C query max_results st = (Ok results, st') ->
  exists elems,
    call (fetch_results C ("https://html.duckduckgo.com/html/?q=" ^^ query)) st
    = (Ok elems, st') /\
    results = flat_map WebSearch.complete_result (firstn max_results elems).
Proof.
  unfold WebSearch.search, try_except, bind. intro H.
  destruct (call (fetch_results C _) st) as [[elems|e] st1]; [|discriminate].
  unfold ret in H. injection H as <- <-. exists elems. split; reflexivity.
Qed.


End WebSearchMore.


(** A search returns at most [max_results] results.  They are read, in page
    order, from the first [max_results] elements of the page only: an
    element without a title, a snippet or a link is skipped, and no later
    element takes its place. *)
Theorem search_results_bounded :
  forall (W : Type) (C : Collaborators W) (query : string) (max_results : nat)
         (st st' : St W) (results : list WebResult),
    WebSearch.search C query max_results st = (Ok results, st') ->
    exists elems,
      call (fetch_results C ("https://html.duckduckgo.com/html/?q=" ^^ query)) st
      = (Ok elems, st') /\
      (List.length results <= max_results)%nat /\
      (List.length results <= List.length elems)%nat /\
      results = flat_map WebSearch.complete_result (firstn max_results elems) /\
      Forall (fun r =>
                In (mkResultElem (Some (result_title r))
                                 (Some (result_snippet r))
                                 (Some (result_link r)))
                   (firstn max_results elems)) results.
Proof.
  intros W C query max_results st st' results H.
  apply search_returns in H. destruct H as (elems & Hfetch & ->).
  exists elems. split; [exact Hfetch|].
  pose proof (flat_map_complete_length (firstn max_results elems)) as Hlen.
  pose proof (firstn_le_length max_results elems) as Hle1.
  rewrite length_firstn in *.
  split; [lia|]. split; [lia|]. split; [reflexivity|].
  apply Forall_forall. intros r Hin. apply in_flat_map in Hin.
  destruct Hin as (e & He & Hr). unfold WebSearch.complete_result in Hr.
  destruct e as [[t|] [s|] [l|]]; cbn in Hr; try contradiction.
  destruct Hr as [<- | []]. exact He.
Qed.

Lemma search_results_bounded_witness :
  WebSearch.search gap_world "q" 2 empty_st
  = (Ok [mkWebResult "A" "a" "a.org"], empty_st) /\
  (List.length [mkWebResult "A" "a" "a.org"] <= 2)%nat.
Proof.
  assert (H : WebSearch.search gap_world "q" 2 empty_st
              = (Ok [mkWebResult "A" "a" "a.org"], empty_st))
    by (vm_compute; reflexivity).
  split; [exact H|].
  destruct (search_results_bounded unit gap_world "q" 2%nat empty_st empty_st
              _ H) as (elems & _ & Hlen & _).
  exact Hlen.
Defined.



(** A link without a scheme is fetched over https: [extract_content] does
    with it exactly what it does with the same link after "https://"; a
    link that has a scheme is fetched as it is. *)
Theorem extract_content_default_scheme :
  forall (W : Type) (C : Collaborators W) (url : string) (st : St W),
    (String.prefix "http://" url = false ->
     String.prefix "https://" url = false ->
     WebSearch.extract_content C url st
     = WebSearch.extract_content C ("https://" ^^ url) st) /\
    (String.prefix "http://" url = true \/ String.prefix "https://" url = true ->
     WebSearch.extract_content C url st
     = try_except (call (fetch_page C url))
         (fun e => raise ("Error extracting content: " ^^ e)) st).
Proof.
  intros W C url st. split.
  - intros H1 H2. unfold WebSearch.extract_content.
    rewrite H1, H2, (prefix_append "https://" url), orb_true_r. reflexivity.
  - intros H. unfold WebSearch.extract_content.
    destruct H as [-> | ->]; [|rewrite orb_true_r]; reflexivity.
Qed.

(** ** The hybrid retriever, further *)

Lemma insert_desc_head (x : Document) (l : list Document) :
  Forall (desc x) l -> HybridRetriever.insert_desc x l = x :: l.
Proof.
  intro H. destruct l as [|y ys]; [reflexivity|].
  cbn [HybridRetriever.insert_desc].
  inversion H as [|? ? Hxy _]; subst.
  apply Qltb_ge in Hxy. rewrite Hxy. reflexivity.
Qed.

(** The sort leaves a list alone that is sorted already. *)
Lemma sort_desc_sorted_id (l : list Document) :
  StronglySorted desc l -> HybridRetriever.sort_desc l = l.
Proof.
  induction 1 as [|x l Hs IH Hall]; [reflexivity|].
  cbn [HybridRetriever.sort_desc fold_right].
  unfold HybridRetriever.sort_desc in IH. rewrite IH.
  apply insert_desc_head. exact Hall.
Qed.

Lemma strongly_sorted_app {A} (R : A -> A -> Prop) (l1 l2 : list A) :
  StronglySorted R l1 -> StronglySorted R l2 ->
  (forall a b, In a l1 -> In b l2 -> R a b) ->
  StronglySorted R (l1 ++ l2).
Proof.
  intros H1 H2 H12. induction H1 as [|x l Hs IH Hall]; [exact H2|].
  cbn [app]. constructor.
  - apply IH. intros a b Ha Hb. apply H12; [right; exact Ha | exact Hb].
  - apply Forall_app. split; [exact Hall|].
    apply Forall_forall. intros b Hb. apply H12; [left; reflexivity | exact Hb].
Qed.

Lemma web_sourced_sorted (web : list Document) :
  Forall web_sourced web -> StronglySorted desc web.
Proof.
  induction 1 as [|x l [_ Hx] Hall IH]; constructor; [exact IH|].
  eapply Forall_impl; [|exact Hall].
  intros y [_ Hy]. unfold desc, score_of. rewrite Hx, Hy. apply Qle_refl.
Qed.

Lemma hit_documents_sorted (hits : list Hit) :
  StronglySorted (fun a b => score b <= score a) hits ->
  StronglySorted desc (map HybridRetriever.hit_document hits).
Proof.
  induction 1 as [|h l Hs IH Hall]; cbn [map]; constructor; [exact IH|].
  apply Forall_forall. intros d Hd. apply in_map_iff in Hd.
  destruct Hd as (h' & <- & Hin). rewrite Forall_forall in Hall.
  exact (Hall h' Hin).
Qed.

(** When the index hands its hits over in non-increasing score order, none
    of them negative, [retrieve] leaves the order alone: it returns the first
    [limit] of the hit documents followed by the web documents, every
    database document before every web document. *)
Theorem retrieve_sorted_hits_in_order :
  forall (W : Type) (C : Collaborators W) (query : string) (limit : nat)
         (include_web : bool) (st st1 st2 st3 : St W) (v : list Q)
         (hits : list Hit) (web : list Document),
    EmbeddingsManager.get_embedding C query st = (Ok v, st1) ->
    call (qdrant_search C v limit) st1 = (Ok hits, st2) ->
    web_part C query limit include_web st2 = (Ok web, st3) ->
    StronglySorted (fun a b => score b <= score a) hits ->
    Forall (fun h => 0 <= score h) hits ->
    HybridRetriever.retrieve C query limit include_web st
    = (Ok (firstn limit (map HybridRetriever.hit_document hits ++ web)), st3).
Proof.
  intros W C query limit include_web st st1 st2 st3 v hits web H1 H2 H3 Hs Hpos.
  rewrite (retrieve_ok C _ _ _ _ _ _ _ _ _ _ H1 H2 H3).
  rewrite sort_desc_sorted_id; [reflexivity|].
  apply web_part_web_sourced in H3. destruct H3 as [Hweb _].
  apply strongly_sorted_app.
  - apply hit_documents_sorted. exact Hs.
  - apply web_sourced_sorted. exact Hweb.
  - intros a b Ha Hb. apply in_map_iff in Ha. destruct Ha as (h & <- & Hh).
    rewrite Forall_forall in Hweb, Hpos.
    destruct (Hweb b Hb) as [_ Hb0]. unfold desc, score_of. rewrite Hb0.
    cbn. apply Hpos. exact Hh.
Qed.

Lemma retrieve_sorted_hits_in_order_witness :
  HybridRetriever.retrieve transformers_world "transformers" 10 true empty_st
  = (Ok (firstn 10
           (map HybridRetriever.hit_document
              [mkHit "first" (titled "Transformers") (8 # 10);
               mkHit "second" (titled "transformers ") (55 # 100)] ++ [])),
     empty_st).
Proof.
  apply (retrieve_sorted_hits_in_order unit transformers_world "transformers"
           10%nat true empty_st empty_st empty_st empty_st [1 # 2]).
  - reflexivity.
  - reflexivity.
  - reflexivity.
  - repeat constructor. discriminate.
  - repeat constructor; discriminate.
Defined.

(** *** Hits without text or metadata *)

Lemma documents_of_raw (hits : list Hit) :
  HybridRetrieverRaw.documents_of (map raw_of hits)
  = Ok (map HybridRetriever.hit_document hits).
Proof.
  induction hits as [|h rest IH]; [reflexivity|].
  cbn [map HybridRetrieverRaw.documents_of]. rewrite IH. reflexivity.
Qed.

Lemma bind_raise {W A B} (c : M W A) (k : A -> M W B) (st st' : St W)
    (e : string) :
  c st = (Raise e, st') -> bind c k st = (Raise e, st').
Proof. intro H. unfold bind. rewrite H. reflexivity. Qed.

Lemma call_client_of {W} (C : Collaborators W) (v : list Q) (limit : nat)
    (st : St W) :
  call (client_of C v limit) st
  = match call (qdrant_search C v limit) st with
    | (Ok hits, st') => (Ok (map raw_of hits), st')
    | (Raise e, st') => (Raise e, st')
    end.
Proof.
  unfold call, client_of.
  destruct (qdrant_search C v limit (world st)) as [[hits|e] w]; reflexivity.
Qed.

(** On an index whose hits all have their text and their metadata, the
    retrieve over raw hits is the retrieve over hits. *)
Lemma retrieve_well_formed {W} (C : Collaborators W) (query : string)
    (limit : nat) (include_web : bool) (st : St W) :
  HybridRetrieverRaw.retrieve C (client_of C) query limit include_web st
  = HybridRetriever.retrieve C query limit include_web st.
Proof.
  unfold HybridRetrieverRaw.retrieve, HybridRetriever.retrieve, try_except.
  destruct (EmbeddingsManager.get_embedding C query st) as [[v|e] st1] eqn:E1.
  2:{ rewrite !(bind_raise _ _ _ _ _ E1). reflexivity. }
  rewrite !(bind_ok _ _ _ _ _ E1).
  pose proof (call_client_of C v limit st1) as Hc.
  destruct (call (qdrant_search C v limit) st1) as [[hits|e] st2] eqn:E2.
  2:{ rewrite (bind_raise _ _ _ _ _ Hc), (bind_raise _ _ _ _ _ E2).
      reflexivity. }
  rewrite (bind_ok _ _ _ _ _ Hc), (bind_ok _ _ _ _ _ E2).
  unfold bind at 1. unfold lift. rewrite documents_of_raw. reflexivity.
Qed.




(** ** The critic, further *)

Lemma unit_zero : in_unit_interval (PFin 0).
Proof. exists 0. repeat split; [apply Qle_refl | discriminate]. Qed.

Lemma positive_length_Z (n : nat) :
  n <> 0%nat -> Zpos (Pos.of_nat n) = Z.of_nat n.
Proof.
  intro Hn. rewrite <- positive_nat_Z, Nat2Pos.id by exact Hn. reflexivity.
Qed.

(** A sum of scores of the unit interval lies between 0 and their number. *)
Lemma fold_add_unit (xs : list pyfloat) :
  Forall in_unit_interval xs ->
  forall a, exists s,
    fold_left py_add xs (PFin a) = PFin s /\
    a <= s /\ s <= a + inject_Z (Z.of_nat (List.length xs)).
Proof.
  induction 1 as [|x rest (q & -> & Hq0 & Hq1) _ IH]; intro a.
  - exists a. cbn [fold_left List.length]. split; [reflexivity|].
    change (inject_Z (Z.of_nat 0)) with 0. split; lra.
  - destruct (IH (a + q)) as (s & Hs & Hlo & Hhi).
    exists s. cbn [fold_left py_add]. split; [exact Hs|].
    cbn [List.length]. rewrite Nat2Z.inj_succ, <- Z.add_1_r, inject_Z_plus.
    change (inject_Z 1) with 1. split; lra.
Qed.

Lemma average_in_unit_interval (xs : list pyfloat) :
  xs <> [] -> Forall in_unit_interval xs ->
  in_unit_interval (py_div_pos (py_sum xs) (Pos.of_nat (List.length xs))).
Proof.
  intros Hne Hall. unfold py_sum.
  destruct (fold_add_unit xs Hall 0) as (s & -> & Hlo & Hhi).
  cbn [py_div_pos].
  assert (Hlen : List.length xs <> 0%nat) by (destruct xs; [contradiction | discriminate]).
  rewrite (positive_length_Z _ Hlen).
  assert (Hpos : 0 < inject_Z (Z.of_nat (List.length xs))).
  { change 0 with (inject_Z 0). rewrite <- Zlt_Qlt. lia. }
  eexists. split; [reflexivity|]. split.
  - apply Qle_shift_div_l; [exact Hpos | lra].
  - apply Qle_shift_div_r; [exact Hpos | lra].
Qed.

Lemma calculate_average_scores_bounded {W} (evaluations : list Evaluation.t)
    (st : St W) :
  evaluations <> [] -> Forall bounded_evaluation evaluations ->
  exists averages,
    CriticAgent._calculate_average_scores evaluations st
    = (Ok (Some averages), st) /\
    bounded_averages averages.
Proof.
  intros Hne Hall.
  assert (Hmap : forall f : Evaluation.t -> pyfloat,
             (forall ev, bounded_evaluation ev -> in_unit_interval (f ev)) ->
             in_unit_interval
               (py_div_pos (py_sum (map f evaluations))
                  (Pos.of_nat (List.length evaluations)))).
  { intros f Hf. rewrite <- (length_map f).
    apply average_in_unit_interval.
    - destruct evaluations; [contradiction | discriminate].
    - apply Forall_map. eapply Forall_impl; [|exact Hall]. exact Hf. }
  destruct evaluations as [|ev rest]; [contradiction|].
  eexists. split; [reflexivity|].
  repeat split; apply Hmap; intros ev' H; apply H.
Qed.

(** Over evaluations whose scores all lie in [0, 1], the four averages are
    computed, recorded without error, and lie in [0, 1] as well. *)
Theorem average_scores_bounded :
  forall (W : Type) (evaluations : list Evaluation.t) (st : St W),
    evaluations <> [] ->
    Forall bounded_evaluation evaluations ->
    exists averages,
      CriticAgent._calculate_average_scores evaluations st
      = (Ok (Some averages), st) /\
      bounded_averages averages.
Proof. intros W. exact calculate_average_scores_bounded. Qed.

Lemma average_scores_bounded_witness :
  exists averages,
    CriticAgent._calculate_average_scores
      [Evaluation.mk "a" (PFin 1) (PFin (1 # 2)) (PFin 0) (PFin (1 # 2)) VNone;
       Evaluation.mk "b" (PFin 0) (PFin (1 # 2)) (PFin 1) (PFin (1 # 2)) VNone]
      empty_st
    = (Ok (Some averages), empty_st) /\
    bounded_averages averages.
Proof.
  apply (average_scores_bounded unit).
  - discriminate.
  - repeat constructor;
      (eexists; split; [reflexivity | split; discriminate]).
Defined.

Section CriticMore.
Context {W : Type} (C : Collaborators W) (P : Prompts).

Lemma scoring_bounded (prompt label : string) (st : St W) :
  answers_never_nan C ->
  exists score st',
    scoring C prompt label st = (Ok score, st') /\ in_unit_interval score.
Proof.
  intro Hnan. unfold scoring, try_except, bind, lift, call.
  destruct (llm_generate C prompt (world st)) as [[text|e] w] eqn:Hllm.
  - destruct (py_float C (strip text)) as [score|e] eqn:E.
    + eexists _, _. split; [reflexivity|].
      apply clamp_in_unit_interval. intros ->. exact (Hnan _ _ _ _ Hllm E).
    + eexists _, _. split; [reflexivity | exact unit_zero].
  - eexists _, _. split; [reflexivity | exact unit_zero].
Qed.

Lemma scoring_model_down (prompt label : string) (st : St W) :
  model_down C ->
  exists e w,
    scoring C prompt label st
    = (Ok (PFin 0),
       mkSt w (research_errors st) (summarizer_errors st)
            (critic_errors st ++ [label ^^ e]) (writer_errors st)).
Proof.
  intro Hdown. destruct (Hdown prompt (world st)) as (e & w & H).
  exists e, w. unfold scoring, try_except, bind, call. rewrite H. reflexivity.
Qed.

Lemma generate_critique_model_down (doc : Document) (summary : Summary.t)
    (st : St W) :
  model_down C ->
  exists e w,
    CriticAgent._generate_critique C P doc summary st
    = (Ok CriticAgent.default_critique,
       mkSt w (research_errors st) (summarizer_errors st)
            (critic_errors st ++ ["Error generating critique: " ^^ e])
            (writer_errors st)).
Proof.
  intro Hdown.
  destruct (Hdown (critique_prompt P doc summary) (world st)) as (e & w & H).
  exists e, w. unfold CriticAgent._generate_critique, try_except, bind, call.
  rewrite H. reflexivity.
Qed.

Lemma evaluate_pair_bounded (pair : Document * Summary.t) (st : St W) :
  answers_never_nan C ->
  exists ev st',
    CriticAgent.evaluate_pair C P pair st = (Ok ev, st') /\
    bounded_evaluation ev.
Proof.
  intro Hnan. destruct pair as [doc summary]. unfold CriticAgent.evaluate_pair.
  destruct (scoring_bounded (quality_prompt P doc summary)
              "Error evaluating quality: " st Hnan) as (q & st1 & Hq & Bq).
  destruct (scoring_bounded (relevance_prompt P doc summary)
              "Error evaluating relevance: " st1 Hnan) as (r & st2 & Hr & Br).
  destruct (scoring_bounded (methodology_prompt P doc)
              "Error evaluating methodology: " st2 Hnan) as (m & st3 & Hm & Bm).
  destruct (generate_critique_total C P doc summary st3) as (c & st4 & Hc).
  eexists _, st4. split.
  - change (CriticAgent._evaluate_quality C P doc summary)
      with (scoring C (quality_prompt P doc summary) "Error evaluating quality: ").
    change (CriticAgent._evaluate_relevance C P doc summary)
      with (scoring C (relevance_prompt P doc summary)
              "Error evaluating relevance: ").
    change (CriticAgent._evaluate_methodology C P doc)
      with (scoring C (methodology_prompt P doc) "Error evaluating methodology: ").
    rewrite (bind_ok _ _ _ _ _ Hq), (bind_ok _ _ _ _ _ Hr),
      (bind_ok _ _ _ _ _ Hm), (bind_ok _ _ _ _ _ Hc).
    reflexivity.
  - repeat split; try assumption.
    apply overall_in_unit_interval; assumption.
Qed.

Lemma critic_process_bounded_run (documents : list Document)
    (summaries : list Summary.t) (st : St W) :
  answers_never_nan C ->
  exists evaluations averages st',
    CriticAgent.process C P documents summaries st
    = (Ok (Evaluations.mk evaluations averages), st') /\
    Forall bounded_evaluation evaluations /\
    (forall a, averages = Some a -> bounded_averages a).
Proof.
  intro Hnan.
  destruct (for_each_total_rel (CriticAgent.evaluate_pair C P)
              (fun _ ev => bounded_evaluation ev)
              (fun pair st0 => evaluate_pair_bounded pair st0 Hnan)
              (combine documents summaries) st)
    as (evaluations & st1 & Hloop & Hrel).
  assert (Hall : Forall bounded_evaluation evaluations).
  { clear Hloop. induction Hrel; constructor; assumption. }
  destruct evaluations as [|ev rest].
  - exists [], None, st1. split.
    + unfold CriticAgent.process, try_except.
      rewrite (bind_ok _ _ _ _ _ Hloop). reflexivity.
    + split; [constructor | discriminate].
  - destruct (calculate_average_scores_bounded (ev :: rest) st1
                ltac:(discriminate) Hall) as (averages & Havg & Bavg).
    exists (ev :: rest), (Some averages), st1. split.
    + unfold CriticAgent.process, try_except.
      rewrite (bind_ok _ _ _ _ _ Hloop), (bind_ok _ _ _ _ _ Havg). reflexivity.
    + split; [exact Hall|]. intros a Ha. injection Ha as <-. exact Bavg.
Qed.

End CriticMore.

(** Provided no answer of the model is a text that [float] reads as NaN,
    every score the critic returns -- the three components, the overall
    mean and the four averages -- lies in [0, 1], whatever else the model
    answers and whichever calls fail. *)
Theorem critic_process_bounded :
  forall (W : Type) (C : Collaborators W) (P : Prompts)
         (documents : list Document) (summaries : list Summary.t) (st : St W),
    answers_never_nan C ->
    exists evaluations averages st',
      CriticAgent.process C P documents summaries st
      = (Ok (Evaluations.mk evaluations averages), st') /\
      Forall bounded_evaluation evaluations /\
      (forall a, averages = Some a -> bounded_averages a).
Proof. intros W C P. exact (critic_process_bounded_run C P). Qed.

Lemma critic_process_bounded_witness :
  exists evaluations averages st',
    CriticAgent.process generous_world plain_prompts [scored "paper" (9 # 10)]
      [Summary.mk "paper" "a summary" (VDict []) (titled "paper")] empty_st
    = (Ok (Evaluations.mk evaluations averages), st') /\
    Forall bounded_evaluation evaluations.
Proof.
  destruct (critic_process_bounded unit generous_world plain_prompts
              [scored "paper" (9 # 10)]
              [Summary.mk "paper" "a summary" (VDict []) (titled "paper")]
              empty_st)
    as (evaluations & averages & st' & Hrun & Hall & _).
  - intros prompt w text w' Hllm. cbn in Hllm. injection Hllm as <- _.
    vm_compute. discriminate.
  - exists evaluations, averages, st'. split; assumption.
Defined.

Lemma Forall2_right {A B} (Q : B -> Prop) (xs : list A) (ys : list B) :
  Forall2 (fun _ y => Q y) xs ys -> Forall Q ys.
Proof. induction 1; constructor; assumption. Qed.

Lemma for_each_counted {W A B} (f : A -> M W B) (R : A -> B -> Prop)
    (m : St W -> nat) (k : nat) :
  (forall x st, exists y st', f x st = (Ok y, st') /\ R x y /\
                              m st' = (m st + k)%nat) ->
  forall xs st,
  exists ys st',
    for_each f xs st = (Ok ys, st') /\ Forall2 R xs ys /\
    m st' = (m st + k * List.length xs)%nat.
Proof.
  intros Hf xs. induction xs as [|x rest IH]; intro st.
  - exists [], st. split; [reflexivity|]. split; [constructor | cbn; lia].
  - destruct (Hf x st) as (y & st1 & Hy & HR & Hm).
    destruct (IH st1) as (ys & st2 & Hys & HRs & Hms).
    exists (y :: ys), st2. split; [|split; [constructor; assumption | cbn; lia]].
    cbn [for_each]. rewrite (bind_ok _ _ _ _ _ Hy), (bind_ok _ _ _ _ _ Hys).
    reflexivity.
Qed.

Section CriticDown.
Context {W : Type} (C : Collaborators W) (P : Prompts).
Hypothesis Hdown : model_down C.

Lemma evaluate_pair_model_down (pair : Document * Summary.t) (st : St W) :
  exists ev st',
    CriticAgent.evaluate_pair C P pair st = (Ok ev, st') /\
    zero_evaluation ev /\
    List.length (critic_errors st') = (List.length (critic_errors st) + 4)%nat.
Proof.
  destruct pair as [doc summary]. unfold CriticAgent.evaluate_pair.
  destruct (scoring_model_down C (quality_prompt P doc summary)
              "Error evaluating quality: " st Hdown) as (e1 & w1 & H1).
  set (st1 := mkSt w1 _ _ _ _) in H1.
  destruct (scoring_model_down C (relevance_prompt P doc summary)
              "Error evaluating relevance: " st1 Hdown) as (e2 & w2 & H2).
  set (st2 := mkSt w2 _ _ _ _) in H2.
  destruct (scoring_model_down C (methodology_prompt P doc)
              "Error evaluating methodology: " st2 Hdown) as (e3 & w3 & H3).
  set (st3 := mkSt w3 _ _ _ _) in H3.
  destruct (generate_critique_model_down C P doc summary st3 Hdown)
    as (e4 & w4 & H4).
  eexists _, _. split.
  - change (CriticAgent._evaluate_quality C P doc summary)
      with (scoring C (quality_prompt P doc summary) "Error evaluating quality: ").
    change (CriticAgent._evaluate_relevance C P doc summary)
      with (scoring C (relevance_prompt P doc summary)
              "Error evaluating relevance: ").
    change (CriticAgent._evaluate_methodology C P doc)
      with (scoring C (methodology_prompt P doc) "Error evaluating methodology: ").
    rewrite (bind_ok _ _ _ _ _ H1), (bind_ok _ _ _ _ _ H2),
      (bind_ok _ _ _ _ _ H3), (bind_ok _ _ _ _ _ H4).
    reflexivity.
  - split.
    + repeat split. eexists. split; [reflexivity | reflexivity].
    + subst st1 st2 st3. cbn [critic_errors]. rewrite !length_app. cbn. lia.
Qed.

Lemma critic_process_model_down (documents : list Document)
    (summaries : list Summary.t) (st : St W) :
  exists evaluations averages st',
    CriticAgent.process C P documents summaries st
    = (Ok (Evaluations.mk evaluations averages), st') /\
    List.length evaluations
    = Nat.min (List.length documents) (List.length summaries) /\
    Forall zero_evaluation evaluations /\
    List.length (critic_errors st')
    = (List.length (critic_errors st) + 4 * List.length evaluations)%nat.
Proof.
  destruct (for_each_counted (CriticAgent.evaluate_pair C P)
              (fun _ ev => zero_evaluation ev)
              (fun st0 => List.length (critic_errors st0)) 4
              evaluate_pair_model_down (combine documents summaries) st)
    as (evaluations & st1 & Hloop & Hrel & Hcount).
  destruct (calculate_average_scores_run evaluations st1)
    as (averages & Havg & _).
  exists evaluations, averages, st1.
  assert (Hlen : List.length evaluations
                 = Nat.min (List.length documents) (List.length summaries)).
  { rewrite <- (Forall2_length Hrel). apply length_combine. }
  split.
  { unfold CriticAgent.process, try_except.
    rewrite (bind_ok _ _ _ _ _ Hloop), (bind_ok _ _ _ _ _ Havg). reflexivity. }
  split; [exact Hlen|]. split.
  - exact (Forall2_right _ _ _ Hrel).
  - rewrite Hcount, <- (Forall2_length Hrel). reflexivity.
Qed.

End CriticDown.

(** With the model down, the critic still returns one evaluation per pair:
    all three scores are 0.0, the overall score is 0, the critique is the
    default one, and four errors per pair are added to the critic's log. *)
Theorem critic_model_down :
  forall (W : Type) (C : Collaborators W) (P : Prompts),
    model_down C ->
    forall (documents : list Document) (summaries : list Summary.t) (st : St W),
    exists evaluations averages st',
      CriticAgent.process C P documents summaries st
      = (Ok (Evaluations.mk evaluations averages), st') /\
      List.length evaluations
      = Nat.min (List.length documents) (List.length summaries) /\
      Forall zero_evaluation evaluations /\
      List.length (critic_errors st')
      = (List.length (critic_errors st) + 4 * List.length evaluations)%nat.
Proof. intros W C P Hdown. exact (critic_process_model_down C P Hdown). Qed.

Lemma critic_model_down_witness :
  exists evaluations averages st',
    CriticAgent.process model_down_world plain_prompts
      [scored "a" (9 # 10); scored "b" (8 # 10)]
      [Summary.mk "a" "s" (VDict []) (titled "a");
       Summary.mk "b" "s" (VDict []) (titled "b")] empty_st
    = (Ok (Evaluations.mk evaluations averages), st') /\
    List.length (critic_errors st') = 8%nat.
Proof.
  assert (Hdown : model_down model_down_world).
  { intros prompt w. exists "service unavailable", w. reflexivity. }
  destruct (critic_model_down unit model_down_world plain_prompts Hdown
              [scored "a" (9 # 10); scored "b" (8 # 10)]
              [Summary.mk "a" "s" (VDict []) (titled "a");
               Summary.mk "b" "s" (VDict []) (titled "b")] empty_st)
    as (evaluations & averages & st' & Hrun & Hlen & _ & Hlog).
  exists evaluations, averages, st'. split; [exact Hrun|].
  rewrite Hlog, Hlen. reflexivity.
Defined.

(** ** The summarizer *)

Lemma for_each_cases {W A B} (f : A -> M W B) (R : A -> B -> Prop) :
  (forall x st y st', f x st = (Ok y, st') -> R x y) ->
  forall xs st,
    (exists ys st', for_each f xs st = (Ok ys, st') /\ Forall2 R xs ys) \/
    (exists x st0 e st', In x xs /\ f x st0 = (Raise e, st') /\
                         for_each f xs st = (Raise e, st')).
Proof.
  intros Hf xs. induction xs as [|x rest IH]; intro st.
  - left. exists [], st. split; [reflexivity | constructor].
  - cbn [for_each]. unfold bind at 1.
    destruct (f x st) as [[y|e] st1] eqn:E.
    + destruct (IH st1) as [(ys & st2 & Hys & HR) | (x' & st0 & e & st2 & Hin & Hx & Hr)].
      * left. exists (y :: ys), st2. rewrite (bind_ok _ _ _ _ _ Hys).
        split; [reflexivity|]. constructor; [eapply Hf; exact E | exact HR].
      * right. exists x', st0, e, st2. split; [right; exact Hin|].
        split; [exact Hx|]. unfold bind. rewrite E, Hr. reflexivity.
    + right. exists x, st, e, st1. split; [left; reflexivity|].
      split; [exact E|]. unfold bind. rewrite E. reflexivity.
Qed.

Section SummarizerFacts.
Context {W : Type} (C : Collaborators W) (P : Prompts).

Lemma extract_key_information_total (doc : Document) (summary : string) :
  total (SummarizerAgent._extract_key_information C P doc summary).
Proof. unfold SummarizerAgent._extract_key_information. py_structure. Qed.

(** The body of the loop of [process]. *)
Lemma summarize_one_cases (doc : Document) (st : St W) :
  let body :=
    (summary <- call (summarize_chain C doc) ;;
     key_info <- SummarizerAgent._extract_key_information C P doc summary ;;
     ret (Summary.mk (get (title (metadata doc)) "") summary key_info
            (metadata doc))) in
  (exists s st', body st = (Ok s, st') /\
                 Summary.title s = get (title (metadata doc)) "" /\
                 Summary.metadata s = metadata doc) \/
  (exists e st', body st = (Raise e, st') /\
                 call (summarize_chain C doc) st = (Raise e, st')).
Proof.
  cbv zeta.
  destruct (call (summarize_chain C doc) st) as [[summary|e] st1] eqn:E.
  - left. destruct (extract_key_information_total doc summary st1)
      as (k & st2 & Hk).
    eexists _, st2. rewrite (bind_ok _ _ _ _ _ E), (bind_ok _ _ _ _ _ Hk).
    split; [reflexivity|]. split; reflexivity.
  - right. exists e, st1. split; [|reflexivity].
    unfold bind at 1. rewrite E. reflexivity.
Qed.

Lemma summarizer_process_cases (documents : list Document) (st : St W) :
  exists summaries st',
    SummarizerAgent.process C P documents st = (Ok summaries, st') /\
    (Forall2 (fun doc s => Summary.title s = get (title (metadata doc)) "" /\
                           Summary.metadata s = metadata doc)
             documents summaries \/
     (summaries = [] /\
      exists doc st0 e st1,
        In doc documents /\
        call (summarize_chain C doc) st0 = (Raise e, st1) /\
        summarizer_errors st'
        = summarizer_errors st1 ++ ["Error summarizing documents: " ^^ e])).
Proof.
  unfold SummarizerAgent.process, try_except.
  match goal with
  | |- context [for_each ?f documents st] =>
      destruct (for_each_cases f
                  (fun doc s => Summary.title s = get (title (metadata doc)) "" /\
                                Summary.metadata s = metadata doc)) with
        (xs := documents) (st := st)
        as [(ys & st1 & Hys & HR) | (doc & st0 & e & st1 & Hin & Hdoc & Hr)]
  end.
  - intros doc st0 s st1 H.
    destruct (summarize_one_cases doc st0) as [(s' & st1' & Hs & Ht & Hm) | (e & st1' & Hs & _)];
      cbv zeta in Hs; rewrite Hs in H; [|discriminate].
    injection H as <- _. split; assumption.
  - exists ys, st1. rewrite Hys. split; [reflexivity | left; exact HR].
  - rewrite Hr. eexists _, _. split; [reflexivity|]. right.
    split; [reflexivity|].
    destruct (summarize_one_cases doc st0) as [(s' & st1' & Hs & _) | (e' & st1' & Hs & Hchain)];
      cbv zeta in Hs; rewrite Hs in Hdoc; [discriminate|].
    injection Hdoc as <- <-.
    exists doc, st0, e', st1'. split; [exact Hin|]. split; [exact Hchain|].
    reflexivity.
Qed.

End SummarizerFacts.

Lemma for_each_app {W A B} (f : A -> M W B) (xs ys : list A) :
  forall (st st1 : St W) (done : list B),
    for_each f xs st = (Ok done, st1) ->
    for_each f (xs ++ ys) st
    = match for_each f ys st1 with
      | (Ok more, st2) => (Ok (done ++ more), st2)
      | (Raise e, st2) => (Raise e, st2)
      end.
Proof.
  induction xs as [|x rest IH]; intros st st1 done H.
  - cbn in H. unfold ret in H. injection H as <- <-. cbn [app].
    destruct (for_each f ys st) as [[more|e] st2]; reflexivity.
  - cbn [for_each app] in *. unfold bind at 1 in H. unfold bind at 1.
    destruct (f x st) as [[y|e] sta]; [|discriminate].
    unfold bind at 1 in H. unfold bind at 1.
    destruct (for_each f rest sta) as [[ys'|e] stb] eqn:E; [|discriminate].
    unfold ret in H. injection H as <- <-.
    rewrite (IH _ _ _ E).
    destruct (for_each f ys stb) as [[more|e] st2]; reflexivity.
Qed.

Lemma for_each_length {W A B} (f : A -> M W B) (xs : list A) :
  forall (st st' : St W) (ys : list B),
    for_each f xs st = (Ok ys, st') -> List.length ys = List.length xs.
Proof.
  induction xs as [|x rest IH]; intros st st' ys H.
  - cbn in H. unfold ret in H. injection H as <- _. reflexivity.
  - cbn [for_each] in H. unfold bind at 1 in H.
    destruct (f x st) as [[y|e] sta]; [|discriminate].
    unfold bind at 1 in H.
    destruct (for_each f rest sta) as [[ys'|e] stb] eqn:E; [|discriminate].
    unfold ret in H. injection H as <- _. cbn. rewrite (IH _ _ _ E).
    reflexivity.
Qed.

Section SummarizerOrder.
Context {W : Type} (C : Collaborators W) (P : Prompts).

Lemma summarize_loop_length (documents : list Document) :
  forall (st st' : St W) (summaries : list Summary.t),
    summarize_loop C P documents st = (Ok summaries, st') ->
    List.length summaries = List.length documents.
Proof. intros st st' summaries H. exact (for_each_length _ _ _ _ _ H). Qed.

(** A run of [process] that returns as many summaries as documents is a run
    of the loop that did not fail. *)
Lemma process_complete_loop (documents : list Document) (st st' : St W)
    (summaries : list Summary.t) :
  SummarizerAgent.process C P documents st = (Ok summaries, st') ->
  List.length summaries = List.length documents ->
  summarize_loop C P documents st = (Ok summaries, st').
Proof.
  intros H Hlen.
  change (SummarizerAgent.process C P documents)
    with (try_except (summarize_loop C P documents)
            (fun e => add_error Summarizer ("Error summarizing documents: " ^^ e) ;;;
                      ret [])) in H.
  unfold try_except in H.
  destruct (summarize_loop C P documents st) as [[ss|e] sta] eqn:E.
  - exact H.
  - unfold bind, add_error, ret in H. injection H as <- _.
    destruct documents as [|doc rest]; [|discriminate Hlen].
    cbn in E. discriminate E.
Qed.

Lemma summarizer_chain_raises (before after : list Document) (doc : Document)
    (st st1 st2 : St W) (summaries : list Summary.t) (e : string) :
  SummarizerAgent.process C P before st = (Ok summaries, st1) ->
  List.length summaries = List.length before ->
  call (summarize_chain C doc) st1 = (Raise e, st2) ->
  SummarizerAgent.process C P (before ++ doc :: after) st
  = (Ok [],
     mkSt (world st2) (research_errors st2)
          (summarizer_errors st2 ++ ["Error summarizing documents: " ^^ e])
          (critic_errors st2) (writer_errors st2)).
Proof.
  intros H Hlen Hchain. apply process_complete_loop in H; [|exact Hlen].
  change (SummarizerAgent.process C P (before ++ doc :: after))
    with (try_except (summarize_loop C P (before ++ doc :: after))
            (fun e => add_error Summarizer ("Error summarizing documents: " ^^ e) ;;;
                      ret [])).
  unfold try_except, summarize_loop in *.
  rewrite (for_each_app _ before (doc :: after) st st1 summaries H).
  cbn [for_each]. unfold bind at 1. unfold bind at 1. rewrite Hchain.
  reflexivity.
Qed.

Lemma summarizer_chain_returns (before : list Document) (doc : Document)
    (st st1 st2 : St W) (summaries : list Summary.t) (text : string) :
  SummarizerAgent.process C P before st = (Ok summaries, st1) ->
  List.length summaries = List.length before ->
  call (summarize_chain C doc) st1 = (Ok text, st2) ->
  exists key_info st',
    SummarizerAgent.process C P (before ++ [doc]) st
    = (Ok (summaries ++
           [Summary.mk (get (title (metadata doc)) "") text key_info
              (metadata doc)]), st').
Proof.
  intros H Hlen Hchain. apply process_complete_loop in H; [|exact Hlen].
  destruct (extract_key_information_total C P doc text st2) as (k & st3 & Hk).
  exists k, st3.
  change (SummarizerAgent.process C P (before ++ [doc]))
    with (try_except (summarize_loop C P (before ++ [doc]))
            (fun e => add_error Summarizer ("Error summarizing documents: " ^^ e) ;;;
                      ret [])).
  unfold try_except, summarize_loop in *.
  rewrite (for_each_app _ before [doc] st st1 summaries H).
  cbn [for_each]. unfold bind at 1. unfold bind at 1. rewrite Hchain.
  unfold bind at 1. rewrite Hk. reflexivity.
Qed.

End SummarizerOrder.

(** The summarizer is all or nothing.  It never raises, and it returns either
    one summary per document, in order, each with its document's title and
    metadata, or no summary at all.  Which of the two is decided by the
    summarization chain alone: once the documents [before] have been
    summarized, a chain call that raises on the next document makes the
    whole run return the empty list -- the summaries made so far are
    dropped, the documents [after] are never tried, and the chain's message
    is appended to the summarizer's log -- while a chain call that returns
    adds the document's summary to those made so far, whether or not the
    key-finding extraction fails. *)
Theorem summarizer_process_all_or_nothing :
  forall (W : Type) (C : Collaborators W) (P : Prompts),
    (forall (documents : list Document) (st : St W),
      exists summaries st',
        SummarizerAgent.process C P documents st = (Ok summaries, st') /\
        (Forall2 (fun doc s => Summary.title s = get (title (metadata doc)) "" /\
                               Summary.metadata s = metadata doc)
                 documents summaries \/
         (summaries = [] /\
          exists doc st0 e st1,
            In doc documents /\
            call (summarize_chain C doc) st0 = (Raise e, st1) /\
            summarizer_errors st'
            = summarizer_errors st1 ++ ["Error summarizing documents: " ^^ e]))) /\
    (forall (before after : list Document) (doc : Document) (st st1 st2 : St W)
            (summaries : list Summary.t) (e : string),
        SummarizerAgent.process C P before st = (Ok summaries, st1) ->
        List.length summaries = List.length before ->
        call (summarize_chain C doc) st1 = (Raise e, st2) ->
        SummarizerAgent.process C P (before ++ doc :: after) st
        = (Ok [],
           mkSt (world st2) (research_errors st2)
                (summarizer_errors st2 ++ ["Error summarizing documents: " ^^ e])
                (critic_errors st2) (writer_errors st2))) /\
    (forall (before : list Document) (doc : Document) (st st1 st2 : St W)
            (summaries : list Summary.t) (text : string),
        SummarizerAgent.process C P before st = (Ok summaries, st1) ->
        List.length summaries = List.length before ->
        call (summarize_chain C doc) st1 = (Ok text, st2) ->
        exists key_info st',
          SummarizerAgent.process C P (before ++ [doc]) st
          = (Ok (summaries ++
                 [Summary.mk (get (title (metadata doc)) "") text key_info
                    (metadata doc)]), st')).
Proof.
  intros W C P. split; [exact (summarizer_process_cases C P)|]. split.
  - intros before after doc st st1 st2 summaries e.
    exact (summarizer_chain_raises C P before after doc st st1 st2 summaries e).
  - intros before doc st st1 st2 summaries text.
    exact (summarizer_chain_returns C P before doc st st1 st2 summaries text).
Qed.

Lemma summarizer_process_all_or_nothing_witness :
  SummarizerAgent.process chain_fails_world plain_prompts
    ([scored "first" (9 # 10)] ++ scored "second" (8 # 10)
       :: [scored "third" (7 # 10)]) empty_st
  = (Ok [], mkSt tt [] ["Error summarizing documents: context too long"] [] []).
Proof.
  apply (proj1 (proj2 (summarizer_process_all_or_nothing unit chain_fails_world
                         plain_prompts))
           [scored "first" (9 # 10)] [scored "third" (7 # 10)]
           (scored "second" (8 # 10)) empty_st empty_st empty_st
           [Summary.mk "first" "summary" (VDict []) (metadata (scored "first" (9 # 10)))]
           "context too long").
  - vm_compute. reflexivity.
  - reflexivity.
  - reflexivity.
Defined.

(** One document whose summarization fails costs the summaries of all. *)
Example summarizer_second_fails :
  SummarizerAgent.process chain_fails_world plain_prompts
    [scored "first" (9 # 10); scored "second" (8 # 10); scored "third" (7 # 10)]
    empty_st
  = (Ok [], mkSt tt [] ["Error summarizing documents: context too long"] [] []).
Proof. vm_compute. reflexivity. Qed.

(** ** The writer without the model *)

Section WriterDown.
Context {W : Type} (C : Collaborators W) (P : Prompts).
Hypothesis Hdown : model_down C.

Lemma executive_summary_model_down (query : string)
    (summaries : list Summary.t) (evaluations : option Evaluations.t)
    (synthesis : pyval) (st : St W) :
  exists st',
    WriterAgent._generate_executive_summary C P query summaries evaluations
      synthesis st = (Ok "", st').
Proof.
  unfold WriterAgent._generate_executive_summary, try_except, bind, lift, call.
  destruct (executive_summary_prompt P query synthesis evaluations) as [prompt|e].
  - destruct (Hdown prompt (world st)) as (e & w & ->). eexists. reflexivity.
  - eexists. reflexivity.
Qed.

Lemma methodology_section_model_down (documents : list Document)
    (evaluations : option Evaluations.t) (st : St W) :
  exists st',
    WriterAgent._generate_methodology_section C P documents evaluations st
    = (Ok (VDict []), st').
Proof.
  unfold WriterAgent._generate_methodology_section, try_except, bind, lift, call.
  destruct (methodology_section_prompt P _ evaluations) as [prompt|e].
  - destruct (Hdown prompt (world st)) as (e & w & ->). eexists. reflexivity.
  - eexists. reflexivity.
Qed.

Lemma findings_section_model_down (summaries : list Summary.t)
    (synthesis : pyval) (st : St W) :
  exists st',
    WriterAgent._generate_findings_section C P summaries synthesis st
    = (Ok (VDict []), st').
Proof.
  unfold WriterAgent._generate_findings_section, try_except, bind, lift, call.
  destruct (findings_prompt P summaries synthesis) as [prompt|e].
  - destruct (Hdown prompt (world st)) as (e & w & ->). eexists. reflexivity.
  - eexists. reflexivity.
Qed.

Lemma analysis_section_model_down (evaluations : option Evaluations.t)
    (synthesis : pyval) (st : St W) :
  exists st',
    WriterAgent._generate_analysis_section C P evaluations synthesis st
    = (Ok (VDict []), st').
Proof.
  unfold WriterAgent._generate_analysis_section, try_except, bind, lift, call.
  destruct (analysis_prompt P evaluations synthesis) as [prompt|e].
  - destruct (Hdown prompt (world st)) as (e & w & ->). eexists. reflexivity.
  - eexists. reflexivity.
Qed.

Lemma recommendations_model_down (synthesis : pyval)
    (evaluations : option Evaluations.t) (st : St W) :
  exists st',
    WriterAgent._generate_recommendations C P synthesis evaluations st
    = (Ok (VList []), st').
Proof.
  unfold WriterAgent._generate_recommendations, try_except, bind, lift, call.
  destruct (recommendations_prompt P synthesis evaluations) as [prompt|e].
  - destruct (Hdown prompt (world st)) as (e & w & ->). eexists. reflexivity.
  - eexists. reflexivity.
Qed.

Lemma writer_process_model_down (query : string) (documents : list Document)
    (summaries : list Summary.t) (evaluations : option Evaluations.t)
    (synthesis : pyval) (st : St W) :
  exists report st',
    WriterAgent.process C P query documents summaries evaluations synthesis st
    = (Ok (Some report), st') /\
    Report.executive_summary report = "" /\
    Report.methodology report = VDict [] /\
    Report.findings report = VDict [] /\
    Report.analysis report = VDict [] /\
    Report.recommendations report = VList [] /\
    List.length (Report.references report) = List.length documents.
Proof.
  destruct (executive_summary_model_down query summaries evaluations synthesis st)
    as (st1 & H1).
  destruct (methodology_section_model_down documents evaluations st1)
    as (st2 & H2).
  destruct (findings_section_model_down summaries synthesis st2) as (st3 & H3).
  destruct (analysis_section_model_down evaluations synthesis st3) as (st4 & H4).
  destruct (recommendations_model_down synthesis evaluations st4) as (st5 & H5).
  destruct (now_total C "%Y-%m-%d" st5) as (date & st6 & H6).
  set (references :=
         map (fun doc =>
                let m := metadata doc in
                Reference.mk (get (title m) "") (get (authors m) [])
                  (get (year m) (VStr "")) (get (source m) "")
                  (get (url m) "")) documents).
  set (report := Report.mk ("Research Report: " ^^ query) date query ""
                   (VDict []) (VDict []) (VDict []) (VList []) references).
  destruct (save_report_total C report st6) as (path & st7 & H7).
  exists report, st7. split.
  - unfold WriterAgent.process, try_except.
    rewrite (bind_ok _ _ _ _ _ H1), (bind_ok _ _ _ _ _ H2),
      (bind_ok _ _ _ _ _ H3), (bind_ok _ _ _ _ _ H4), (bind_ok _ _ _ _ _ H5),
      (bind_ok _ _ _ _ _ H6).
    unfold WriterAgent._generate_references at 1.
    unfold try_except at 1. unfold bind at 1. unfold ret at 1.
    fold references. fold report.
    rewrite (bind_ok _ _ _ _ _ H7). reflexivity.
  - repeat (split; [reflexivity|]).
    subst report references. cbn [Report.references]. apply length_map.
Qed.

End WriterDown.

(** With the model down, the writer still returns a report: the executive
    summary is empty, methodology, findings and analysis are empty dicts,
    the recommendations an empty list, and the references are there, one per
    document. *)
Theorem writer_model_down :
  forall (W : Type) (C : Collaborators W) (P : Prompts),
    model_down C ->
    forall (query : string) (documents : list Document)
           (summaries : list Summary.t) (evaluations : option Evaluations.t)
           (synthesis : pyval) (st : St W),
    exists report st',
      WriterAgent.process C P query documents summaries evaluations synthesis st
      = (Ok (Some report), st') /\
      Report.executive_summary report = "" /\
      Report.methodology report = VDict [] /\
      Report.findings report = VDict [] /\
      Report.analysis report = VDict [] /\
      Report.recommendations report = VList [] /\
      List.length (Report.references report) = List.length documents.
Proof. intros W C P Hdown. exact (writer_process_model_down C P Hdown). Qed.

Lemma writer_model_down_witness :
  exists report st',
    WriterAgent.process model_down_world plain_prompts "q"
      [scored "a" (9 # 10)] [] None (VDict []) empty_st
    = (Ok (Some report), st') /\
    Report.executive_summary report = "" /\
    List.length (Report.references report) = 1%nat.
Proof.
  assert (Hdown : model_down model_down_world).
  { intros prompt w. exists "service unavailable", w. reflexivity. }
  destruct (writer_model_down unit model_down_world plain_prompts Hdown "q"
              [scored "a" (9 # 10)] [] None (VDict []) empty_st)
    as (report & st' & Hrun & Hes & _ & _ & _ & _ & Hrefs).
  exists report, st'. split; [exact Hrun|]. split; [exact Hes | exact Hrefs].
Defined.

(** ** Who writes to which log *)

Section LogFacts.
Context {W : Type}.

Lemma appends_ret {A} (a : Agent) (x : A) : appends_only_to a (@ret W A x).
Proof.
  intros st r st' H. injection H as _ <-.
  split; [exists []; rewrite app_nil_r; reflexivity | reflexivity].
Qed.

Lemma appends_raise {A} (a : Agent) (msg : string) :
  appends_only_to a (@raise W A msg).
Proof.
  intros st r st' H. injection H as _ <-.
  split; [exists []; rewrite app_nil_r; reflexivity | reflexivity].
Qed.

Lemma appends_lift {A} (a : Agent) (r : result A) :
  appends_only_to a (@lift W A r).
Proof.
  intros st r' st' H. injection H as _ <-.
  split; [exists []; rewrite app_nil_r; reflexivity | reflexivity].
Qed.

Lemma appends_call {A} (a : Agent) (f : W -> result A * W) :
  appends_only_to a (call f).
Proof.
  intros st r st' H. unfold call in H.
  destruct (f (world st)) as [r' w]. injection H as _ <-.
  split; [exists []; rewrite app_nil_r; destruct a; reflexivity|].
  intros b _. destruct b; reflexivity.
Qed.

Lemma appends_add_error (a : Agent) (msg : string) :
  appends_only_to a (@add_error W a msg).
Proof.
  intros st r st' H. unfold add_error in H. injection H as _ <-.
  split; [exists [msg]; destruct a; reflexivity|].
  intros b Hb. destruct a, b; try reflexivity; contradiction.
Qed.

Lemma appends_bind {A B} (a : Agent) (c : M W A) (k : A -> M W B) :
  appends_only_to a c -> (forall x, appends_only_to a (k x)) ->
  appends_only_to a (bind c k).
Proof.
  intros Hc Hk st r st' H. unfold bind in H.
  destruct (c st) as [[x|e] st1] eqn:E.
  - destruct (Hc _ _ _ E) as [[add1 H1] F1].
    destruct (Hk x _ _ _ H) as [[add2 H2] F2].
    split.
    + exists (add1 ++ add2). rewrite H2, H1, app_assoc. reflexivity.
    + intros b Hb. rewrite (F2 b Hb). exact (F1 b Hb).
  - injection H as _ <-. exact (Hc _ _ _ E).
Qed.

Lemma appends_try_except {A} (a : Agent) (c : M W A) (h : string -> M W A) :
  appends_only_to a c -> (forall e, appends_only_to a (h e)) ->
  appends_only_to a (try_except c h).
Proof.
  intros Hc Hh st r st' H. unfold try_except in H.
  destruct (c st) as [[x|e] st1] eqn:E.
  - injection H as _ <-. exact (Hc _ _ _ E).
  - destruct (Hc _ _ _ E) as [[add1 H1] F1].
    destruct (Hh e _ _ _ H) as [[add2 H2] F2].
    split.
    + exists (add1 ++ add2). rewrite H2, H1, app_assoc. reflexivity.
    + intros b Hb. rewrite (F2 b Hb). exact (F1 b Hb).
Qed.

Lemma appends_for_each {A B} (a : Agent) (f : A -> M W B) (xs : list A) :
  (forall x, appends_only_to a (f x)) -> appends_only_to a (for_each f xs).
Proof.
  intro Hf. induction xs as [|x rest IH]; cbn [for_each].
  - apply appends_ret.
  - apply appends_bind; [apply Hf|]. intro y.
    apply appends_bind; [exact IH|]. intro ys. apply appends_ret.
Qed.

End LogFacts.

(** Closes [appends_only_to a c] for code built from the monad's
    operations. *)
Ltac py_log :=
  repeat first
    [ apply appends_try_except; [|intro]
    | apply appends_bind; [|intro]
    | apply appends_for_each; intro
    | apply appends_ret
    | apply appends_raise
    | apply appends_lift
    | apply appends_call
    | apply appends_add_error
    | match goal with
      | |- appends_only_to _ (let (_, _) := ?p in _) => destruct p
      | |- appends_only_to _ (if ?b then _ else _) => destruct b
      | |- appends_only_to _ (match ?l with [] => _ | _ :: _ => _ end) =>
          destruct l
      end
    ].

Lemma extract_loop_appends {W} (C : Collaborators W) (a : Agent)
    (results : list WebResult) :
  appends_only_to a (WebSearch.extract_loop C results).
Proof.
  induction results as [|r rest IH]; cbn [WebSearch.extract_loop].
  - apply appends_ret.
  - unfold WebSearch.extract_one, WebSearch.extract_content. py_log. exact IH.
Qed.

(** Each agent keeps its failures to itself: whatever happens, its entry
    points only append to the agent's own error log -- nothing is removed or
    changed -- and write to no other agent's log. *)
Theorem agents_log_separately :
  forall (W : Type) (C : Collaborators W) (P : Prompts),
    (forall query, appends_only_to Research (ResearchAgent.process C query)) /\
    (forall documents,
        appends_only_to Summarizer (SummarizerAgent.process C P documents)) /\
    (forall summaries,
        appends_only_to Summarizer
          (SummarizerAgent.cross_document_synthesis C P summaries)) /\
    (forall documents summaries,
        appends_only_to Critic (CriticAgent.process C P documents summaries)) /\
    (forall query documents summaries evaluations synthesis,
        appends_only_to Writer
          (WriterAgent.process C P query documents summaries evaluations
             synthesis)).
Proof.
  intros W C P. split; [|split; [|split; [|split]]].
  - intro query.
    unfold ResearchAgent.process, HybridRetriever.retrieve,
      EmbeddingsManager.get_embedding, WebSearch.search_and_extract,
      WebSearch.search, ResearchAgent.filter_by_relevance,
      ResearchAgent.extract_metadata.
    py_log. apply extract_loop_appends.
  - intro documents.
    unfold SummarizerAgent.process, SummarizerAgent._extract_key_information.
    py_log.
  - intro summaries. unfold SummarizerAgent.cross_document_synthesis. py_log.
  - intros documents summaries.
    unfold CriticAgent.process, CriticAgent.evaluate_pair,
      CriticAgent._calculate_average_scores.
    py_log.
  - intros query documents summaries evaluations synthesis.
    unfold WriterAgent.process, WriterAgent._generate_executive_summary,
      WriterAgent._generate_methodology_section,
      WriterAgent._generate_findings_section,
      WriterAgent._generate_analysis_section,
      WriterAgent._generate_recommendations, WriterAgent._generate_references,
      WriterAgent._save_report.
    py_log.
Qed.

(** ** Building the index *)

Lemma points_from_ids (documents : list Document) :
  forall (i : nat) (embeddings : list (list Q)),
    map point_id (Indexing.points_from i documents embeddings)
    = seq i (Nat.min (List.length documents) (List.length embeddings)).
Proof.
  induction documents as [|doc rest IH]; intros i [|e embeddings];
    cbn; try reflexivity.
  rewrite IH. reflexivity.
Qed.

Lemma points_from_contents (documents : list Document) :
  forall (i : nat) (embeddings : list (list Q)),
    Forall2 (fun p de => point_text p = page_content (fst de) /\
                         point_metadata p = metadata (fst de) /\
                         point_vector p = snd de)
            (Indexing.points_from i documents embeddings)
            (combine documents embeddings).
Proof.
  induction documents as [|doc rest IH]; intros i [|e embeddings]; cbn;
    constructor; [repeat split | apply IH].
Qed.

(** When the collection exists, [initialize] creates nothing and upserts one
    point per (document, embedding) pair, carrying the document's text and
    metadata; the points are numbered by position, from 0, so their ids are
    distinct -- and the same from one corpus to the next. *)
Theorem initialize_upserts_numbered_points :
  forall (W : Type) (V : Services W) (documents : list Document)
         (st st1 st2 : St W) (embeddings : list (list Q))
         (collections : list string),
    Indexing.get_embeddings V (map page_content documents) st
    = (Ok embeddings, st1) ->
    call (get_collections V) st1 = (Ok collections, st2) ->
    In Indexing.collection_name collections ->
    exists points,
      Indexing.initialize V documents st
      = try_except (call (upsert V Indexing.collection_name points))
          (fun e => raise ("Error initializing retriever: " ^^ e)) st2 /\
      map point_id points
      = seq 0 (Nat.min (List.length documents) (List.length embeddings)) /\
      NoDup (map point_id points) /\
      Forall2 (fun p de => point_text p = page_content (fst de) /\
                           point_metadata p = metadata (fst de) /\
                           point_vector p = snd de)
              points (combine documents embeddings).
Proof.
  intros W V documents st st1 st2 embeddings collections H1 H2 Hin.
  exists (Indexing.points_from 0 documents embeddings).
  split; [|split; [apply points_from_ids | split]].
  - assert (Hex : existsb (String.eqb Indexing.collection_name) collections = true).
    { apply existsb_exists. exists Indexing.collection_name.
      split; [exact Hin | apply String.eqb_refl]. }
    unfold Indexing.initialize, try_except.
    rewrite (bind_ok _ _ _ _ _ H1), (bind_ok _ _ _ _ _ H2), Hex.
    cbn [negb]. unfold bind at 1. unfold ret at 1. reflexivity.
  - rewrite points_from_ids. apply seq_NoDup.
  - apply points_from_contents.
Qed.

Lemma initialize_upserts_numbered_points_witness :
  exists points,
    Indexing.initialize
      (scripted_services ["academic_papers"] [[1 # 2]; [1 # 3]])
      [scored "a" (9 # 10); scored "b" (8 # 10)] empty_st
    = try_except
        (call (upsert (scripted_services ["academic_papers"] [[1 # 2]; [1 # 3]])
                 Indexing.collection_name points))
        (fun e => raise ("Error initializing retriever: " ^^ e)) empty_st /\
    map point_id points = [0; 1]%nat.
Proof.
  destruct (initialize_upserts_numbered_points unit
              (scripted_services ["academic_papers"] [[1 # 2]; [1 # 3]])
              [scored "a" (9 # 10); scored "b" (8 # 10)]
              empty_st empty_st empty_st [[1 # 2]; [1 # 3]] ["academic_papers"]
              eq_refl eq_refl (or_introl eq_refl))
    as (points & Hrun & Hids & _).
  exists points. split; [exact Hrun | exact Hids].
Defined.

(** With nothing embedded and no collection yet, [initialize] raises an
    index error of its own making -- it reads the size of a first embedding
    that is not there -- having created and upserted nothing. *)
Theorem initialize_nothing_to_index_raises :
  forall (W : Type) (V : Services W) (documents : list Document)
         (st st1 st2 : St W) (collections : list string),
    Indexing.get_embeddings V (map page_content documents) st = (Ok [], st1) ->
    call (get_collections V) st1 = (Ok collections, st2) ->
    ~ In Indexing.collection_name collections ->
    Indexing.initialize V documents st
    = (Raise "Error initializing retriever: list index out of range", st2).
Proof.
  intros W V documents st st1 st2 collections H1 H2 Hnotin.
  assert (Hex : existsb (String.eqb Indexing.collection_name) collections = false).
  { destruct (existsb _ collections) eqn:E; [|reflexivity].
    apply existsb_exists in E. destruct E as (name & Hin & Heq).
    apply String.eqb_eq in Heq. subst name. contradiction. }
  unfold Indexing.initialize, try_except.
  rewrite (bind_ok _ _ _ _ _ H1), (bind_ok _ _ _ _ _ H2), Hex.
  reflexivity.
Qed.

Lemma initialize_nothing_to_index_raises_witness :
  Indexing.initialize (scripted_services [] []) [] empty_st
  = (Raise "Error initializing retriever: list index out of range", empty_st).
Proof.
  apply (initialize_nothing_to_index_raises unit (scripted_services [] []) []
           empty_st empty_st empty_st []).
  - reflexivity.
  - reflexivity.
  - intros [].
Defined.

(** ** The service *)


(** ** File names of PDF documents *)

Lemma string_append_assoc (a b c : string) : (a ^^ b) ^^ c = a ^^ b ^^ c.
Proof. induction a as [|x a IH]; [reflexivity|]. cbn. rewrite IH. reflexivity. Qed.

Lemma has_append (c : ascii) (s t : string) :
  PDFParser.has c (s ^^ t) = PDFParser.has c s || PDFParser.has c t.
Proof.
  induction s as [|a s IH]; [reflexivity|].
  cbn. rewrite IH, orb_assoc. reflexivity.
Qed.

Lemma rfind_lacks (c : ascii) (s : string) :
  PDFParser.has c s = false -> PDFParser.rfind c s = None.
Proof.
  induction s as [|a s IH]; [reflexivity|].
  cbn. intro H. apply orb_false_iff in H. destruct H as [Ha Hs].
  rewrite (IH Hs), Ha. reflexivity.
Qed.

Lemma rfind_last (c : ascii) (s t : string) :
  PDFParser.has c t = false ->
  PDFParser.rfind c (s ^^ String c t) = Some (String.length s).
Proof.
  intro Ht. induction s as [|a s IH].
  - cbn. rewrite (rfind_lacks c t Ht), Ascii.eqb_refl. reflexivity.
  - cbn [String.append PDFParser.rfind String.length]. rewrite IH. reflexivity.
Qed.

Lemma substring_prefix (s t : string) :
  substring 0 (String.length s) (s ^^ t) = s.
Proof.
  induction s as [|a s IH]; [destruct t; reflexivity|].
  cbn. rewrite IH. reflexivity.
Qed.

Lemma other_than_dot (s : string) :
  PDFParser.has "." s = false -> s <> EmptyString ->
  PDFParser.has_other_than_dot s = true.
Proof.
  destruct s as [|a s]; [contradiction|].
  cbn. intros H _. apply orb_false_iff in H. destruct H as [-> _]. reflexivity.
Qed.

(** The extension is cut off a name that has no dot and no slash. *)
Lemma splitext_root_extension (name ext : string) :
  PDFParser.has "." name = false -> PDFParser.has "/" name = false ->
  PDFParser.has "." ext = false -> PDFParser.has "/" ext = false ->
  name <> EmptyString ->
  PDFParser.splitext_root (name ^^ String "." ext) = name.
Proof.
  intros Hdot Hsep Hedot Hesep Hne. unfold PDFParser.splitext_root.
  rewrite (rfind_last "." name ext Hedot).
  rewrite (rfind_lacks "/" (name ^^ String "." ext)).
  2:{ rewrite has_append. cbn. rewrite Hsep, Hesep. reflexivity. }
  rewrite Nat.sub_0_r, substring_prefix, (other_than_dot name Hdot Hne).
  reflexivity.
Qed.

Lemma split_lacks (sep : ascii) (s : string) :
  PDFParser.has sep s = false -> PDFParser.split sep s = [s].
Proof.
  induction s as [|a s IH]; [reflexivity|].
  cbn. intro H. apply orb_false_iff in H. destruct H as [Ha Hs].
  rewrite Ha, (IH Hs). reflexivity.
Qed.

Lemma split_first (sep : ascii) (s t : string) :
  PDFParser.has sep s = false ->
  PDFParser.split sep (s ^^ String sep t) = s :: PDFParser.split sep t.
Proof.
  induction s as [|a s IH]; intro H.
  - cbn. rewrite Ascii.eqb_refl. reflexivity.
  - cbn in H. apply orb_false_iff in H. destruct H as [Ha Hs].
    cbn [String.append PDFParser.split]. rewrite Ha, (IH Hs). reflexivity.
Qed.

(** Splitting undoes joining, for a list that is not empty. *)
Lemma split_concat (sep : ascii) (parts : list string) :
  parts <> [] ->
  Forall (fun s => PDFParser.has sep s = false) parts ->
  PDFParser.split sep (String.concat (String sep EmptyString) parts) = parts.
Proof.
  intros Hne Hall. induction Hall as [|x rest Hx Hrest IH]; [contradiction|].
  destruct rest as [|y rest'].
  - cbn. apply split_lacks. exact Hx.
  - change (String.concat (String sep EmptyString) (x :: y :: rest'))
      with (x ^^ String sep (String.concat (String sep EmptyString) (y :: rest'))).
    rewrite (split_first sep x _ Hx), IH; [reflexivity | discriminate].
Qed.

Lemma has_concat (c sep : ascii) (parts : list string) :
  Ascii.eqb sep c = false ->
  Forall (fun s => PDFParser.has c s = false) parts ->
  PDFParser.has c (String.concat (String sep EmptyString) parts) = false.
Proof.
  intros Hsep Hall. induction Hall as [|x rest Hx Hrest IH]; [reflexivity|].
  destruct rest as [|y rest']; [exact Hx|].
  change (String.concat (String sep EmptyString) (x :: y :: rest'))
    with (x ^^ String sep (String.concat (String sep EmptyString) (y :: rest'))).
  rewrite has_append, Hx. cbn [PDFParser.has]. rewrite Hsep, IH. reflexivity.
Qed.

(** A file named [title_author1-author2_year.pdf] gives back its title, its
    authors and its year, provided none of these parts holds an underscore,
    a dot or a slash, no author holds a hyphen, and there is an author. *)
Theorem extract_metadata_from_filename_roundtrip :
  forall (title : string) (authors : list string) (year : string),
    plain_part title -> plain_part year ->
    Forall plain_part authors ->
    Forall (fun a => PDFParser.has "-" a = false) authors ->
    authors <> [] ->
    PDFParser._extract_metadata_from_filename (pdf_filename title authors year)
    = PDFParser.mk title authors year "pdf" (pdf_filename title authors year).
Proof.
  intros title authors year (Ht_ & Htd & Hts) (Hy_ & Hyd & Hys) Hplain Hhyphen Hne.
  assert (Ha_ : PDFParser.has "_" (String.concat "-" authors) = false).
  { apply has_concat; [reflexivity|].
    eapply Forall_impl; [|exact Hplain]. intros a H. apply H. }
  assert (Had : PDFParser.has "." (String.concat "-" authors) = false).
  { apply has_concat; [reflexivity|].
    eapply Forall_impl; [|exact Hplain]. intros a H. apply H. }
  assert (Has : PDFParser.has "/" (String.concat "-" authors) = false).
  { apply has_concat; [reflexivity|].
    eapply Forall_impl; [|exact Hplain]. intros a H. apply H. }
  set (name := title ^^ "_" ^^ String.concat "-" authors ^^ "_" ^^ year).
  assert (Hname : pdf_filename title authors year = name ^^ String "." "pdf").
  { unfold pdf_filename, name.
    rewrite !string_append_assoc. reflexivity. }
  unfold PDFParser._extract_metadata_from_filename.
  rewrite Hname.
  rewrite splitext_root_extension.
  - unfold name.
    change (title ^^ "_" ^^ String.concat "-" authors ^^ "_" ^^ year)
      with (title ^^ String "_" (String.concat "-" authors ^^ String "_" year)).
    rewrite (split_first "_" title _ Ht_), (split_first "_" _ year Ha_),
      (split_lacks "_" year Hy_).
    rewrite (split_concat "-" authors Hne Hhyphen). reflexivity.
  - unfold name. rewrite !has_append, Htd, Had, Hyd. reflexivity.
  - unfold name. rewrite !has_append, Hts, Has, Hys. reflexivity.
  - reflexivity.
  - reflexivity.
  - unfold name. destruct title; discriminate.
Qed.

Lemma extract_metadata_from_filename_roundtrip_witness :
  PDFParser._extract_metadata_from_filename "Attention_Vaswani-Shazeer_2017.pdf"
  = PDFParser.mk "Attention" ["Vaswani"; "Shazeer"] "2017" "pdf"
      "Attention_Vaswani-Shazeer_2017.pdf".
Proof.
  apply (extract_metadata_from_filename_roundtrip "Attention"
           ["Vaswani"; "Shazeer"] "2017").
  - repeat split.
  - repeat split.
  - repeat constructor.
  - repeat constructor.
  - discriminate.
Defined.



(** ** The order of what the research stage returns *)

Lemma strongly_sorted_filter {A} (R : A -> A -> Prop) (p : A -> bool)
    (l : list A) :
  StronglySorted R l -> StronglySorted R (filter p l).
Proof.
  induction 1 as [|x l Hs IH Hall]; cbn [filter]; [constructor|].
  destruct (p x); [|exact IH].
  constructor; [exact IH|].
  apply Forall_forall. intros y Hy. apply filter_In in Hy.
  rewrite Forall_forall in Hall. apply Hall. apply Hy.
Qed.

Lemma enriched_score (doc : Document) : score_of (enriched doc) = score_of doc.
Proof.
  unfold enriched, score_of. cbn.
  destruct (relevance_score (metadata doc)); reflexivity.
Qed.

Lemma strongly_sorted_enriched (l : list Document) :
  StronglySorted desc l -> StronglySorted desc (map enriched l).
Proof.
  induction 1 as [|x l Hs IH Hall]; cbn [map]; constructor; [exact IH|].
  apply Forall_forall. intros y Hy. apply in_map_iff in Hy.
  destruct Hy as (z & <- & Hz). rewrite Forall_forall in Hall.
  unfold desc. rewrite !enriched_score. exact (Hall z Hz).
Qed.

(** The documents the research stage returns are in non-increasing order of
    relevance score: the order [retrieve] gave survives the filter and the
    metadata step. *)
Theorem research_process_sorted :
  forall (W : Type) (C : Collaborators W) (query : string) (st : St W),
  exists documents st',
    ResearchAgent.process C query st = (Ok documents, st') /\
    StronglySorted desc documents.
Proof.
  intros W C query st.
  destruct (HybridRetriever.retrieve C query 10 true st)
    as [[retrieved|e] st1] eqn:Hr.
  - eexists _, _. split; [apply process_retrieve_ok; exact Hr|].
    apply strongly_sorted_enriched, strongly_sorted_filter.
    apply retrieve_ok_inv in Hr.
    destruct Hr as (v & sta & hits & stb & web & _ & _ & _ & ->).
    apply firstn_strongly_sorted, sort_desc_sorted.
  - eexists _, _. split; [apply process_retrieve_raises; exact Hr|].
    constructor.
Qed.

(** ** The graph *)

(** A run is the five nodes, each once, in the order research, summarize,
    evaluate, synthesize, write; the graph has ended then, and further
    steps would run nothing more. *)
Lemma process_query_five_nodes :
  forall (W : Type) (A : ResearchCoordinator.Agents W) (query : string)
         (extra : nat),
    ResearchCoordinator.process_query A query
    = (s1 <- ResearchCoordinator._research_node A
               (ResearchCoordinator.initial_state query) ;;
       s2 <- ResearchCoordinator._summarize_node A s1 ;;
       s3 <- ResearchCoordinator._evaluate_node A s2 ;;
       s4 <- ResearchCoordinator._synthesize_node A s3 ;;
       s5 <- ResearchCoordinator._write_node A s4 ;;
       ret s5) /\
    ResearchCoordinator.ainvoke A (5 + extra) ResearchCoordinator.entry_point
      (ResearchCoordinator.initial_state query)
    = ResearchCoordinator.process_query A query.
Proof.
  intros W A query extra. split; reflexivity.
Qed.
